(** * Scrape_and_AI: chat store convergence

    A shallow embedding of the chat persistence core of the repository:
    [src/data/chat_database_manager.py] (class [ChatDatabase], the SQLite
    access layer) and [src/scripts/chat_parser.py] (class [ChatParser], the
    session resolver and the incremental message ingestor).

    The SQLite file is modelled as a [Store]: the two tables
    [chat_sessions] and [chat_messages] as lists of rows in rowid order,
    together with the AUTOINCREMENT counters.  Each SQL statement of the
    source is a function on [Store]; each Python method is the composition
    of its statements, with Python exceptions carried by [PyResult]. *)

From Stdlib Require Import ZArith List String Ascii Bool Lia Floats.
From Stdlib Require Import Sorting.Permutation Sorting.Sorted DecimalString.
Import ListNotations.
Local Open Scope string_scope.
Local Open Scope Z_scope.

(** ** Values *)

(** A reading of the clock.  [datetime.now()] and SQLite's
    [datetime('now')] are both read as the instant of the call; the value
    is only stored, and compared by ORDER BY. *)
Definition Time := Z.

Module Py.

(** Python exceptions that the modelled code can raise. *)
Inductive exn : Type :=
| KeyError (key : string)
| IntegrityError (constraint : string)
| AttributeError (object attribute : string).

Inductive PyResult (A : Type) : Type :=
| Ok (a : A)
| Raise (e : exn).
Arguments Ok {A} a.
Arguments Raise {A} e.

Definition bind {A B} (r : PyResult A) (k : A -> PyResult B) : PyResult B :=
  match r with
  | Ok a => k a
  | Raise e => Raise e
  end.

(** [for x in xs: body] over a loop state, leaving at the first
    exception that escapes the body. *)
Fixpoint for_each {S X} (body : S -> X -> PyResult S) (xs : list X) (s : S)
  : PyResult S :=
  match xs with
  | [] => Ok s
  | x :: rest => bind (body s x) (for_each body rest)
  end.

(** [d[key]]: subscripting a dict, [None] standing for an absent key. *)
Definition subscript {A} (key : string) (field : option A) : PyResult A :=
  match field with
  | Some v => Ok v
  | None => Raise (KeyError key)
  end.

(** [d.get(key, default)]. *)
Definition get {A} (field : option A) (default : A) : A :=
  match field with
  | Some v => v
  | None => default
  end.

End Py.
Import Py.

Notation "x <- c1 ;; c2" := (Py.bind c1 (fun x => c2))
  (at level 61, c1 at next level, right associativity).

(** ** Strings *)

Module Str.

Definition opt_eqb (a b : option string) : bool :=
  match a, b with
  | Some x, Some y => String.eqb x y
  | None, None => true
  | _, _ => false
  end.

(** SQL [col = ?] against a bound string: NULL never matches. *)
Definition sql_eq (col : option string) (param : string) : bool :=
  match col with
  | Some x => String.eqb x param
  | None => false
  end.

Definition is_some {A} (o : option A) : bool :=
  match o with Some _ => true | None => false end.

(** [sep.join(parts)] as GROUP_CONCAT builds it. *)
Fixpoint join (sep : string) (parts : list string) : string :=
  match parts with
  | [] => ""
  | [p] => p
  | p :: rest => p ++ sep ++ join sep rest
  end.

(** [s.split(c)] for a one-character separator: the pieces between the
    occurrences of [c]; the empty string gives one empty piece. *)
Fixpoint split_acc (c : ascii) (s : string) (cur : string) : list string :=
  match s with
  | EmptyString => [cur]
  | String a rest =>
      if Ascii.eqb a c then cur :: split_acc c rest ""
      else split_acc c rest (cur ++ String a "")
  end.

Definition split (c : ascii) (s : string) : list string := split_acc c s "".

Fixpoint contains (c : ascii) (s : string) : bool :=
  match s with
  | EmptyString => false
  | String a rest => Ascii.eqb a c || contains c rest
  end.

(** [len(s)].  A Python [str] is held as its UTF-8 bytes; its length is
    the number of its code points, and a continuation byte (10xxxxxx)
    starts none. *)
Definition starts_code_point (a : ascii) : bool :=
  let n := nat_of_ascii a in (n <? 128)%nat || (192 <=? n)%nat.

Fixpoint len (s : string) : nat :=
  match s with
  | EmptyString => 0%nat
  | String a rest =>
      ((if starts_code_point a then 1 else 0) + len rest)%nat
  end.

(** [str(n)] for an int. *)
Definition of_Z (n : Z) : string :=
  NilZero.string_of_int (Z.to_int n).

Definition is_lower (a : ascii) : bool :=
  let n := nat_of_ascii a in (97 <=? n)%nat && (n <=? 122)%nat.
Definition is_upper (a : ascii) : bool :=
  let n := nat_of_ascii a in (65 <=? n)%nat && (n <=? 90)%nat.
Definition to_upper (a : ascii) : ascii :=
  if is_lower a then ascii_of_nat (nat_of_ascii a - 32) else a.
Definition to_lower (a : ascii) : ascii :=
  if is_upper a then ascii_of_nat (nat_of_ascii a + 32) else a.

(** [s.title()] on ASCII text: a letter that follows a letter is
    lowercased, any other letter is uppercased. *)
Fixpoint title_from (prev_cased : bool) (s : string) : string :=
  match s with
  | EmptyString => EmptyString
  | String a rest =>
      let cased := is_lower a || is_upper a in
      String (if prev_cased then to_lower a else to_upper a)
             (title_from cased rest)
  end.

Definition title (s : string) : string := title_from false s.

End Str.

(** ** The tables *)

(** A row of [chat_sessions].  The columns that the code tests for NULL
    or leaves to their NULL default are options. *)
Record Session : Type := mkSession {
  s_rowid : Z;
  session_id : string;
  chat_platform : option string;
  chat_title : option string;
  participant_name : option string;
  chat_url : string;
  started_at : Time;
  last_activity : Time;
  total_messages : Z;
  status : string;
  phase : option string;
  phase_confidence : option float;
  phase_updated_at : option Time;
  created_at : Time
}.

(** A row of [chat_messages]. *)
Record Message : Type := mkMessage {
  m_rowid : Z;
  m_session_id : string;
  message_id : string;
  sender : string;
  sender_type : string;
  message_text : string;
  timestamp : string;
  message_order : Z;
  scraped_at : Time
}.

Record Store : Type := mkStore {
  chat_sessions : list Session;
  chat_messages : list Message;
  sessions_seq : Z;
  messages_seq : Z
}.

(** The database right after [init_database] on a new file. *)
Definition empty_store : Store := mkStore [] [] 0 0.

(** A message dict as the scraper hands it over ([_extract_message_data]);
    [None] is an absent key. *)
Record Msg : Type := mkMsg {
  msg_message_id : option string;
  msg_sender : option string;
  msg_sender_type : option string;
  msg_text : option string;
  msg_timestamp : option string;
  msg_order : option Z
}.

(** The [session_data] dict of [save_chat_session]. *)
Record SessionData : Type := mkSessionData {
  sd_session_id : option string;
  sd_platform : option string;
  sd_title : option string;
  sd_participant : option string;
  sd_url : option string;
  sd_started_at : option Time;
  sd_total_messages : option Z
}.

(** What the code prints while it works through a batch; the summary
    lines are left out. *)
Inductive Event : Type :=
| Skipped (sender text : string)
| Added (sender text : string)
| WriteFailed (e : exn).

(** ** SQL statements *)

Module Sql.

Definition owned_by (sid : string) (m : Message) : bool :=
  String.eqb (m_session_id m) sid.

(** [SELECT ... FROM chat_messages WHERE session_id = ?], in rowid order. *)
Definition messages_of (st : Store) (sid : string) : list Message :=
  filter (owned_by sid) (chat_messages st).

(** [MAX(col)]: NULL on no rows. *)
Fixpoint max_of (xs : list Z) : option Z :=
  match xs with
  | [] => None
  | x :: rest =>
      match max_of rest with
      | None => Some x
      | Some y => Some (Z.max x y)
      end
  end.

(** [SELECT COALESCE(MAX(message_order), 0) FROM chat_messages
    WHERE session_id = ?]. *)
Definition max_message_order (st : Store) (sid : string) : Z :=
  match max_of (map message_order (messages_of st sid)) with
  | Some m => m
  | None => 0
  end.

(** [SELECT COUNT( * ) FROM chat_messages WHERE session_id = ?]. *)
Definition count_messages (st : Store) (sid : string) : Z :=
  Z.of_nat (List.length (messages_of st sid)).

Definition has_key (sid who text : string) (m : Message) : bool :=
  owned_by sid m && String.eqb (sender m) who
                 && String.eqb (message_text m) text.

(** [SELECT id FROM chat_messages WHERE session_id = ? AND sender = ?
    AND message_text = ? LIMIT 1] followed by [fetchone()], as a truth
    value. *)
Definition message_exists (st : Store) (sid sender text : string) : bool :=
  existsb (has_key sid sender text) (chat_messages st).

Definition message_id_taken (st : Store) (mid : string) : bool :=
  existsb (fun m => String.eqb (message_id m) mid) (chat_messages st).

(** [INSERT INTO chat_messages (...) VALUES (...)]: the row takes the
    next rowid; the UNIQUE constraint on [message_id] makes the
    statement fail when the id is already in the table. *)
Definition insert_message (st : Store) (sid mid sender sender_type text
                           timestamp : string) (order : Z) (scraped : Time)
  : PyResult Store :=
  if message_id_taken st mid then
    Raise (IntegrityError "chat_messages.message_id")
  else
    let rowid := messages_seq st + 1 in
    Ok (mkStore (chat_sessions st)
                (chat_messages st ++
                   [mkMessage rowid sid mid sender sender_type text
                              timestamp order scraped])
                (sessions_seq st) rowid).

(** [UPDATE chat_sessions SET last_activity = datetime('now'),
    total_messages = (SELECT COUNT( * ) FROM chat_messages WHERE
    session_id = ?) WHERE session_id = ?]. *)
Definition refresh_session (now : Time) (count : Z) (s : Session) : Session :=
  mkSession (s_rowid s) (session_id s) (chat_platform s) (chat_title s)
            (participant_name s) (chat_url s) (started_at s)
            now count (status s)
            (phase s) (phase_confidence s) (phase_updated_at s) (created_at s).

Definition update_session_rollup (st : Store) (sid : string) (now : Time)
  : Store :=
  let count := count_messages st sid in
  mkStore (map (fun s => if String.eqb (session_id s) sid
                         then refresh_session now count s else s)
               (chat_sessions st))
          (chat_messages st) (sessions_seq st) (messages_seq st).

(** [DELETE FROM chat_messages WHERE session_id = ?]. *)
Definition delete_messages (st : Store) (sid : string) : Store :=
  mkStore (chat_sessions st)
          (filter (fun m => negb (owned_by sid m)) (chat_messages st))
          (sessions_seq st) (messages_seq st).

(** [DELETE FROM chat_sessions WHERE session_id = ?]. *)
Definition delete_session (st : Store) (sid : string) : Store :=
  mkStore (filter (fun s => negb (String.eqb (session_id s) sid))
                  (chat_sessions st))
          (chat_messages st) (sessions_seq st) (messages_seq st).

(** [ORDER BY]: a stable insertion sort, [before a b] telling that [a]
    may stand before [b]. *)
Fixpoint insert_by {A} (before : A -> A -> bool) (x : A) (l : list A)
  : list A :=
  match l with
  | [] => [x]
  | y :: rest => if before x y then x :: l else y :: insert_by before x rest
  end.

Definition order_by {A} (before : A -> A -> bool) (l : list A) : list A :=
  fold_right (insert_by before) [] l.

(** The distinct values of a list, each at its first occurrence. *)
Fixpoint distinct {K} (eqb : K -> K -> bool) (l : list K) : list K :=
  match l with
  | [] => []
  | k :: rest => k :: filter (fun x => negb (eqb k x)) (distinct eqb rest)
  end.

(** [ORDER BY total_messages DESC, last_activity DESC]. *)
Definition ranks_before (a b : Session) : bool :=
  (total_messages b <? total_messages a)
  || ((total_messages a =? total_messages b)
      && (last_activity b <=? last_activity a)).

End Sql.
Import Sql.

(** ** [ChatDatabase] ([src/data/chat_database_manager.py]) *)

Record DuplicateGroup : Type := mkDuplicateGroup {
  dg_platform : option string;
  dg_title : option string;
  dg_participant : option string;
  duplicate_count : Z;
  session_ids : list string;
  message_counts : list Z;
  keep_session : string;
  remove_sessions : list string
}.

(** The [stats] dict of [merge_chat_sessions]. *)
Record MergeStats : Type := mkMergeStats {
  messages_merged : Z;
  duplicate_messages_skipped : Z;
  sessions_removed : Z;
  total_messages_before : Z;
  total_messages_after : Z
}.

(** The dict that [cleanup_duplicate_chat_sessions] returns; the key
    [groups_processed] is only there when duplicates were found. *)
Record CleanupStats : Type := mkCleanupStats {
  duplicate_groups_found : Z;
  cs_sessions_removed : Z;
  cs_messages_merged : Z;
  cs_duplicate_messages_skipped : Z;
  groups_processed : option Z;
  success : bool
}.

Record SaveLoop : Type := mkSaveLoop {
  sl_store : Store;
  sl_saved : Z;
  sl_log : list Event
}.

Record MergeLoop : Type := mkMergeLoop {
  ml_store : Store;
  ml_max_order : Z;
  ml_merged : Z;
  ml_skipped : Z;
  ml_removed : Z;
  ml_log : list Event
}.

Record CleanupLoop : Type := mkCleanupLoop {
  cl_store : Store;
  cl_removed : Z;
  cl_merged : Z;
  cl_skipped : Z;
  cl_processed : Z;
  cl_log : list Event
}.

Module ChatDatabase.

(** [INSERT OR REPLACE INTO chat_sessions (...)]: a row that holds the
    same [session_id] (the UNIQUE column) is deleted, then the new row is
    inserted under the next rowid, its unnamed columns at their
    defaults. *)
Definition insert_or_replace_session (st : Store) (row : Session) : Store :=
  mkStore (filter (fun s => negb (String.eqb (session_id s) (session_id row)))
                  (chat_sessions st) ++ [row])
          (chat_messages st) (s_rowid row) (messages_seq st).

Definition save_chat_session (st : Store) (session_data : SessionData)
           (now : Time) : PyResult (Store * string) :=
  sid <- subscript "session_id" (sd_session_id session_data) ;;
  let row :=
    mkSession (sessions_seq st + 1) sid
              (Some (get (sd_platform session_data) "unknown"))
              (Some (get (sd_title session_data) "Unknown Chat"))
              (Some (get (sd_participant session_data) "Unknown"))
              (get (sd_url session_data) "")
              (get (sd_started_at session_data) now)
              now
              (get (sd_total_messages session_data) 0)
              "active"
              None None None
              now in
  Ok (insert_or_replace_session st row, sid).

(** The body of the loop of [save_chat_messages]: a KeyError of the
    parameter tuple is caught and reported; INSERT OR IGNORE leaves the
    row out, with [rowcount] 0, when its [message_id] is taken. *)
Definition save_message (sid : string) (now : Time) (s : SaveLoop) (msg : Msg)
  : SaveLoop :=
  match
    (mid <- subscript "message_id" (msg_message_id msg) ;;
     who <- subscript "sender" (msg_sender msg) ;;
     kind <- subscript "sender_type" (msg_sender_type msg) ;;
     text <- subscript "text" (msg_text msg) ;;
     ts <- subscript "timestamp" (msg_timestamp msg) ;;
     order <- subscript "order" (msg_order msg) ;;
     Ok (insert_message (sl_store s) sid mid who kind text ts order now))
  with
  | Raise e => mkSaveLoop (sl_store s) (sl_saved s) (sl_log s ++ [WriteFailed e])
  | Ok (Ok st') => mkSaveLoop st' (sl_saved s + 1) (sl_log s)
  | Ok (Raise _) => s
  end.

Definition save_chat_messages (st : Store) (sid : string)
           (messages : list Msg) (now : Time) : Store * Z * list Event :=
  let s := fold_left (save_message sid now) messages (mkSaveLoop st 0 []) in
  (sl_store s, sl_saved s, sl_log s).

(** [UPDATE chat_sessions SET phase = ?, phase_confidence = ?,
    phase_updated_at = ? WHERE session_id = ?]; the result tells whether
    a row was touched. *)
Definition set_phase (p : string) (confidence : float) (now : Time)
           (s : Session) : Session :=
  mkSession (s_rowid s) (session_id s) (chat_platform s) (chat_title s)
            (participant_name s) (chat_url s) (started_at s)
            (last_activity s) (total_messages s) (status s)
            (Some p) (Some confidence) (Some now) (created_at s).

Definition update_session_phase (st : Store) (sid p : string)
           (confidence : float) (now : Time) : Store * bool :=
  (mkStore (map (fun s => if String.eqb (session_id s) sid
                          then set_phase p confidence now s else s)
                (chat_sessions st))
           (chat_messages st) (sessions_seq st) (messages_seq st),
   existsb (fun s => String.eqb (session_id s) sid) (chat_sessions st)).

(** *** Duplicate sessions *)

Definition Fingerprint : Type := option string * option string * option string.

Definition fingerprint (s : Session) : Fingerprint :=
  (chat_platform s, chat_title s, participant_name s).

(** Equality of GROUP BY keys: NULL groups with NULL. *)
Definition fingerprint_eqb (a b : Fingerprint) : bool :=
  let '(p1, t1, n1) := a in
  let '(p2, t2, n2) := b in
  Str.opt_eqb p1 p2 && Str.opt_eqb t1 t2 && Str.opt_eqb n1 n2.

Definition in_group (k : Fingerprint) (s : Session) : bool :=
  fingerprint_eqb (fingerprint s) k.

(** The rows that pass [WHERE chat_platform IS NOT NULL AND
    participant_name IS NOT NULL]. *)
Definition groupable (s : Session) : bool :=
  Str.is_some (chat_platform s) && Str.is_some (participant_name s).

(** One result row of the GROUP BY query with the Python that unpacks
    it: both GROUP_CONCATs follow [ORDER BY total_messages DESC,
    last_activity DESC]; the ids come back through [split(',')]. *)
Definition group_row (k : Fingerprint) (members : list Session)
  : DuplicateGroup :=
  let ranked := order_by ranks_before members in
  let ids_str := Str.join "," (map session_id ranked) in
  let ids := Str.split "," ids_str in
  mkDuplicateGroup (fst (fst k)) (snd (fst k)) (snd k)
                   (Z.of_nat (List.length members))
                   ids
                   (map total_messages ranked)
                   (hd "" ids)
                   (tl ids).

(** [GROUP BY chat_platform, chat_title, participant_name HAVING
    COUNT( * ) > 1 ORDER BY COUNT( * ) DESC]; groups of equal size are
    taken in the order of their first row. *)
Definition duplicate_groups (st : Store)
  : list (Fingerprint * list Session) :=
  let rows := filter groupable (chat_sessions st) in
  let keys := distinct fingerprint_eqb (map fingerprint rows) in
  let groups := map (fun k => (k, filter (in_group k) rows)) keys in
  let having := filter (fun g => (1 <? List.length (snd g))%nat) groups in
  order_by (fun g h => (List.length (snd h) <=? List.length (snd g))%nat)
           having.

Definition find_duplicate_chat_sessions (st : Store) : list DuplicateGroup :=
  map (fun g => group_row (fst g) (snd g)) (duplicate_groups st).

(** The body of the inner loop of [merge_chat_sessions], for one message
    of a session that is being removed. *)
Definition merge_message (keep : string) (s : MergeLoop) (msg : Message)
  : MergeLoop :=
  if message_exists (ml_store s) keep (sender msg) (message_text msg) then
    mkMergeLoop (ml_store s) (ml_max_order s) (ml_merged s)
                (ml_skipped s + 1) (ml_removed s)
                (ml_log s ++ [Skipped (sender msg) (message_text msg)])
  else
    let max_order := ml_max_order s + 1 in
    match insert_message (ml_store s) keep
                         (keep ++ "_" ++ Str.of_Z max_order)
                         (sender msg) (sender_type msg) (message_text msg)
                         (timestamp msg) max_order (scraped_at msg)
    with
    | Ok st' =>
        mkMergeLoop st' max_order (ml_merged s + 1) (ml_skipped s)
                    (ml_removed s)
                    (ml_log s ++ [Added (sender msg) (message_text msg)])
    | Raise e =>
        mkMergeLoop (ml_store s) max_order (ml_merged s) (ml_skipped s)
                    (ml_removed s) (ml_log s ++ [WriteFailed e])
    end.

(** The body of the outer loop, for one session to remove: its messages
    are read [ORDER BY message_order ASC], merged, then its message rows
    and its session row are deleted. *)
Definition merge_session (keep : string) (s : MergeLoop) (remove : string)
  : MergeLoop :=
  let messages_to_merge :=
    order_by (fun a b => message_order a <=? message_order b)
             (messages_of (ml_store s) remove) in
  let s1 := fold_left (merge_message keep) messages_to_merge s in
  let st := delete_session (delete_messages (ml_store s1) remove) remove in
  mkMergeLoop st (ml_max_order s1) (ml_merged s1) (ml_skipped s1)
              (ml_removed s1 + 1) (ml_log s1).

Definition merge_chat_sessions (st : Store) (keep_session_id : string)
           (remove_session_ids : list string) (now : Time)
  : Store * MergeStats * list Event :=
  let max_order := max_message_order st keep_session_id in
  let current_messages := count_messages st keep_session_id in
  let s := fold_left (merge_session keep_session_id) remove_session_ids
                     (mkMergeLoop st max_order 0 0 0 []) in
  let st' := update_session_rollup (ml_store s) keep_session_id now in
  (st',
   mkMergeStats (ml_merged s) (ml_skipped s) (ml_removed s)
                current_messages (count_messages st' keep_session_id),
   ml_log s).

Definition cleanup_group (now : Time) (s : CleanupLoop) (group : DuplicateGroup)
  : CleanupLoop :=
  let '(st', merge_stats, log) :=
    merge_chat_sessions (cl_store s) (keep_session group)
                        (remove_sessions group) now in
  mkCleanupLoop st'
                (cl_removed s + sessions_removed merge_stats)
                (cl_merged s + messages_merged merge_stats)
                (cl_skipped s + duplicate_messages_skipped merge_stats)
                (cl_processed s + 1)
                (cl_log s ++ log).

Definition cleanup_duplicate_chat_sessions (st : Store) (now : Time)
  : Store * CleanupStats * list Event :=
  let duplicate_groups := find_duplicate_chat_sessions st in
  match duplicate_groups with
  | [] => (st, mkCleanupStats 0 0 0 0 None true, [])
  | _ =>
      let s := fold_left (cleanup_group now) duplicate_groups
                         (mkCleanupLoop st 0 0 0 0 []) in
      (cl_store s,
       mkCleanupStats (Z.of_nat (List.length duplicate_groups))
                      (cl_removed s) (cl_merged s) (cl_skipped s)
                      (Some (cl_processed s)) true,
       cl_log s)
  end.

End ChatDatabase.

(** ** [ChatParser] ([src/scripts/chat_parser.py]) *)

(** [datetime.now()] with its [strftime('%Y%m%d_%H%M%S')] rendering. *)
Record Now : Type := mkNow {
  instant : Time;
  stamp : string
}.

Record IngestLoop : Type := mkIngestLoop {
  il_store : Store;
  il_max_order : Z;
  il_saved : Z;
  il_log : list Event
}.

(** The result dict of [process_incremental], by its [action]. *)
Inductive IncrementalResult : Type :=
| NoMessagesFound
| IncrementalUpdate (sid : string) (new_messages_added total_in_scrape : Z)
| NewSession (sid : string) (messages_saved : Z)
| ErrorResult (e : exn).

Module ChatParser.

(** [self.db.get_connection()], the first statement of
    [chat_session_exists] and of [update_existing_session].  [self.db] is
    a [ChatDatabase]; the class ([chat_database_manager.py]) defines no
    attribute [get_connection] and no [__getattr__], and each of its own
    methods opens its connection with [sqlite3.connect(self.db_path)]:
    the attribute lookup raises AttributeError. *)
Definition get_connection (st : Store) : PyResult Store :=
  Raise (AttributeError "ChatDatabase" "get_connection").

Definition matches (platform title participant : string) (s : Session)
  : bool :=
  Str.sql_eq (chat_platform s) platform
  && Str.sql_eq (chat_title s) title
  && Str.sql_eq (participant_name s) participant.

(** [chat_session_exists]: after the connection, [SELECT session_id FROM
    chat_sessions WHERE chat_platform = ? AND chat_title = ? AND
    participant_name = ? ORDER BY total_messages DESC, last_activity DESC
    LIMIT 1]. *)
Definition chat_session_exists (st : Store)
           (platform title participant : string)
  : PyResult (option string) :=
  conn <- get_connection st ;;
  match order_by ranks_before
                 (filter (matches platform title participant)
                         (chat_sessions conn)) with
  | row :: _ => Ok (Some (session_id row))
  | [] => Ok None
  end.

(** The body of the loop of [update_existing_session].  The two
    subscripts of the SELECT stand outside the [try]; those of the
    INSERT stand inside it, after [max_order += 1]. *)
Definition ingest_message (sid : string) (now : Time) (s : IngestLoop)
           (msg : Msg) : PyResult IngestLoop :=
  who <- subscript "sender" (msg_sender msg) ;;
  text <- subscript "text" (msg_text msg) ;;
  if message_exists (il_store s) sid who text then
    Ok (mkIngestLoop (il_store s) (il_max_order s) (il_saved s)
                     (il_log s ++ [Skipped who text]))
  else
    let max_order := il_max_order s + 1 in
    match
      (kind <- subscript "sender_type" (msg_sender_type msg) ;;
       ts <- subscript "timestamp" (msg_timestamp msg) ;;
       insert_message (il_store s) sid (sid ++ "_" ++ Str.of_Z max_order)
                      who kind text ts max_order now)
    with
    | Ok st' => Ok (mkIngestLoop st' max_order (il_saved s + 1) (il_log s))
    | Raise e =>
        Ok (mkIngestLoop (il_store s) max_order (il_saved s)
                         (il_log s ++ [WriteFailed e]))
    end.

(** [update_existing_session]: the store it returns is the committed
    one; an exception leaves before [conn.commit()]. *)
Definition update_existing_session (st : Store) (sid : string)
           (new_messages : list Msg) (now : Time)
  : PyResult (Store * Z * list Event) :=
  conn <- get_connection st ;;
  let max_order := max_message_order conn sid in
  s <- for_each (ingest_message sid now) new_messages
                (mkIngestLoop conn max_order 0 []) ;;
  Ok (update_session_rollup (il_store s) sid now, il_saved s, il_log s).

Definition valid_sender (who : string) : bool :=
  negb (existsb (String.eqb who) ["unknown"; "user"; "me"; "you"])
  && (Str.len who <? 50)%nat.

(** [extract_participant_name]; [first_of_set] stands for
    [list(senders)[0]], the element that the iteration order of the
    Python set puts first. *)
Definition extract_participant_name (first_of_set : list string -> string)
           (platform : string) (messages : list Msg) : string :=
  let senders :=
    distinct String.eqb
      (filter valid_sender
              (map (fun msg => get (msg_sender msg) "unknown")
                   (firstn 10 messages))) in
  match senders with
  | [] => "Unknown Participant"
  | _ => first_of_set senders
  end.

Fixpoint enumerate_from (i : Z) (messages : list Msg) : list Msg :=
  match messages with
  | [] => []
  | m :: rest =>
      mkMsg (msg_message_id m) (msg_sender m) (msg_sender_type m)
            (msg_text m) (msg_timestamp m) (Some (i + 1))
      :: enumerate_from (i + 1) rest
  end.

Definition falsy (s : option string) : bool :=
  match s with
  | None => true
  | Some x => String.eqb x ""
  end.

(** [save_to_database]: the exceptions of its two calls are caught and
    printed. *)
Definition save_to_database (st : Store) (messages : list Msg)
           (platform : string) (session_id : option string) (now : Now)
  : Store * string :=
  let sid := if falsy session_id
             then platform ++ "_" ++ stamp now
             else get session_id "" in
  let session_data :=
    mkSessionData (Some sid) (Some platform)
                  (Some (Str.title platform ++ " Chat Session"))
                  (Some "Unknown") (Some "")
                  (Some (instant now))
                  (Some (Z.of_nat (List.length messages))) in
  let st1 :=
    match ChatDatabase.save_chat_session st session_data (instant now) with
    | Ok (st', _) => st'
    | Raise _ => st
    end in
  let messages := enumerate_from 0 messages in
  let '(st2, _, _) :=
    ChatDatabase.save_chat_messages st1 sid messages (instant now) in
  (st2, sid).

(** [process_incremental] from the point where the HTML has been parsed
    into [(messages, platform)]; an exception of the [try] block gives
    the error result, and nothing of the call is committed. *)
Definition process_incremental (first_of_set : list string -> string)
           (st : Store) (messages : list Msg) (platform : string)
           (now : Now) : Store * IncrementalResult :=
  match messages with
  | [] => (st, NoMessagesFound)
  | _ =>
      let participant :=
        extract_participant_name first_of_set platform messages in
      let title := Str.title platform ++ " Chat with " ++ participant in
      match
        (existing_session_id <-
           chat_session_exists st platform title participant ;;
         match existing_session_id with
         | Some sid =>
             if negb (String.eqb sid "") then
               updated <- update_existing_session st sid messages
                                                  (instant now) ;;
               let '(st', new_count, _) := updated in
               Ok (st', IncrementalUpdate sid new_count
                                          (Z.of_nat (List.length messages)))
             else
               let '(st', sid') :=
                 save_to_database st messages platform None now in
               Ok (st', NewSession sid' (Z.of_nat (List.length messages)))
         | None =>
             let '(st', sid') :=
               save_to_database st messages platform None now in
             Ok (st', NewSession sid' (Z.of_nat (List.length messages)))
         end)
      with
      | Ok result => result
      | Raise e => (st, ErrorResult e)
      end
  end.

End ChatParser.

(** ** Vocabulary of the statements *)

(** The dedup key of a stored message. *)
Definition dedup_key (m : Message) : string * string :=
  (sender m, message_text m).

Definition keys_of (st : Store) (sid : string) : list (string * string) :=
  map dedup_key (messages_of st sid).

(** The session rows stored under one session id. *)
Definition sessions_named (st : Store) (sid : string) : list Session :=
  filter (fun s => String.eqb (session_id s) sid) (chat_sessions st).

(** Order monotonicity: in every session the order positions grow
    strictly along the rows as they were appended. *)
Definition orders_increasing (st : Store) : Prop :=
  forall sid, StronglySorted Z.lt (map message_order (messages_of st sid)).

(** Rollup correctness of the rows stored under one session id. *)
Definition rollup_correct (st : Store) (sid : string) : Prop :=
  forall s, In s (sessions_named st sid) ->
            total_messages s = count_messages st sid.

(** The UNIQUE constraint on [chat_sessions.session_id]. *)
Definition session_ids_unique (st : Store) : Prop :=
  NoDup (map session_id (chat_sessions st)).

Definition no_write_failed (log : list Event) : Prop :=
  forall e, ~ In (WriteFailed e) log.

(** [a] is no better a survivor than [b]: fewer messages, or as many and
    a last activity that is not more recent. *)
Definition outranked_by (a b : Session) : Prop :=
  total_messages a < total_messages b
  \/ (total_messages a = total_messages b
      /\ last_activity a <= last_activity b).

(** A session row as [save_to_database] writes it: the title is made of
    the platform alone. *)
Definition created_by_save (s : Session) : Prop :=
  exists platform,
    chat_platform s = Some platform
    /\ chat_title s = Some (Str.title platform ++ " Chat Session").

Definition key_eqb (a b : string * string) : bool :=
  String.eqb (fst a) (fst b) && String.eqb (snd a) (snd b).

Definition key_in (k : string * string) (keys : list (string * string))
  : bool :=
  existsb (key_eqb k) keys.

(** No session id holds the separator of GROUP_CONCAT. *)
Definition comma_free (st : Store) : Prop :=
  forall s, In s (chat_sessions st) ->
            Str.contains "," (session_id s) = false.

Definition mentioned (ids : list string) (sid : string) : bool :=
  existsb (String.eqb sid) ids.

(** The sessions that GROUP BY puts under one fingerprint. *)
Definition members_of (st : Store) (k : ChatDatabase.Fingerprint)
  : list Session :=
  filter (ChatDatabase.in_group k)
         (filter ChatDatabase.groupable (chat_sessions st)).

(** The merge rule in the words of the specification (4.3, step 3): a
    message whose dedup key the surviving session holds, or has received
    earlier in the pass, is dropped; any other is appended at the next
    order position with its sender, role, text and timestamps. *)
Fixpoint merged_rows (keep : string) (present : list (string * string))
         (max_order rowid : Z) (msgs : list Message) : list Message :=
  match msgs with
  | [] => []
  | m :: rest =>
      if key_in (dedup_key m) present then
        merged_rows keep present max_order rowid rest
      else
        mkMessage (rowid + 1) keep (keep ++ "_" ++ Str.of_Z (max_order + 1))
                  (sender m) (sender_type m) (message_text m) (timestamp m)
                  (max_order + 1) (scraped_at m)
        :: merged_rows keep (dedup_key m :: present) (max_order + 1)
                       (rowid + 1) rest
  end.

(** The messages of the sessions to remove, as the merge reads them. *)
Definition messages_to_merge (st : Store) (removes : list string)
  : list Message :=
  List.concat
    (map (fun r => order_by (fun a b => message_order a <=? message_order b)
                            (messages_of st r))
         removes).

(** [copy] holds what [original] held: a merge changes the owner, the
    message key and the order position only. *)
Definition same_content (copy original : Message) : Prop :=
  sender copy = sender original
  /\ sender_type copy = sender_type original
  /\ message_text copy = message_text original
  /\ timestamp copy = timestamp original
  /\ scraped_at copy = scraped_at original.

(** ** The read methods of [ChatDatabase] *)

(** The message dict of [get_latest_messages] and of the dashboard. *)
Record MessageView : Type := mkMessageView {
  mv_sender : string;
  mv_sender_type : string;
  mv_text : string;
  mv_timestamp : string;
  mv_order : Z
}.

(** The dict of [get_latest_session]. *)
Record SessionView : Type := mkSessionView {
  sv_session_id : string;
  sv_platform : option string;
  sv_title : option string;
  sv_participant : option string;
  sv_last_activity : Time;
  sv_total_messages : Z;
  sv_url : string
}.

(** The dict of [get_session_with_phase]. *)
Record PhaseView : Type := mkPhaseView {
  pv_session_id : string;
  pv_platform : option string;
  pv_title : option string;
  pv_participant : option string;
  pv_last_activity : Time;
  pv_total_messages : Z;
  pv_phase : option string;
  pv_phase_confidence : option float;
  pv_phase_updated_at : option Time
}.

(** The dict of [get_duplicate_chat_stats]. *)
Record DuplicateStats : Type := mkDuplicateStats {
  ds_total_sessions : Z;
  ds_duplicate_groups : Z;
  ds_duplicate_sessions_count : Z;
  ds_total_messages : Z;
  ds_potential_duplicates : Z
}.

Module ChatDatabaseReads.

(** [LIMIT ?]: a negative bound is no bound. *)
Definition limit {A} (n : Z) (rows : list A) : list A :=
  if n <? 0 then rows else firstn (Z.to_nat n) rows.

Definition view_message (m : Message) : MessageView :=
  mkMessageView (sender m) (sender_type m) (message_text m) (timestamp m)
                (message_order m).

(** [SELECT ... FROM chat_messages WHERE session_id = ? ORDER BY
    message_order DESC LIMIT ?]. *)
Definition get_latest_messages (st : Store) (sid : string) (lim : Z)
  : list MessageView :=
  map view_message
      (limit lim
             (order_by (fun a b => message_order b <=? message_order a)
                       (messages_of st sid))).

(** [SELECT ... FROM chat_sessions WHERE status = 'active' ORDER BY
    last_activity DESC LIMIT 1] with [fetchone()]. *)
Definition get_latest_session (st : Store) : option SessionView :=
  match order_by (fun a b => last_activity b <=? last_activity a)
                 (filter (fun s => String.eqb (status s) "active")
                         (chat_sessions st)) with
  | row :: _ =>
      Some (mkSessionView (session_id row) (chat_platform row)
                          (chat_title row) (participant_name row)
                          (last_activity row) (total_messages row)
                          (chat_url row))
  | [] => None
  end.

Definition view_phase (row : Session) : PhaseView :=
  mkPhaseView (session_id row) (chat_platform row) (chat_title row)
              (participant_name row) (last_activity row)
              (total_messages row) (phase row) (phase_confidence row)
              (phase_updated_at row).

(** [SELECT ... FROM chat_sessions WHERE session_id = ?] with
    [fetchone()]. *)
Definition get_session_with_phase (st : Store) (sid : string)
  : option PhaseView :=
  match filter (fun s => String.eqb (session_id s) sid) (chat_sessions st) with
  | row :: _ => Some (view_phase row)
  | [] => None
  end.

(** The inner query of both counts of [get_duplicate_chat_stats]:
    [SELECT COUNT( * ) as count FROM chat_sessions WHERE chat_platform IS
    NOT NULL AND participant_name IS NOT NULL GROUP BY chat_platform,
    chat_title, participant_name HAVING count > 1]. *)
Definition group_counts (st : Store) : list Z :=
  let rows := filter ChatDatabase.groupable (chat_sessions st) in
  let keys :=
    distinct ChatDatabase.fingerprint_eqb (map ChatDatabase.fingerprint rows) in
  let counts :=
    map (fun k => Z.of_nat (List.length (filter (ChatDatabase.in_group k) rows)))
        keys in
  filter (fun count => 1 <? count) counts.

(** [SUM(col)]: NULL on no rows. *)
Definition sql_sum (xs : list Z) : option Z :=
  match xs with
  | [] => None
  | _ => Some (fold_right Z.add 0 xs)
  end.

(** [get_duplicate_chat_stats]; [cursor.fetchone()[0] or 0] turns the
    NULL of an empty SUM into 0. *)
Definition get_duplicate_chat_stats (st : Store) : DuplicateStats :=
  let total_sessions := Z.of_nat (List.length (chat_sessions st)) in
  let duplicate_groups := Z.of_nat (List.length (group_counts st)) in
  let duplicate_sessions_count :=
    get (sql_sum (map (fun count => count - 1) (group_counts st))) 0 in
  let total_messages := Z.of_nat (List.length (chat_messages st)) in
  mkDuplicateStats total_sessions duplicate_groups duplicate_sessions_count
                   total_messages duplicate_sessions_count.

(** [SELECT COUNT( * ) FROM chat_sessions]. *)
Definition get_chat_sessions_count (st : Store) : Z :=
  Z.of_nat (List.length (chat_sessions st)).

End ChatDatabaseReads.

(** ** The cleanup script ([src/scripts/cleanup_chat_database.py]) *)

(** The [before], [after] and [removed] dicts of the result. *)
Record CleanupSummary : Type := mkCleanupSummary {
  before_total_sessions : Z;
  before_potential_duplicates : Z;
  after_total_sessions : Z;
  after_potential_duplicates : Z;
  removed_duplicate_sessions : Z;
  removed_total_sessions : Z;
  removed_messages_merged : Z;
  removed_duplicate_messages_skipped : Z
}.

(** The result dict, by its [action]. *)
Inductive CleanupResult : Type :=
| CheckOnly (stats : DuplicateStats)
| Cleanup (summary : CleanupSummary).

Module CleanupScript.

(** [cleanup_chat_database] on the opened database: [ChatDatabase(db_path)]
    creates the tables only where they are missing. *)
Definition cleanup_chat_database (st : Store) (check_only : bool) (now : Time)
  : Store * CleanupResult :=
  if check_only then
    let duplicate_stats := ChatDatabaseReads.get_duplicate_chat_stats st in
    (st, CheckOnly duplicate_stats)
  else
    let initial_sessions := ChatDatabaseReads.get_chat_sessions_count st in
    let duplicate_stats_before :=
      ChatDatabaseReads.get_duplicate_chat_stats st in
    let '(st', chat_cleanup_stats, _) :=
      ChatDatabase.cleanup_duplicate_chat_sessions st now in
    let final_sessions := ChatDatabaseReads.get_chat_sessions_count st' in
    let duplicate_stats_after :=
      ChatDatabaseReads.get_duplicate_chat_stats st' in
    (st',
     Cleanup
       (mkCleanupSummary initial_sessions
                         (ds_potential_duplicates duplicate_stats_before)
                         final_sessions
                         (ds_potential_duplicates duplicate_stats_after)
                         (cs_sessions_removed chat_cleanup_stats)
                         (cs_sessions_removed chat_cleanup_stats)
                         (cs_messages_merged chat_cleanup_stats)
                         (cs_duplicate_messages_skipped chat_cleanup_stats))).

End CleanupScript.

(** ** The dashboard
    ([src/dashboard_generate/chat_dashboard_generator.py]) *)

(** The dict of [get_active_chat_content]. *)
Record ActiveChat : Type := mkActiveChat {
  ac_session_id : string;
  ac_platform : string;
  ac_title : string;
  ac_participant : string;
  ac_last_activity : Time;
  ac_total_messages : Z;
  ac_url : string;
  ac_messages : list MessageView
}.

Module ChatDashboardGenerator.

(** [value or default] on a text column: NULL and the empty string give
    the default. *)
Definition or_else (value : option string) (default : string) : string :=
  match value with
  | Some x => if String.eqb x "" then default else x
  | None => default
  end.

(** [ORDER BY last_activity DESC, created_at DESC]. *)
Definition shown_before (a b : Session) : bool :=
  (last_activity b <? last_activity a)
  || ((last_activity a =? last_activity b)
      && (created_at b <=? created_at a)).

(** [get_active_chat_content]: the session comes from [WHERE status =
    'active' OR status IS NULL ... LIMIT 1], its messages from [ORDER BY
    message_order ASC LIMIT 100].  No statement of the code stores a NULL
    status, and [last_activity] is never empty, so that its [or] keeps
    it. *)
Definition get_active_chat_content (st : Store) : option ActiveChat :=
  match order_by shown_before
                 (filter (fun s => String.eqb (status s) "active")
                         (chat_sessions st)) with
  | [] => None
  | session_row :: _ =>
      let session_id := session_id session_row in
      let messages :=
        map ChatDatabaseReads.view_message
            (firstn 100
                    (order_by (fun a b => message_order a <=? message_order b)
                              (messages_of st session_id))) in
      Some (mkActiveChat
              session_id
              (or_else (chat_platform session_row) "unknown")
              (or_else (chat_title session_row) "Unknown Chat")
              (or_else (participant_name session_row) "Unknown")
              (last_activity session_row)
              (if total_messages session_row =? 0
               then Z.of_nat (List.length messages)
               else total_messages session_row)
              (chat_url session_row)
              messages)
  end.

(** [time_ago] from the point where the timestamp has been parsed:
    [elapsed] is [now - timestamp] in whole seconds, rounded down, which
    fixes the [days] and [seconds] of the timedelta. *)
Definition time_ago (elapsed : Z) : string :=
  let days := elapsed / 86400 in
  let seconds := elapsed mod 86400 in
  if 0 <? days then Str.of_Z days ++ " days ago"
  else if 3600 <? seconds then Str.of_Z (seconds / 3600) ++ " hours ago"
  else if 60 <? seconds then Str.of_Z (seconds / 60) ++ " minutes ago"
  else "Just now".

End ChatDashboardGenerator.

(** ** From HTML elements to message dicts ([chat_parser.py]) *)

(** What [_extract_message_data] reads of an element: its stripped text,
    the results of [_extract_timestamp] and [_extract_sender], which are
    strings in every branch, and its [class] attribute. *)
Record Element : Type := mkElement {
  el_text : string;
  el_timestamp : string;
  el_sender : string;
  el_class : list string
}.

Module ChatParserHtml.

(** [s.lower()] on ASCII text. *)
Fixpoint lower (s : string) : string :=
  match s with
  | EmptyString => EmptyString
  | String a rest => String (Str.to_lower a) (lower rest)
  end.

(** [word in text]. *)
Fixpoint is_in (word text : string) : bool :=
  if String.prefix word text then true
  else match text with
       | EmptyString => false
       | String _ rest => is_in word rest
       end.

Definition _determine_message_type (element : Element) (text : string)
  : string :=
  let classes := Str.join " " (el_class element) in
  if existsb (fun word => is_in word (lower classes))
             ["sent"; "outgoing"; "own"; "me"] then "outgoing"
  else if existsb (fun word => is_in word (lower classes))
                  ["received"; "incoming"; "other"; "them"] then "incoming"
  else "unknown".

(** [_detect_platform_from_html] on the text of the page and the base
    name of the file. *)
Definition _detect_platform_from_html (page_text base_name : string)
  : string :=
  let html_text := lower page_text in
  let file_name := lower base_name in
  if is_in "upwork" html_text || is_in "upwork" file_name then "upwork"
  else if is_in "linkedin" html_text || is_in "linkedin" file_name
       then "linkedin"
  else if is_in "discord" html_text || is_in "discord" file_name
       then "discord"
  else if is_in "teams" html_text || is_in "teams" file_name then "teams"
  else if is_in "slack" html_text || is_in "slack" file_name then "slack"
  else "unknown".

(** [_extract_message_data]; [hash] is Python's [hash] on strings. *)
Definition _extract_message_data (hash : string -> Z) (element : Element)
           (platform : string) : option Msg :=
  let text := el_text element in
  if (Str.len text <? 2)%nat then None
  else
    let timestamp := el_timestamp element in
    let sender := el_sender element in
    let message_type := _determine_message_type element text in
    Some (mkMsg (Some (platform ++ "_" ++ Str.of_Z (hash text) ++ "_"
                                ++ timestamp))
                (Some sender) (Some message_type) (Some text)
                (Some timestamp) (Some 0)).

(** The loop of [parse_upwork_messages], [parse_linkedin_messages] and
    [parse_discord_messages] over the elements of the first selector that
    matched. *)
Fixpoint parse_elements (hash : string -> Z) (platform : string)
         (elements : list Element) : list Msg :=
  match elements with
  | [] => []
  | element :: rest =>
      match _extract_message_data hash element platform with
      | Some message_data => message_data :: parse_elements hash platform rest
      | None => parse_elements hash platform rest
      end
  end.

End ChatParserHtml.

(** ** Sequences of calls *)

(** The methods that write to the two tables. *)
Inductive Call : Type :=
| SaveChatSession (session_data : SessionData) (now : Time)
| SaveChatMessages (sid : string) (messages : list Msg) (now : Time)
| UpdateSessionPhase (sid p : string) (confidence : float) (now : Time)
| UpdateExistingSession (sid : string) (new_messages : list Msg) (now : Time)
| MergeChatSessions (keep : string) (remove : list string) (now : Time)
| CleanupDuplicateChatSessions (now : Time)
| SaveToDatabase (messages : list Msg) (platform : string)
                 (session_id : option string) (now : Now)
| ProcessIncremental (first_of_set : list string -> string)
                     (messages : list Msg) (platform : string) (now : Now).

Definition perform (st : Store) (c : Call) : Store :=
  match c with
  | SaveChatSession session_data now =>
      match ChatDatabase.save_chat_session st session_data now with
      | Ok (st', _) => st'
      | Raise _ => st
      end
  | SaveChatMessages sid messages now =>
      fst (fst (ChatDatabase.save_chat_messages st sid messages now))
  | UpdateSessionPhase sid p confidence now =>
      fst (ChatDatabase.update_session_phase st sid p confidence now)
  | UpdateExistingSession sid new_messages now =>
      match ChatParser.update_existing_session st sid new_messages now with
      | Ok (st', _, _) => st'
      | Raise _ => st
      end
  | MergeChatSessions keep remove now =>
      fst (fst (ChatDatabase.merge_chat_sessions st keep remove now))
  | CleanupDuplicateChatSessions now =>
      fst (fst (ChatDatabase.cleanup_duplicate_chat_sessions st now))
  | SaveToDatabase messages platform session_id now =>
      fst (ChatParser.save_to_database st messages platform session_id now)
  | ProcessIncremental first_of_set messages platform now =>
      fst (ChatParser.process_incremental first_of_set st messages platform now)
  end.

Definition perform_all (st : Store) (calls : list Call) : Store :=
  fold_left perform calls st.

(** A message dict that [save_chat_messages] cannot write into [st]: a
    field is missing, or its message id is in the table. *)
Definition unwritable (st : Store) (msg : Msg) : Prop :=
  match msg_message_id msg, msg_sender msg, msg_sender_type msg,
        msg_text msg, msg_timestamp msg, msg_order msg with
  | Some mid, Some _, Some _, Some _, Some _, Some _ =>
      message_id_taken st mid = true
  | _, _, _, _, _, _ => True
  end.

(** The row that [save_chat_messages] writes for a message dict. *)
Definition written_as (sid : string) (now : Time) (msg : Msg) (r : Message)
  : Prop :=
  m_session_id r = sid /\ scraped_at r = now
  /\ msg_message_id msg = Some (message_id r)
  /\ msg_sender msg = Some (sender r)
  /\ msg_sender_type msg = Some (sender_type r)
  /\ msg_text msg = Some (message_text r)
  /\ msg_timestamp msg = Some (timestamp r)
  /\ msg_order msg = Some (message_order r).

(** The session ids of [st'] are ids of [st], in their order, followed by
    the ids [new], none of which is among the ids kept. *)
Definition ids_kept (st st' : Store) (new : list string) : Prop :=
  exists g,
    map session_id (chat_sessions st')
    = (map session_id (filter g (chat_sessions st)) ++ new)%list
    /\ forall x sid, In x (chat_sessions st) -> g x = true -> In sid new ->
                     session_id x <> sid.

(** The dict of [get_session_with_phase] once a phase has been stored. *)
Definition with_phase (v : PhaseView) (p : string) (confidence : float)
           (now : Time) : PhaseView :=
  mkPhaseView (pv_session_id v) (pv_platform v) (pv_title v)
              (pv_participant v) (pv_last_activity v) (pv_total_messages v)
              (Some p) (Some confidence) (Some now).

(** The sum of a column. *)
Definition total (xs : list Z) : Z := fold_right Z.add 0 xs.

(** [a] is the session row [b] but for its rollup: only [last_activity]
    and [total_messages] may differ. *)
Definition same_but_rollup (a b : Session) : Prop :=
  s_rowid a = s_rowid b /\ session_id a = session_id b
  /\ chat_platform a = chat_platform b /\ chat_title a = chat_title b
  /\ participant_name a = participant_name b /\ chat_url a = chat_url b
  /\ started_at a = started_at b /\ status a = status b
  /\ phase a = phase b /\ phase_confidence a = phase_confidence b
  /\ phase_updated_at a = phase_updated_at b /\ created_at a = created_at b.

(** The calls that write messages into the sessions that are there. *)
Definition writes_messages_only (c : Call) : bool :=
  match c with
  | SaveChatMessages _ _ _ | UpdateExistingSession _ _ _
  | MergeChatSessions _ _ _ | CleanupDuplicateChatSessions _ => true
  | _ => false
  end.

(** The calls that number the rows they write from the positions that
    the session holds, or write no message row: all but
    [save_chat_messages], which writes the positions it is given, and
    [save_to_database], which numbers a scrape from 1. *)
Definition numbers_after_stored (c : Call) : bool :=
  match c with
  | SaveChatMessages _ _ _ | SaveToDatabase _ _ _ _ => false
  | _ => true
  end.

(** The decidable reading of [orders_increasing] on a list of positions
    and on a store. *)
Fixpoint increasing (l : list Z) : bool :=
  match l with
  | [] => true
  | x :: rest => forallb (fun y => x <? y) rest && increasing rest
  end.

Definition orders_increasing_check (st : Store) : bool :=
  forallb (fun m => increasing
                      (map message_order (messages_of st (m_session_id m))))
          (chat_messages st).

(** The key of the first subscript of [save_chat_messages] that fails on
    a message dict, in the order of its parameter tuple. *)
Definition first_missing (msg : Msg) : option string :=
  match msg_message_id msg with
  | None => Some "message_id"
  | Some _ =>
  match msg_sender msg with
  | None => Some "sender"
  | Some _ =>
  match msg_sender_type msg with
  | None => Some "sender_type"
  | Some _ =>
  match msg_text msg with
  | None => Some "text"
  | Some _ =>
  match msg_timestamp msg with
  | None => Some "timestamp"
  | Some _ =>
  match msg_order msg with
  | None => Some "order"
  | Some _ => None
  end end end end end end.

(** A message dict that carries every field. *)
Definition well_formed (msg : Msg) : bool :=
  match first_missing msg with
  | None => true
  | Some _ => false
  end.

(** The failures that [save_chat_messages] reports for a batch. *)
Definition reported (messages : list Msg) : list Event :=
  flat_map (fun msg => match first_missing msg with
                       | Some key => [WriteFailed (KeyError key)]
                       | None => []
                       end)
           messages.

(** ** Concrete stores and batches *)

Module Sample.

(** A message as [_extract_message_data] builds it for Upwork: its
    [message_id] is made of the platform, the hash of the text and the
    timestamp, so the same text at the same timestamp gives the same id. *)
Definition upwork_msg (who kind text ts hash : string) : Msg :=
  mkMsg (Some ("upwork_" ++ hash ++ "_" ++ ts)) (Some who) (Some kind)
        (Some text) (Some ts) (Some 0).

Definition ok_msg : Msg := upwork_msg "Alice" "incoming" "ok" "10:30" "8731".

(** A scrape in which one message was picked up twice. *)
Definition doubled_scrape : list Msg := [ok_msg; ok_msg].

Definition noon : Now := mkNow 1735732800 "20250101_120000".
Definition ten_past_noon : Now := mkNow 1735733400 "20250101_121000".

(** Two scrapes of one Upwork conversation, ten minutes apart: the second
    holds the five messages of the first and two new ones. *)
Definition first_scrape : list Msg :=
  [ upwork_msg "Alice" "incoming" "Hi, are you available?" "10:30" "4102";
    upwork_msg "me" "outgoing" "Yes, what do you need?" "10:31" "5977";
    upwork_msg "Alice" "incoming" "A scraper for my shop" "10:32" "1288";
    upwork_msg "me" "outgoing" "I can start on Monday" "10:33" "9034";
    upwork_msg "Alice" "incoming" "Great, send me an offer" "10:34" "7751" ].

Definition second_scrape : list Msg :=
  (first_scrape ++
   [ upwork_msg "me" "outgoing" "Offer sent" "10:38" "3319";
     upwork_msg "Alice" "incoming" "Accepted, thank you" "10:39" "6420" ])%list.

(** The store that [save_to_database] leaves when the first scrape is
    parsed into an empty database. *)
Definition first_store : Store :=
  fst (ChatParser.save_to_database empty_store first_scrape "upwork" None noon).

(** The iteration order of a Python set is not fixed; here the element
    inserted first comes first. *)
Definition first_inserted (senders : list string) : string := hd "" senders.

(** A store with one session of one message, as [save_chat_session] and
    [save_chat_messages] leave it. *)
Definition chat_1 : Session :=
  mkSession 1 "chat_1" (Some "upwork") (Some "Upwork Chat with Alice")
            (Some "Alice") "" 100 100 1 "active" None None None 100.

Definition chat_1_store : Store :=
  mkStore [chat_1]
          [mkMessage 1 "chat_1" "chat_1_1" "Alice" "incoming" "hello" "10:00"
                     1 100]
          1 1.

(** Two sessions of one conversation whose ids hold a comma, saved
    through [save_chat_session]. *)
Definition comma_data (sid : string) (total : Z) : SessionData :=
  mkSessionData (Some sid) (Some "upwork") (Some "Upwork Chat with Carol")
                (Some "Carol") None None (Some total).

Definition comma_store : Store :=
  match ChatDatabase.save_chat_session empty_store (comma_data "x,y" 2) 100 with
  | Ok (st, _) =>
      match ChatDatabase.save_chat_session st (comma_data "x,z" 1) 110 with
      | Ok (st', _) => st'
      | Raise _ => st
      end
  | Raise _ => empty_store
  end.

(** [save_chat_session] followed by [save_chat_messages]. *)
Definition stored (st : Store) (data : SessionData) (msgs : list Msg)
           (now : Time) : Store :=
  match ChatDatabase.save_chat_session st data now with
  | Ok (st1, sid) =>
      fst (fst (ChatDatabase.save_chat_messages st1 sid msgs now))
  | Raise _ => st
  end.

Definition row (mid who text : string) (order : Z) : Msg :=
  mkMsg (Some mid) (Some who) (Some "incoming") (Some text) (Some "12:00")
        (Some order).

Definition erin_data (sid : string) (total : Z) : SessionData :=
  mkSessionData (Some sid) (Some "upwork") (Some "Upwork Chat with Erin")
                (Some "Erin") None None (Some total).

Definition erin : ChatDatabase.Fingerprint :=
  (Some "upwork", Some "Upwork Chat with Erin", Some "Erin").

(** One conversation stored as three sessions of 4, 6 and 2 messages, one
    message of the third being in the second as well. *)
Definition trio_store : Store :=
  let st1 :=
    stored empty_store (erin_data "erin_a" 4)
           [ row "a1" "Erin" "hello" 1; row "a2" "me" "hi Erin" 2;
             row "a3" "Erin" "got a minute?" 3; row "a4" "me" "sure" 4 ] 100 in
  let st2 :=
    stored st1 (erin_data "erin_b" 6)
           [ row "b1" "Erin" "the site is down" 1; row "b2" "me" "since when?" 2;
             row "b3" "Erin" "this morning" 3; row "b4" "me" "looking" 4;
             row "b5" "me" "fixed" 5; row "b6" "Erin" "thanks" 6 ] 200 in
  stored st2 (erin_data "erin_c" 2)
         [ row "c1" "Erin" "thanks" 1; row "c2" "Erin" "invoice?" 2 ] 300.

(** Two sessions of one conversation; the larger holds a row under the
    message id of its next order position. *)
Definition dan_data (sid : string) (total : Z) : SessionData :=
  mkSessionData (Some sid) (Some "upwork") (Some "Upwork Chat with Dan")
                (Some "Dan") None None (Some total).

Definition lossy_store : Store :=
  let st1 :=
    stored empty_store (dan_data "dan_a" 2)
           [ row "dan_a_1" "Dan" "one" 1; row "dan_a_3" "Dan" "two" 2 ] 100 in
  stored st1 (dan_data "dan_b" 1) [ row "dan_b_1" "Dan" "three" 1 ] 200.

(** The two messages that the second scrape holds beside those of the
    first. *)
Definition new_messages : list Msg :=
  [ upwork_msg "me" "outgoing" "Offer sent" "10:38" "3319";
    upwork_msg "Alice" "incoming" "Accepted, thank you" "10:39" "6420" ].

(** A scrape whose second message has no timestamp. *)
Definition untimed_scrape : list Msg :=
  [ upwork_msg "Alice" "incoming" "any news?" "10:05" "2741";
    mkMsg (Some "upwork_5518_") (Some "me") (Some "outgoing") (Some "not yet")
          None (Some 0) ].

End Sample.

(** ** Lists and strings *)

Section OrderBy.

Context {A : Type} (before : A -> A -> bool).
Hypothesis before_total : forall a b, before a b = true \/ before b a = true.
Hypothesis before_trans :
  forall a b c, before a b = true -> before b c = true -> before a c = true.

Lemma insert_by_perm (x : A) (l : list A) :
  Permutation (insert_by before x l) (x :: l).
Proof.
  induction l as [|y l IH]; simpl.
  - apply Permutation_refl.
  - destruct (before x y).
    + apply Permutation_refl.
    + eapply perm_trans; [apply perm_skip, IH | apply perm_swap].
Qed.

Lemma order_by_perm (l : list A) : Permutation (order_by before l) l.
Proof.
  induction l as [|x l IH]; simpl.
  - constructor.
  - eapply perm_trans; [apply insert_by_perm | now apply perm_skip].
Qed.

Lemma order_by_In (l : list A) (x : A) : In x (order_by before l) <-> In x l.
Proof.
  split; apply Permutation_in; [|apply Permutation_sym]; apply order_by_perm.
Qed.

Lemma order_by_nil (l : list A) : order_by before l = [] -> l = [].
Proof.
  intros E. apply Permutation_nil. rewrite <- E. apply order_by_perm.
Qed.

Lemma order_by_length (l : list A) :
  List.length (order_by before l) = List.length l.
Proof. apply Permutation_length, order_by_perm. Qed.

Let Before (a b : A) : Prop := before a b = true.

Lemma insert_by_sorted (x : A) (l : list A) :
  StronglySorted Before l -> StronglySorted Before (insert_by before x l).
Proof using before_total before_trans.
  induction 1 as [|y l Hs IH Hall]; simpl.
  - repeat constructor.
  - destruct (before x y) eqn:E.
    + constructor; [now constructor|].
      constructor; [exact E|].
      eapply Forall_impl; [|exact Hall].
      intros z Hz. eapply before_trans; eauto.
    + constructor; [exact IH|].
      assert (Hyx : Before y x).
      { destruct (before_total x y) as [H|H]; [congruence|exact H]. }
      rewrite Forall_forall. intros z Hz.
      apply (Permutation_in _ (insert_by_perm x l)) in Hz.
      destruct Hz as [<-|Hz]; [exact Hyx|].
      rewrite Forall_forall in Hall. now apply Hall.
Qed.

Lemma order_by_sorted (l : list A) : StronglySorted Before (order_by before l).
Proof using before_total before_trans.
  induction l; simpl; [constructor | now apply insert_by_sorted].
Qed.

(** The first row of an ORDER BY stands before every row. *)
Lemma order_by_head (l : list A) (x : A) (rest : list A) :
  order_by before l = x :: rest ->
  In x l /\ forall y, In y l -> before x y = true.
Proof using before_total before_trans.
  intros E. split.
  - apply order_by_In. rewrite E. now left.
  - intros y Hy. apply order_by_In in Hy. rewrite E in Hy.
    pose proof (order_by_sorted l) as Hs. rewrite E in Hs.
    inversion Hs as [|? ? _ Hall]; subst.
    destruct Hy as [<-|Hy].
    + destruct (before_total x x); assumption.
    + rewrite Forall_forall in Hall. now apply Hall.
Qed.

End OrderBy.

Lemma ranks_before_total (a b : Session) :
  ranks_before a b = true \/ ranks_before b a = true.
Proof. unfold ranks_before. lia. Qed.

Lemma ranks_before_trans (a b c : Session) :
  ranks_before a b = true -> ranks_before b c = true ->
  ranks_before a c = true.
Proof. unfold ranks_before. lia. Qed.

Lemma ranks_before_outranked (a b : Session) :
  ranks_before a b = true <-> outranked_by b a.
Proof. unfold ranks_before, outranked_by. lia. Qed.

Lemma sql_eq_true (col : option string) (param : string) :
  Str.sql_eq col param = true <-> col = Some param.
Proof.
  destruct col as [x|]; simpl.
  - rewrite String.eqb_eq. split; congruence.
  - split; discriminate.
Qed.

Lemma matches_true (p t n : string) (s : Session) :
  ChatParser.matches p t n s = true <->
  chat_platform s = Some p /\ chat_title s = Some t
  /\ participant_name s = Some n.
Proof.
  unfold ChatParser.matches.
  rewrite !andb_true_iff, !sql_eq_true. tauto.
Qed.


Lemma filter_filter_negb {A} (f : A -> bool) (l : list A) :
  filter f (filter (fun x => negb (f x)) l) = [].
Proof.
  induction l as [|x l IH]; simpl; [reflexivity|].
  destruct (f x) eqn:E; simpl; [exact IH|]. now rewrite E.
Qed.

(** ** The session resolver *)

(** C7 at the lookup of a first scrape and at a store that holds the
    session asked for.  [chat_session_exists] resolves nothing: its first
    statement, [self.db.get_connection()], raises AttributeError for
    every store and every three strings, before the SELECT.  On the empty
    store it does not answer None.  On [Sample.chat_1_store], the store
    that [save_chat_session] and [save_chat_messages] leave for a session
    of one message, there is an active session of the platform, title and
    participant asked for, and the call does not return its id. *)
Theorem chat_session_exists_resolves_nothing :
  (forall (st : Store) (platform title participant : string),
      ChatParser.chat_session_exists st platform title participant
      = Raise (AttributeError "ChatDatabase" "get_connection"))
  /\ ChatParser.chat_session_exists empty_store "upwork"
                                    "Upwork Chat with Alice" "Alice"
     <> Ok None
  /\ Sample.stored empty_store
                   (mkSessionData (Some "chat_1") (Some "upwork")
                                  (Some "Upwork Chat with Alice")
                                  (Some "Alice") None None (Some 1))
                   [mkMsg (Some "chat_1_1") (Some "Alice") (Some "incoming")
                          (Some "hello") (Some "10:00") (Some 1)]
                   100
     = Sample.chat_1_store
  /\ In Sample.chat_1 (chat_sessions Sample.chat_1_store)
  /\ status Sample.chat_1 = "active"
  /\ ChatParser.matches "upwork" "Upwork Chat with Alice" "Alice"
                        Sample.chat_1 = true
  /\ ChatParser.chat_session_exists Sample.chat_1_store "upwork"
                                    "Upwork Chat with Alice" "Alice"
     <> Ok (Some "chat_1").
Proof.
  split; [reflexivity|]. split; [discriminate|].
  split; [vm_compute; reflexivity|].
  split; [now left|]. split; [reflexivity|].
  split; [reflexivity|discriminate].
Qed.

(** ** Saving a session row *)

(** C10.  Saving under a session id that is already stored replaces the
    whole row: exactly one row is left under that id, it is a new row
    (next rowid, creation time now) whose status is 'active', whose last
    activity is now, whose phase, phase confidence and phase update time
    are NULL, and whose other columns are the supplied values or, where
    none is supplied, the defaults of the call and not the values stored
    before; the other session rows and all message rows stay. *)
Theorem save_chat_session_replaces_row :
  forall (st : Store) (data : SessionData) (sid : string) (now : Time),
    sd_session_id data = Some sid ->
    sessions_named st sid <> [] ->
    exists st' row,
      ChatDatabase.save_chat_session st data now = Ok (st', sid)
      /\ sessions_named st' sid = [row]
      /\ s_rowid row = sessions_seq st + 1
      /\ created_at row = now
      /\ status row = "active"
      /\ last_activity row = now
      /\ phase row = None
      /\ phase_confidence row = None
      /\ phase_updated_at row = None
      /\ chat_platform row = Some (get (sd_platform data) "unknown")
      /\ chat_title row = Some (get (sd_title data) "Unknown Chat")
      /\ participant_name row = Some (get (sd_participant data) "Unknown")
      /\ chat_url row = get (sd_url data) ""
      /\ started_at row = get (sd_started_at data) now
      /\ total_messages row = get (sd_total_messages data) 0
      /\ (forall other, session_id other <> sid ->
            (In other (chat_sessions st') <-> In other (chat_sessions st)))
      /\ (forall old, In old (sessions_named st sid) ->
            s_rowid old <= sessions_seq st -> ~ In old (chat_sessions st'))
      /\ chat_messages st' = chat_messages st.
Proof.
  intros st data sid now Hsid _.
  unfold ChatDatabase.save_chat_session. rewrite Hsid. simpl.
  eexists. eexists. split; [reflexivity|].
  split.
  { unfold sessions_named, ChatDatabase.insert_or_replace_session. simpl.
    rewrite filter_app.
    rewrite (filter_filter_negb (fun s => String.eqb (session_id s) sid)).
    simpl. now rewrite String.eqb_refl. }
  repeat (split; [reflexivity|]).
  split; [|split; [|reflexivity]].
  - intros other Hne. unfold ChatDatabase.insert_or_replace_session. simpl.
    rewrite in_app_iff, filter_In. simpl. split.
    + intros [[H _]|[H|[]]]; [exact H|]. subst other. simpl in Hne.
      congruence.
    + intros H. left. split; [exact H|].
      apply negb_true_iff, String.eqb_neq. exact Hne.
  - intros old Hold Hrow Hin. apply filter_In in Hold.
    destruct Hold as [_ Hid].
    unfold ChatDatabase.insert_or_replace_session in Hin. simpl in Hin.
    apply in_app_iff in Hin. destruct Hin as [Hin|[Hin|[]]].
    + apply filter_In in Hin. destruct Hin as [_ Hn]. simpl in Hn.
      rewrite Hid in Hn. discriminate Hn.
    + subst old. simpl in Hrow. lia.
Qed.

(** After a phase was detected and stored, saving the session again
    under its id wipes it. *)
Lemma phase_lost_on_resave :
  forall (st st1 st2 : Store) (data : SessionData) (sid p : string)
         (confidence : float) (t now : Time) (row : Session),
    ChatDatabase.update_session_phase st sid p confidence t = (st1, true) ->
    ChatDatabase.save_chat_session st1 data now = Ok (st2, sid) ->
    In row (sessions_named st2 sid) ->
    phase row = None /\ phase_confidence row = None
    /\ phase_updated_at row = None.
Proof.
  intros st st1 st2 data sid p c t now row _ Hsave Hrow.
  unfold ChatDatabase.save_chat_session in Hsave.
  destruct (sd_session_id data) as [sid'|]; simpl in Hsave; [|discriminate].
  injection Hsave as <- ->.
  unfold sessions_named, ChatDatabase.insert_or_replace_session in Hrow.
  simpl in Hrow. rewrite filter_app in Hrow.
  rewrite (filter_filter_negb (fun s => String.eqb (session_id s) sid)) in Hrow.
  simpl in Hrow. rewrite String.eqb_refl in Hrow.
  destruct Hrow as [<-|[]]. now simpl.
Qed.

(** ** Rows written by [save_chat_messages] *)

Lemma insert_message_sessions (st st' : Store) (sid mid who kind text ts : string)
      (order : Z) (scraped : Time) :
  insert_message st sid mid who kind text ts order scraped = Ok st' ->
  chat_sessions st' = chat_sessions st
  /\ sessions_seq st' = sessions_seq st
  /\ chat_messages st' =
     (chat_messages st ++
        [mkMessage (messages_seq st + 1) sid mid who kind text ts order
                   scraped])%list
  /\ message_id_taken st mid = false
  /\ messages_seq st' = messages_seq st + 1.
Proof.
  unfold insert_message. destruct (message_id_taken st mid); [discriminate|].
  intros [= <-]. simpl. auto.
Qed.

Lemma save_message_sessions (sid : string) (now : Time) (s : SaveLoop) (msg : Msg) :
  chat_sessions (sl_store (ChatDatabase.save_message sid now s msg))
  = chat_sessions (sl_store s)
  /\ sessions_seq (sl_store (ChatDatabase.save_message sid now s msg))
     = sessions_seq (sl_store s).
Proof.
  unfold ChatDatabase.save_message.
  destruct (msg_message_id msg), (msg_sender msg), (msg_sender_type msg),
    (msg_text msg), (msg_timestamp msg), (msg_order msg); simpl; auto.
  match goal with
  | |- context [insert_message ?a ?b ?c ?d ?e ?f ?g ?h ?i] =>
      destruct (insert_message a b c d e f g h i) as [st'|] eqn:E
  end; simpl; auto.
  apply insert_message_sessions in E. tauto.
Qed.

Lemma save_chat_messages_sessions (sid : string) (now : Time)
      (messages : list Msg) (st : Store) :
  chat_sessions (fst (fst (ChatDatabase.save_chat_messages st sid messages now)))
  = chat_sessions st.
Proof.
  unfold ChatDatabase.save_chat_messages. simpl.
  change st with (sl_store (mkSaveLoop st 0 [])) at 2.
  generalize (mkSaveLoop st 0 []).
  induction messages as [|m ms IH]; intros s; simpl; [reflexivity|].
  rewrite IH. apply save_message_sessions.
Qed.

(** ** Session creation *)

(** C6 at a scrape that holds the same message twice: the new session
    row says two messages, the session owns one row. *)
Theorem save_to_database_stale_rollup :
  exists (st : Store) (sid : string) (row : Session),
    ChatParser.save_to_database empty_store Sample.doubled_scrape "upwork"
                                None Sample.noon = (st, sid)
    /\ sessions_named st sid = [row]
    /\ total_messages row = 2
    /\ count_messages st sid = 1
    /\ ~ rollup_correct st sid.
Proof.
  eexists. eexists. eexists.
  split; [vm_compute; reflexivity|].
  split; [vm_compute; reflexivity|].
  split; [reflexivity|].
  split; [reflexivity|].
  intros H. specialize (H _ (or_introl eq_refl)). discriminate H.
Qed.

Lemma append_cancel_l (p a b : string) : p ++ a = p ++ b -> a = b.
Proof.
  induction p as [|c p IH]; simpl; [auto|]. intros [= H]. auto.
Qed.

(** The resolver is asked for "<Platform> Chat with <participant>"; a row
    written by [save_to_database] is titled "<Platform> Chat Session" and
    does not pass its WHERE clause. *)
Lemma created_by_save_never_matches (s : Session)
      (platform participant : string) :
  created_by_save s ->
  ChatParser.matches platform
                     (Str.title platform ++ " Chat with " ++ participant)
                     participant s = false.
Proof.
  intros (q & Hq & Ht).
  destruct (ChatParser.matches platform
              (Str.title platform ++ " Chat with " ++ participant)
              participant s) eqn:M; [|reflexivity].
  apply matches_true in M. destruct M as (Hp & Ht' & _).
  rewrite Hq in Hp. injection Hp as ->.
  rewrite Ht in Ht'. injection Ht' as Ht'.
  apply append_cancel_l in Ht'. discriminate Ht'.
Qed.

(** C8 at the two scrapes of one Upwork conversation, ten minutes
    apart.  With [--incremental] each of the two scrapes ends
    in the error result: [chat_session_exists] raises AttributeError,
    [process_incremental] catches it, and the store stays empty.  With
    [--latest] or [--html-file] each scrape goes to [save_to_database]:
    the second opens a session of its own, whose row counts 7 messages
    while it owns the 2 new rows only, the 5 repeated message ids having
    been ignored; and the row of the first scrape, titled "Upwork Chat
    Session" of participant "Unknown", is not one that the lookup for
    "Upwork Chat with Alice" selects.  On neither path is there one
    session of 7 rows. *)
Theorem two_scrapes_leave_no_single_session :
  ChatParser.process_incremental Sample.first_inserted empty_store
    Sample.first_scrape "upwork" Sample.noon
  = (empty_store, ErrorResult (AttributeError "ChatDatabase" "get_connection"))
  /\ ChatParser.process_incremental Sample.first_inserted empty_store
       Sample.second_scrape "upwork" Sample.ten_past_noon
     = (empty_store,
        ErrorResult (AttributeError "ChatDatabase" "get_connection"))
  /\ chat_sessions
       (perform_all empty_store
          [ProcessIncremental Sample.first_inserted Sample.first_scrape
                              "upwork" Sample.noon;
           ProcessIncremental Sample.first_inserted Sample.second_scrape
                              "upwork" Sample.ten_past_noon]) = []
  /\ exists st1 st2 : Store,
       ChatParser.save_to_database empty_store Sample.first_scrape "upwork"
                                   None Sample.noon
       = (st1, "upwork_20250101_120000")
       /\ ChatParser.save_to_database st1 Sample.second_scrape "upwork"
                                      None Sample.ten_past_noon
          = (st2, "upwork_20250101_121000")
       /\ map session_id (chat_sessions st2)
          = ["upwork_20250101_120000"; "upwork_20250101_121000"]
       /\ map total_messages (chat_sessions st2) = [5; 7]
       /\ count_messages st2 "upwork_20250101_120000" = 5
       /\ count_messages st2 "upwork_20250101_121000" = 2
       /\ ChatParser.extract_participant_name
            Sample.first_inserted "upwork" Sample.second_scrape = "Alice"
       /\ forall s, In s (chat_sessions st1) ->
                    ChatParser.matches "upwork" "Upwork Chat with Alice"
                                       "Alice" s = false.
Proof.
  split; [reflexivity|]. split; [reflexivity|]. split; [reflexivity|].
  eexists. eexists.
  split; [vm_compute; reflexivity|].
  split; [vm_compute; reflexivity|].
  split; [vm_compute; reflexivity|].
  split; [vm_compute; reflexivity|].
  split; [vm_compute; reflexivity|].
  split; [vm_compute; reflexivity|].
  split; [vm_compute; reflexivity|].
  intros s [<-|[]]. reflexivity.
Qed.

Lemma save_chat_session_replaces_row_witness :
  exists st' row,
    ChatDatabase.save_chat_session
      Sample.chat_1_store
      (mkSessionData (Some "chat_1") (Some "upwork") None None None None None)
      200 = Ok (st', "chat_1")
    /\ sessions_named st' "chat_1" = [row]
    /\ status row = "active" /\ last_activity row = 200
    /\ phase row = None
    /\ chat_title row = Some "Unknown Chat"
    /\ total_messages row = 0.
Proof.
  destruct (save_chat_session_replaces_row
              Sample.chat_1_store
              (mkSessionData (Some "chat_1") (Some "upwork") None None None
                             None None)
              "chat_1" 200 eq_refl)
    as (st' & row & H1 & H2 & _ & _ & H5 & H6 & H7 & _ & _ & _ & H11 & _
        & _ & _ & H15 & _).
  - vm_compute. discriminate.
  - exists st', row. repeat split; assumption.
Defined.

(** ** Message rows and the rollup *)

Lemma existsb_snoc {A} (f : A -> bool) (l : list A) (x : A) :
  existsb f (l ++ [x])%list = existsb f l || f x.
Proof. rewrite existsb_app. simpl. now rewrite orb_false_r. Qed.

Lemma has_key_own (sid who text : string) (m : Message) :
  m_session_id m = sid -> sender m = who -> message_text m = text ->
  has_key sid who text m = true.
Proof.
  intros <- <- <-. unfold has_key, owned_by. now rewrite !String.eqb_refl.
Qed.

Lemma update_session_rollup_messages (st : Store) (sid : string) (now : Time) :
  chat_messages (update_session_rollup st sid now) = chat_messages st.
Proof. reflexivity. Qed.

Lemma update_session_rollup_correct (st : Store) (sid : string) (now : Time) :
  rollup_correct (update_session_rollup st sid now) sid.
Proof.
  intros s Hs. unfold sessions_named in Hs. apply filter_In in Hs.
  destruct Hs as [Hin Hid]. simpl in Hin. apply in_map_iff in Hin.
  destruct Hin as (s0 & <- & _).
  destruct (String.eqb (session_id s0) sid) eqn:E; [reflexivity|].
  rewrite E in Hid. discriminate.
Qed.

(** ** Dedup keys *)

Lemma key_eqb_eq (a b : string * string) : key_eqb a b = true <-> a = b.
Proof.
  destruct a as [a1 a2], b as [b1 b2]. unfold key_eqb. simpl.
  rewrite andb_true_iff, !String.eqb_eq. split.
  - intros [-> ->]. reflexivity.
  - intros [= -> ->]. auto.
Qed.

Lemma key_in_In (k : string * string) (keys : list (string * string)) :
  key_in k keys = true <-> In k keys.
Proof.
  unfold key_in. rewrite existsb_exists. split.
  - intros (x & Hx & He). apply key_eqb_eq in He. now subst.
  - intros H. exists k. split; [exact H|]. now apply key_eqb_eq.
Qed.

Lemma key_absent_check (k : string * string) (keys : list (string * string)) :
  key_in k keys = false -> ~ In k keys.
Proof. intros H Hin. apply key_in_In in Hin. congruence. Qed.

Lemma message_exists_key_in (st : Store) (sid who text : string) :
  message_exists st sid who text = key_in (who, text) (keys_of st sid).
Proof.
  unfold message_exists, key_in, keys_of, messages_of.
  induction (chat_messages st) as [|m l IH]; simpl; [reflexivity|].
  unfold has_key at 1. destruct (owned_by sid m) eqn:E; simpl.
  - rewrite IH. f_equal. unfold key_eqb, dedup_key. simpl.
    now rewrite (String.eqb_sym (sender m)), (String.eqb_sym (message_text m)).
  - exact IH.
Qed.

Lemma filter_all {A} (f : A -> bool) (l : list A) :
  Forall (fun x => f x = true) l -> filter f l = l.
Proof.
  induction 1 as [|x l Hx _ IH]; simpl; [reflexivity|]. now rewrite Hx, IH.
Qed.

Lemma messages_of_app (st st' : Store) (sid : string) (rows : list Message) :
  chat_messages st' = (chat_messages st ++ rows)%list ->
  Forall (fun m => m_session_id m = sid) rows ->
  messages_of st' sid = (messages_of st sid ++ rows)%list.
Proof.
  intros E Hrows. unfold messages_of. rewrite E, filter_app. f_equal.
  apply filter_all. eapply Forall_impl; [|exact Hrows].
  intros m <-. apply String.eqb_refl.
Qed.

(** ** The ingest into a session *)

(** [process_incremental] commits nothing: a scrape without messages is
    turned away, and for any other the lookup of the session raises. *)
Lemma process_incremental_writes_nothing
      (first_of_set : list string -> string) (st : Store)
      (messages : list Msg) (platform : string) (now : Now) :
  fst (ChatParser.process_incremental first_of_set st messages platform now)
  = st.
Proof.
  destruct messages; reflexivity.
Qed.

Lemma perform_update_existing_session (st : Store) (sid : string)
      (batch : list Msg) (now : Time) :
  perform st (UpdateExistingSession sid batch now) = st.
Proof. reflexivity. Qed.

(** C1 at the second scrape, ingested twice into the session of the
    first.  [update_existing_session] ingests nothing: its first
    statement, [self.db.get_connection()], raises AttributeError for
    every store, session and batch, before any read or write, and what
    the caller finds afterwards is the store as it was.  On the store
    that [save_to_database] leaves for the first scrape, neither call
    stores or skips a message: after the first call the dedup keys of the
    two new messages are not in the session, and after the second the
    store is the one of the start, with the five rows it held. *)
Theorem reingest_raises_before_any_check :
  (forall (st : Store) (sid : string) (batch : list Msg) (now : Time),
      ChatParser.update_existing_session st sid batch now
      = Raise (AttributeError "ChatDatabase" "get_connection")
      /\ perform st (UpdateExistingSession sid batch now) = st)
  /\ (let sid := "upwork_20250101_120000" in
      let st1 := perform Sample.first_store
                         (UpdateExistingSession sid Sample.second_scrape
                                                1735733400) in
      let st2 := perform st1
                         (UpdateExistingSession sid Sample.second_scrape
                                                1735733460) in
      map session_id (chat_sessions Sample.first_store) = [sid]
      /\ count_messages Sample.first_store sid = 5
      /\ message_exists st1 sid "me" "Offer sent" = false
      /\ message_exists st1 sid "Alice" "Accepted, thank you" = false
      /\ count_messages st2 sid = 5
      /\ st2 = Sample.first_store).
Proof.
  split; [intros st sid batch now; split; reflexivity|].
  cbv zeta. rewrite !perform_update_existing_session.
  repeat split; vm_compute; reflexivity.
Qed.

(** C2 at two batches that overlap in six messages, ingested one after
    the other into the session of the first scrape: the first six
    messages of the second scrape, then the second scrape.  Both calls of
    [update_existing_session] raise AttributeError and the store is left
    as it was: the session holds its five keys instead of the union of
    seven, and neither new message is appended. *)
Theorem overlapping_batches_are_not_stored :
  let sid := "upwork_20250101_120000" in
  ChatParser.update_existing_session Sample.first_store sid
                                     (firstn 6 Sample.second_scrape)
                                     1735733400
  = Raise (AttributeError "ChatDatabase" "get_connection")
  /\ ChatParser.update_existing_session Sample.first_store sid
                                        Sample.second_scrape 1735733460
     = Raise (AttributeError "ChatDatabase" "get_connection")
  /\ perform_all Sample.first_store
                 [UpdateExistingSession sid (firstn 6 Sample.second_scrape)
                                        1735733400;
                  UpdateExistingSession sid Sample.second_scrape 1735733460]
     = Sample.first_store
  /\ List.length (keys_of Sample.first_store sid) = 5%nat
  /\ ~ In ("me", "Offer sent") (keys_of Sample.first_store sid)
  /\ ~ In ("Alice", "Accepted, thank you") (keys_of Sample.first_store sid).
Proof.
  cbv zeta.
  split; [reflexivity|]. split; [reflexivity|]. split; [reflexivity|].
  split; [vm_compute; reflexivity|].
  split; apply key_absent_check; vm_compute; reflexivity.
Qed.

(** ** Distinct values *)

Section Distinct.

Context {K : Type} (eqb : K -> K -> bool).
Hypothesis eqb_eq : forall a b, eqb a b = true <-> a = b.

Lemma filter_comm (f g : K -> bool) (l : list K) :
  filter f (filter g l) = filter g (filter f l).
Proof.
  induction l as [|x l IH]; simpl; [reflexivity|].
  destruct (f x) eqn:F, (g x) eqn:G; simpl; rewrite ?F, ?G, IH; reflexivity.
Qed.

Lemma filter_andb (f g : K -> bool) (l : list K) :
  filter f (filter g l) = filter (fun x => f x && g x) l.
Proof.
  induction l as [|x l IH]; simpl; [reflexivity|].
  destruct (g x) eqn:G; simpl; destruct (f x) eqn:F; simpl;
    rewrite ?IH; reflexivity.
Qed.

Lemma filter_implied (f g : K -> bool) (l : list K) :
  (forall x, f x = true -> g x = true) ->
  filter f (filter g l) = filter f l.
Proof.
  intros H. induction l as [|x l IH]; simpl; [reflexivity|].
  destruct (g x) eqn:G; simpl.
  - now rewrite IH.
  - destruct (f x) eqn:F; [|exact IH]. apply H in F. congruence.
Qed.

Lemma distinct_filter (f : K -> bool) (l : list K) :
  distinct eqb (filter f l) = filter f (distinct eqb l).
Proof using eqb_eq.
  induction l as [|x l IH]; simpl; [reflexivity|].
  destruct (f x) eqn:F; simpl; rewrite ?F.
  - rewrite IH. f_equal. apply filter_comm.
  - rewrite IH. symmetry. apply filter_implied.
    intros y Hy. apply negb_true_iff.
    destruct (eqb x y) eqn:E; [|reflexivity].
    apply eqb_eq in E. subst y. congruence.
Qed.

Lemma distinct_In (l : list K) (k : K) : In k (distinct eqb l) <-> In k l.
Proof using eqb_eq.
  induction l as [|x l IH]; simpl; [tauto|].
  rewrite filter_In, IH. split.
  - intros [H|[H _]]; auto.
  - intros [H|H]; [now left|].
    destruct (eqb x k) eqn:E.
    + left. now apply eqb_eq.
    + right. split; [exact H|]. reflexivity.
Qed.

Lemma distinct_NoDup (l : list K) : NoDup (distinct eqb l).
Proof using eqb_eq.
  induction l as [|x l IH]; simpl; constructor.
  - rewrite filter_In. intros [_ H].
    rewrite (proj2 (eqb_eq x x) eq_refl) in H. discriminate.
  - now apply NoDup_filter.
Qed.

End Distinct.

Lemma keys_union_step (present batch : list (string * string))
      (k : string * string) :
  In k (present
        ++ distinct key_eqb
             (filter (fun x => negb (key_in x present)) batch))%list
  <-> In k present \/ In k batch.
Proof.
  rewrite in_app_iff, (distinct_In key_eqb key_eqb_eq), filter_In,
    negb_true_iff.
  destruct (key_in k present) eqn:E.
  - apply key_in_In in E. tauto.
  - tauto.
Qed.

(** ** Order positions *)

Lemma max_of_bound (xs : list Z) :
  forall m, max_of xs = Some m -> Forall (fun x => x <= m) xs.
Proof.
  induction xs as [|x xs IH]; intros m; simpl; [constructor|].
  destruct (max_of xs) as [y|] eqn:E.
  - intros [= <-]. constructor; [lia|].
    eapply Forall_impl; [|exact (IH y eq_refl)]. intros a Ha. simpl in Ha. lia.
  - intros [= <-]. destruct xs as [|z zs].
    + repeat constructor. lia.
    + simpl in E. destruct (max_of zs); discriminate.
Qed.

Lemma max_message_order_bound (st : Store) (sid : string) :
  Forall (fun m => message_order m <= max_message_order st sid)
         (messages_of st sid).
Proof.
  unfold max_message_order.
  destruct (max_of (map message_order (messages_of st sid))) as [m|] eqn:E.
  - apply max_of_bound in E. now rewrite Forall_map in E.
  - destruct (messages_of st sid); [constructor|].
    simpl in E. destruct (max_of _); discriminate.
Qed.

Lemma sorted_snoc (l : list Z) (y : Z) :
  StronglySorted Z.lt l -> Forall (fun x => x < y) l ->
  StronglySorted Z.lt (l ++ [y]).
Proof.
  induction 1 as [|x l Hs IH Hall]; intros Hy; simpl.
  - repeat constructor.
  - inversion Hy as [|? ? Hxy Hly]; subst.
    constructor; [now apply IH|].
    apply Forall_app. split; [exact Hall|]. now repeat constructor.
Qed.

Lemma sorted_map_filter {A} (g : A -> Z) (f : A -> bool) (l : list A) :
  StronglySorted Z.lt (map g l) -> StronglySorted Z.lt (map g (filter f l)).
Proof.
  induction l as [|x l IH]; simpl; [auto|].
  intros H. inversion H as [|? ? Hs Hall]; subst.
  destruct (f x); simpl; [|now apply IH].
  constructor; [now apply IH|].
  rewrite Forall_map in *. rewrite Forall_forall in *.
  intros y Hy. apply Hall. apply filter_In in Hy. tauto.
Qed.

Lemma messages_of_insert (st st' : Store) (sid mid who kind text ts : string)
      (order : Z) (scraped : Time) (sid' : string) :
  insert_message st sid mid who kind text ts order scraped = Ok st' ->
  messages_of st' sid'
  = if String.eqb sid sid'
    then (messages_of st sid'
          ++ [mkMessage (messages_seq st + 1) sid mid who kind text ts order
                        scraped])%list
    else messages_of st sid'.
Proof.
  intros H. apply insert_message_sessions in H.
  destruct H as (_ & _ & Hm & _). unfold messages_of. rewrite Hm, filter_app.
  simpl. unfold owned_by at 2. simpl.
  destruct (String.eqb sid sid'); [reflexivity|apply app_nil_r].
Qed.

(** Writing a row above every position of its session keeps the
    positions of every session increasing. *)
Lemma insert_message_keeps_order (st st' : Store)
      (sid mid who kind text ts : string) (bound : Z) (scraped : Time) :
  orders_increasing st ->
  Forall (fun m => message_order m <= bound) (messages_of st sid) ->
  insert_message st sid mid who kind text ts (bound + 1) scraped = Ok st' ->
  orders_increasing st'
  /\ Forall (fun m => message_order m <= bound + 1) (messages_of st' sid).
Proof.
  intros Hinc Hb Hins. split.
  - intros sid'. rewrite (messages_of_insert _ _ _ _ _ _ _ _ _ _ sid' Hins).
    destruct (String.eqb sid sid') eqn:E; [|apply Hinc].
    apply String.eqb_eq in E. subst sid'.
    rewrite map_app. simpl. apply sorted_snoc; [apply Hinc|].
    rewrite Forall_map. eapply Forall_impl; [|exact Hb].
    intros m Hm. simpl in Hm. lia.
  - rewrite (messages_of_insert _ _ _ _ _ _ _ _ _ _ sid Hins).
    rewrite String.eqb_refl. apply Forall_app. split.
    + eapply Forall_impl; [|exact Hb]. intros m Hm. simpl in Hm. lia.
    + repeat constructor. simpl. lia.
Qed.

Lemma Forall_le_weaken (l : list Message) (a b : Z) :
  a <= b -> Forall (fun m => message_order m <= a) l ->
  Forall (fun m => message_order m <= b) l.
Proof.
  intros Hab. apply Forall_impl. intros m Hm. lia.
Qed.

(** *** Merging *)

Lemma merge_message_keeps_order (keep : string) (s : MergeLoop) (msg : Message) :
  orders_increasing (ml_store s) ->
  Forall (fun m => message_order m <= ml_max_order s)
         (messages_of (ml_store s) keep) ->
  orders_increasing (ml_store (ChatDatabase.merge_message keep s msg))
  /\ Forall (fun m => message_order m
                      <= ml_max_order (ChatDatabase.merge_message keep s msg))
            (messages_of (ml_store (ChatDatabase.merge_message keep s msg))
                         keep).
Proof.
  intros Hinc Hb. unfold ChatDatabase.merge_message.
  destruct (message_exists (ml_store s) keep (sender msg) (message_text msg)).
  - now split.
  - destruct (insert_message _ _ _ _ _ _ _ _ _) as [st'|e] eqn:E;
      cbn [ml_store ml_max_order].
    + eapply insert_message_keeps_order; eauto.
    + split; [exact Hinc|]. eapply Forall_le_weaken; [|exact Hb]. lia.
Qed.

Lemma fold_merge_message_keeps_order (keep : string) (msgs : list Message) :
  forall s,
    orders_increasing (ml_store s) ->
    Forall (fun m => message_order m <= ml_max_order s)
           (messages_of (ml_store s) keep) ->
    orders_increasing
      (ml_store (fold_left (ChatDatabase.merge_message keep) msgs s))
    /\ Forall (fun m => message_order m
                        <= ml_max_order
                             (fold_left (ChatDatabase.merge_message keep) msgs s))
              (messages_of
                 (ml_store (fold_left (ChatDatabase.merge_message keep) msgs s))
                 keep).
Proof.
  induction msgs as [|m ms IH]; intros s Hinc Hb; simpl; [now split|].
  destruct (merge_message_keeps_order keep s m Hinc Hb). now apply IH.
Qed.

Lemma messages_of_delete (st : Store) (removed sid : string) :
  messages_of (delete_session (delete_messages st removed) removed) sid
  = filter (fun m => negb (owned_by removed m)) (messages_of st sid).
Proof.
  unfold messages_of. simpl. apply filter_comm.
Qed.

Lemma merge_session_keeps_order (keep : string) (s : MergeLoop)
      (remove : string) :
  orders_increasing (ml_store s) ->
  Forall (fun m => message_order m <= ml_max_order s)
         (messages_of (ml_store s) keep) ->
  orders_increasing (ml_store (ChatDatabase.merge_session keep s remove))
  /\ Forall (fun m => message_order m
                      <= ml_max_order (ChatDatabase.merge_session keep s remove))
            (messages_of (ml_store (ChatDatabase.merge_session keep s remove))
                         keep).
Proof.
  intros Hinc Hb. unfold ChatDatabase.merge_session.
  cbn [ml_store ml_max_order].
  match goal with
  | |- context [fold_left ?f ?l s] =>
      destruct (fold_merge_message_keeps_order keep l s Hinc Hb) as [H1 H2];
      set (s1 := fold_left f l s) in *
  end.
  split.
  - intros sid. rewrite messages_of_delete. apply sorted_map_filter, H1.
  - rewrite messages_of_delete. rewrite Forall_forall in *.
    intros m Hm. apply filter_In in Hm. apply H2. tauto.
Qed.

Lemma fold_merge_session_keeps_order (keep : string) (removes : list string) :
  forall s,
    orders_increasing (ml_store s) ->
    Forall (fun m => message_order m <= ml_max_order s)
           (messages_of (ml_store s) keep) ->
    orders_increasing
      (ml_store (fold_left (ChatDatabase.merge_session keep) removes s)).
Proof.
  induction removes as [|r rs IH]; intros s Hinc Hb; simpl; [exact Hinc|].
  destruct (merge_session_keeps_order keep s r Hinc Hb). now apply IH.
Qed.

Lemma merge_chat_sessions_keeps_order (st : Store) (keep : string)
      (removes : list string) (now : Time) :
  orders_increasing st ->
  orders_increasing
    (fst (fst (ChatDatabase.merge_chat_sessions st keep removes now))).
Proof.
  intros Hinc. unfold ChatDatabase.merge_chat_sessions. cbn [fst].
  intros sid. unfold messages_of. rewrite update_session_rollup_messages.
  apply (fold_merge_session_keeps_order keep removes
           (mkMergeLoop st (max_message_order st keep) 0 0 0 [])).
  - exact Hinc.
  - apply max_message_order_bound.
Qed.

Lemma cleanup_keeps_order (st : Store) (now : Time) :
  orders_increasing st ->
  orders_increasing
    (fst (fst (ChatDatabase.cleanup_duplicate_chat_sessions st now))).
Proof.
  intros Hinc. unfold ChatDatabase.cleanup_duplicate_chat_sessions.
  destruct (ChatDatabase.find_duplicate_chat_sessions st) as [|g gs] eqn:E;
    [exact Hinc|].
  cbn [fst]. generalize (g :: gs). intros groups.
  assert (H : orders_increasing (cl_store (mkCleanupLoop st 0 0 0 0 [])))
    by exact Hinc.
  revert H. generalize (mkCleanupLoop st 0 0 0 0 []).
  induction groups as [|h hs IH]; intros s Hs; simpl; [exact Hs|].
  apply IH. unfold ChatDatabase.cleanup_group.
  pose proof (merge_chat_sessions_keeps_order (cl_store s) (keep_session h)
                (remove_sessions h) now Hs) as Hm.
  destruct (ChatDatabase.merge_chat_sessions (cl_store s) (keep_session h)
              (remove_sessions h) now) as [[st' stats] log].
  exact Hm.
Qed.

(** After a merge the rollup of the surviving session is the count of its
    rows. *)
Lemma merge_chat_sessions_rollup (st : Store) (keep : string)
      (removes : list string) (now : Time) :
  rollup_correct (fst (fst (ChatDatabase.merge_chat_sessions st keep removes now)))
                 keep.
Proof. apply update_session_rollup_correct. Qed.

(** ** GROUP_CONCAT and split *)

Lemma append_assoc (a b c : string) : (a ++ b) ++ c = a ++ (b ++ c).
Proof. induction a as [|x a IH]; simpl; [reflexivity|now rewrite IH]. Qed.

Lemma append_nil_r (a : string) : a ++ "" = a.
Proof. induction a as [|x a IH]; simpl; [reflexivity|now rewrite IH]. Qed.

Lemma split_acc_app (c : ascii) (s : string) :
  Str.contains c s = false ->
  forall rest cur,
    Str.split_acc c (s ++ rest) cur = Str.split_acc c rest (cur ++ s).
Proof.
  induction s as [|a s IH]; simpl; intros Hc rest cur.
  - now rewrite append_nil_r.
  - apply orb_false_iff in Hc. destruct Hc as [Ha Hs]. rewrite Ha.
    rewrite (IH Hs). now rewrite append_assoc.
Qed.

Lemma split_join (ids : list string) :
  ids <> [] ->
  (forall s, In s ids -> Str.contains "," s = false) ->
  Str.split "," (Str.join "," ids) = ids.
Proof.
  unfold Str.split. induction ids as [|p rest IH]; [congruence|].
  intros _ Hc. destruct rest as [|q rest].
  - simpl. rewrite <- (append_nil_r p) at 1.
    rewrite split_acc_app by (apply Hc; now left). reflexivity.
  - change (Str.join "," (p :: q :: rest))
      with (p ++ "," ++ Str.join "," (q :: rest)).
    rewrite split_acc_app by (apply Hc; now left).
    change ("," ++ Str.join "," (q :: rest))
      with (String "," (Str.join "," (q :: rest))).
    cbn [Str.split_acc]. rewrite Ascii.eqb_refl. cbn [append]. f_equal.
    apply IH; [discriminate|]. intros s Hs. apply Hc. now right.
Qed.

(** ** Duplicate groups *)

Lemma opt_eqb_eq (a b : option string) : Str.opt_eqb a b = true <-> a = b.
Proof.
  destruct a as [x|], b as [y|]; simpl; try (split; congruence).
  rewrite String.eqb_eq. split; congruence.
Qed.

Lemma fingerprint_eqb_eq (a b : ChatDatabase.Fingerprint) :
  ChatDatabase.fingerprint_eqb a b = true <-> a = b.
Proof.
  destruct a as [[p1 t1] n1], b as [[p2 t2] n2]. simpl.
  rewrite !andb_true_iff, !opt_eqb_eq. split.
  - intros [[-> ->] ->]. reflexivity.
  - intros [= -> -> ->]. auto.
Qed.

Lemma in_group_true (k : ChatDatabase.Fingerprint) (s : Session) :
  ChatDatabase.in_group k s = true <-> ChatDatabase.fingerprint s = k.
Proof. apply fingerprint_eqb_eq. Qed.

Lemma members_of_In (st : Store) (k : ChatDatabase.Fingerprint) (s : Session) :
  In s (members_of st k) <->
  In s (chat_sessions st) /\ ChatDatabase.groupable s = true
  /\ ChatDatabase.fingerprint s = k.
Proof.
  unfold members_of. rewrite !filter_In, in_group_true. tauto.
Qed.

Lemma filter_nil_iff {A} (f : A -> bool) (l : list A) :
  (forall x, In x l -> f x = false) -> filter f l = [].
Proof.
  induction l as [|x l IH]; intros H; simpl; [reflexivity|].
  rewrite (H x (or_introl eq_refl)). apply IH. intros y Hy. apply H. now right.
Qed.

(** What the GROUP BY query returns: the fingerprints with more than one
    session, each once, with all its sessions. *)
Lemma duplicate_groups_In (st : Store) (k : ChatDatabase.Fingerprint)
      (members : list Session) :
  In (k, members) (ChatDatabase.duplicate_groups st) <->
  members = members_of st k /\ (1 < List.length members)%nat.
Proof.
  unfold ChatDatabase.duplicate_groups.
  rewrite order_by_In, filter_In, in_map_iff. simpl. split.
  - intros [(k' & [= <- <-] & _) Hlen]. split; [reflexivity|].
    now apply Nat.ltb_lt.
  - intros [-> Hlen]. split; [|now apply Nat.ltb_lt].
    exists k. split; [reflexivity|].
    apply (distinct_In _ fingerprint_eqb_eq).
    destruct (members_of st k) as [|s rest] eqn:E; [simpl in Hlen; lia|].
    assert (Hs : In s (members_of st k)) by (rewrite E; now left).
    unfold members_of in Hs. apply filter_In in Hs. destruct Hs as [Hs Hk].
    apply in_group_true in Hk. subst k. now apply in_map.
Qed.

Lemma duplicate_groups_keys_NoDup (st : Store) :
  NoDup (map fst (ChatDatabase.duplicate_groups st)).
Proof.
  unfold ChatDatabase.duplicate_groups.
  match goal with
  | |- NoDup (map fst (order_by ?b ?l)) =>
      apply (Permutation_NoDup (l := map fst l));
      [apply Permutation_map, Permutation_sym, order_by_perm|]
  end.
  match goal with
  | |- NoDup (map fst (filter ?f (map ?g ?keys))) =>
      assert (H : NoDup keys)
        by apply (distinct_NoDup _ fingerprint_eqb_eq);
      revert H; generalize keys
  end.
  intros keys H. induction keys as [|x keys IH]; simpl; [constructor|].
  inversion H as [|? ? Hx Hk]; subst.
  match goal with |- context [if ?c then _ else _] => destruct c end.
  - simpl. constructor; [|now apply IH].
    intros Hin. apply in_map_iff in Hin. destruct Hin as ([k m] & <- & Hin).
    apply filter_In in Hin. destruct Hin as [Hin _].
    apply in_map_iff in Hin. destruct Hin as (k' & [= <- _] & Hin).
    now apply Hx.
  - now apply IH.
Qed.

Lemma find_duplicate_nil (st : Store) :
  (forall k, (List.length (members_of st k) <= 1)%nat) ->
  ChatDatabase.find_duplicate_chat_sessions st = [].
Proof.
  intros H. unfold ChatDatabase.find_duplicate_chat_sessions.
  destruct (ChatDatabase.duplicate_groups st) as [|[k m] rest] eqn:E;
    [reflexivity|].
  assert (Hin : In (k, m) (ChatDatabase.duplicate_groups st))
    by (rewrite E; now left).
  apply duplicate_groups_In in Hin. destruct Hin as [-> Hlen].
  specialize (H k). lia.
Qed.

(** On comma-free ids the split gives back the ranked ids: the first is
    kept, the others are removed. *)
Lemma group_row_ids (st : Store) (k : ChatDatabase.Fingerprint) :
  comma_free st ->
  (1 < List.length (members_of st k))%nat ->
  exists keep_row rest,
    order_by ranks_before (members_of st k) = keep_row :: rest
    /\ keep_session (ChatDatabase.group_row k (members_of st k))
       = session_id keep_row
    /\ remove_sessions (ChatDatabase.group_row k (members_of st k))
       = map session_id rest.
Proof.
  intros Hc Hlen.
  destruct (order_by ranks_before (members_of st k)) as [|keep_row rest] eqn:E.
  { apply order_by_nil in E. rewrite E in Hlen. simpl in Hlen. lia. }
  exists keep_row, rest. split; [reflexivity|].
  unfold ChatDatabase.group_row. cbn [keep_session remove_sessions].
  rewrite E, split_join.
  - split; reflexivity.
  - discriminate.
  - intros s Hs. apply in_map_iff in Hs. destruct Hs as (x & <- & Hx).
    apply Hc. rewrite <- E in Hx. apply order_by_In in Hx.
    apply members_of_In in Hx. tauto.
Qed.

(** ** What a merge does to the session rows *)

Lemma merge_message_sessions (keep : string) (s : MergeLoop) (msg : Message) :
  chat_sessions (ml_store (ChatDatabase.merge_message keep s msg))
  = chat_sessions (ml_store s)
  /\ ml_removed (ChatDatabase.merge_message keep s msg) = ml_removed s
  /\ exists evs, ml_log (ChatDatabase.merge_message keep s msg)
                 = (ml_log s ++ evs)%list.
Proof.
  unfold ChatDatabase.merge_message.
  destruct (message_exists _ _ _ _); cbn [ml_store ml_removed ml_log];
    [eauto|].
  destruct (insert_message _ _ _ _ _ _ _ _ _) as [st'|e] eqn:E;
    cbn [ml_store ml_removed ml_log]; [|eauto].
  apply insert_message_sessions in E. destruct E as (E & _). eauto.
Qed.

Lemma fold_merge_message_sessions (keep : string) (msgs : list Message) :
  forall s,
    chat_sessions (ml_store (fold_left (ChatDatabase.merge_message keep) msgs s))
    = chat_sessions (ml_store s)
    /\ ml_removed (fold_left (ChatDatabase.merge_message keep) msgs s)
       = ml_removed s
    /\ exists evs,
        ml_log (fold_left (ChatDatabase.merge_message keep) msgs s)
        = (ml_log s ++ evs)%list.
Proof.
  induction msgs as [|m ms IH]; intros s; simpl.
  - split; [reflexivity|]. split; [reflexivity|]. exists [].
    now rewrite app_nil_r.
  - destruct (IH (ChatDatabase.merge_message keep s m)) as (A & B & (e2 & C)).
    destruct (merge_message_sessions keep s m) as (A' & B' & (e1 & C')).
    split; [congruence|]. split; [congruence|].
    exists (e1 ++ e2)%list. rewrite C, C'. now rewrite app_assoc.
Qed.

Lemma fold_merge_session_sessions (keep : string) (removes : list string) :
  forall s,
    chat_sessions (ml_store (fold_left (ChatDatabase.merge_session keep)
                                       removes s))
    = filter (fun x => negb (mentioned removes (session_id x)))
             (chat_sessions (ml_store s))
    /\ exists evs,
        ml_log (fold_left (ChatDatabase.merge_session keep) removes s)
        = (ml_log s ++ evs)%list.
Proof.
  induction removes as [|r rs IH]; intros s; simpl.
  - split.
    + symmetry. apply filter_all. rewrite Forall_forall. reflexivity.
    + exists []. now rewrite app_nil_r.
  - destruct (IH (ChatDatabase.merge_session keep s r)) as (A & (e2 & B)).
    rewrite A, B. unfold ChatDatabase.merge_session.
    cbn [ml_store ml_log delete_session delete_messages chat_sessions].
    match goal with
    | |- context [fold_left (ChatDatabase.merge_message keep) ?l s] =>
        destruct (fold_merge_message_sessions keep l s) as (C & _ & (e1 & D))
    end.
    rewrite C, D. split.
    + rewrite filter_andb. apply filter_ext. intros x.
      rewrite (String.eqb_sym (session_id x) r), negb_orb.
      apply andb_comm.
    + exists (e1 ++ e2)%list. now rewrite app_assoc.
Qed.

Lemma merge_chat_sessions_sessions (st : Store) (keep : string)
      (removes : list string) (now : Time) :
  let st' := fst (fst (ChatDatabase.merge_chat_sessions st keep removes now)) in
  chat_sessions st'
  = map (fun s => if String.eqb (session_id s) keep
                  then refresh_session now (count_messages st' keep) s else s)
        (filter (fun x => negb (mentioned removes (session_id x)))
                (chat_sessions st)).
Proof.
  unfold ChatDatabase.merge_chat_sessions. cbn [fst].
  unfold update_session_rollup at 1. cbn [chat_sessions].
  destruct (fold_merge_session_sessions keep removes
              (mkMergeLoop st (max_message_order st keep) 0 0 0 []))
    as (A & _).
  rewrite A. reflexivity.
Qed.

(** A change of session rows that leaves their id and their fingerprint. *)
Lemma refresh_keeps_identity (keep : string) (now : Time) (count : Z)
      (s : Session) :
  let s' := if String.eqb (session_id s) keep
            then refresh_session now count s else s in
  session_id s' = session_id s
  /\ ChatDatabase.fingerprint s' = ChatDatabase.fingerprint s.
Proof. simpl. destruct (String.eqb (session_id s) keep); now split. Qed.

Lemma cleanup_group_store (now : Time) (s : CleanupLoop) (g : DuplicateGroup) :
  cl_store (ChatDatabase.cleanup_group now s g)
  = fst (fst (ChatDatabase.merge_chat_sessions (cl_store s) (keep_session g)
                                               (remove_sessions g) now))
  /\ cl_log (ChatDatabase.cleanup_group now s g)
     = (cl_log s
        ++ snd (ChatDatabase.merge_chat_sessions (cl_store s) (keep_session g)
                                                 (remove_sessions g) now))%list.
Proof.
  unfold ChatDatabase.cleanup_group.
  destruct (ChatDatabase.merge_chat_sessions _ _ _ _) as [[st' stats] log].
  now split.
Qed.

Lemma fold_cleanup_sessions (now : Time) (groups : list DuplicateGroup) :
  forall s,
  exists f,
    (forall x, session_id (f x) = session_id x
               /\ ChatDatabase.fingerprint (f x) = ChatDatabase.fingerprint x)
    /\ chat_sessions (cl_store (fold_left (ChatDatabase.cleanup_group now)
                                          groups s))
       = map f (filter (fun x => negb (mentioned
                                         (List.concat (map remove_sessions groups))
                                         (session_id x)))
                       (chat_sessions (cl_store s))).
Proof.
  induction groups as [|g gs IH]; intros s; simpl.
  - exists (fun x => x). split; [now split|].
    rewrite map_id. symmetry. apply filter_all. rewrite Forall_forall.
    reflexivity.
  - destruct (IH (ChatDatabase.cleanup_group now s g)) as (f & Hf & E).
    rewrite E. destruct (cleanup_group_store now s g) as (-> & _).
    rewrite (merge_chat_sessions_sessions (cl_store s) (keep_session g)
               (remove_sessions g) now).
    set (count := count_messages _ (keep_session g)).
    exists (fun x => f (if String.eqb (session_id x) (keep_session g)
                        then refresh_session now count x else x)).
    split.
    + intros x. destruct (Hf (if String.eqb (session_id x) (keep_session g)
                              then refresh_session now count x else x))
        as [-> ->].
      apply refresh_keeps_identity.
    + rewrite filter_map_swap, map_map, filter_andb. f_equal.
      apply filter_ext. intros x.
      destruct (refresh_keeps_identity (keep_session g) now count x) as [-> _].
      unfold mentioned. rewrite existsb_app, negb_orb. apply andb_comm.
Qed.

Lemma Permutation_filter_length {A} (f : A -> bool) (l l' : list A) :
  Permutation l l' ->
  List.length (filter f l) = List.length (filter f l').
Proof.
  induction 1 as [|x l l' _ IH|x y l|l l' l'' _ IH1 _ IH2]; simpl.
  - reflexivity.
  - destruct (f x); simpl; congruence.
  - destruct (f x), (f y); reflexivity.
  - congruence.
Qed.

(** The rows of one fingerprint after a change that deletes the sessions
    named in [removed] and keeps ids and fingerprints. *)
Lemma members_of_shrunk (st st' : Store) (f : Session -> Session)
      (removed : list string) (k : ChatDatabase.Fingerprint) :
  (forall x, session_id (f x) = session_id x
             /\ ChatDatabase.fingerprint (f x) = ChatDatabase.fingerprint x) ->
  chat_sessions st'
  = map f (filter (fun x => negb (mentioned removed (session_id x)))
                  (chat_sessions st)) ->
  members_of st' k
  = map f (filter (fun x => negb (mentioned removed (session_id x)))
                  (members_of st k)).
Proof.
  intros Hf E. unfold members_of. rewrite E.
  rewrite !filter_map_swap. f_equal.
  assert (G : forall x, ChatDatabase.groupable (f x) = ChatDatabase.groupable x).
  { intros x. destruct (Hf x) as [_ H]. unfold ChatDatabase.groupable.
    unfold ChatDatabase.fingerprint in H. now injection H as -> _ ->. }
  assert (I : forall x, ChatDatabase.in_group k (f x) = ChatDatabase.in_group k x).
  { intros x. destruct (Hf x) as [_ H]. unfold ChatDatabase.in_group.
    now rewrite H. }
  rewrite (filter_ext _ _ I), (filter_ext _ _ G).
  rewrite (filter_comm _ (ChatDatabase.in_group k)).
  f_equal. apply filter_comm.
Qed.

(** ** Reconciliation on a store without duplicates, and run twice *)

Lemma find_duplicate_nil_members (st : Store) :
  ChatDatabase.find_duplicate_chat_sessions st = [] ->
  forall k, (List.length (members_of st k) <= 1)%nat.
Proof.
  intros E k.
  destruct (Nat.le_gt_cases (List.length (members_of st k)) 1) as [H|H];
    [exact H|].
  assert (Hin : In (k, members_of st k) (ChatDatabase.duplicate_groups st))
    by (apply duplicate_groups_In; split; [reflexivity|lia]).
  unfold ChatDatabase.find_duplicate_chat_sessions in E.
  apply map_eq_nil in E. rewrite E in Hin. destruct Hin.
Qed.

(** One pass leaves at most one session under each fingerprint. *)
Lemma cleanup_collapses (st : Store) (now : Time) :
  comma_free st ->
  forall k,
    (List.length
       (members_of (fst (fst (ChatDatabase.cleanup_duplicate_chat_sessions
                                st now))) k) <= 1)%nat.
Proof.
  intros Hc k. unfold ChatDatabase.cleanup_duplicate_chat_sessions.
  destruct (ChatDatabase.find_duplicate_chat_sessions st) as [|g gs] eqn:E.
  - cbn [fst]. now apply find_duplicate_nil_members.
  - cbn [fst]. rewrite <- E.
    destruct (fold_cleanup_sessions now
                (ChatDatabase.find_duplicate_chat_sessions st)
                (mkCleanupLoop st 0 0 0 0 [])) as (f & Hf & Es).
    cbn [cl_store] in Es.
    rewrite (members_of_shrunk _ _ f _ k Hf Es), length_map.
    destruct (Nat.le_gt_cases (List.length (members_of st k)) 1) as [H|H].
    + etransitivity; [apply filter_length_le|exact H].
    + destruct (group_row_ids st k Hc H) as (keep_row & rest & Er & _ & Hrem).
      assert (Hin : In (ChatDatabase.group_row k (members_of st k))
                       (ChatDatabase.find_duplicate_chat_sessions st)).
      { unfold ChatDatabase.find_duplicate_chat_sessions.
        apply in_map_iff. exists (k, members_of st k). split; [reflexivity|].
        apply duplicate_groups_In. split; [reflexivity|lia]. }
      rewrite (Permutation_filter_length _ _ (keep_row :: rest)).
      2:{ rewrite <- Er. apply Permutation_sym, order_by_perm. }
      simpl. rewrite (filter_nil_iff _ rest).
      * destruct (negb _); simpl; lia.
      * intros y Hy. apply negb_false_iff. unfold mentioned.
        apply existsb_exists. exists (session_id y).
        split; [|apply String.eqb_refl].
        apply in_concat. exists (map session_id rest). split.
        -- rewrite <- Hrem. now apply in_map.
        -- now apply in_map.
Qed.

(** X28.  When the store holds no duplicate group, the
    reconciliation leaves the store as it is and returns zero groups
    found, zero sessions removed, zero messages merged, zero duplicates
    skipped and the success flag.  And after one pass over a store whose
    session ids hold no comma, the store holds no duplicate group, so a
    second pass is of that kind. *)
Theorem reconciliation_idempotent :
  forall (st : Store) (now now' : Time),
    (ChatDatabase.find_duplicate_chat_sessions st = [] ->
     ChatDatabase.cleanup_duplicate_chat_sessions st now
     = (st, mkCleanupStats 0 0 0 0 None true, []))
    /\ (comma_free st ->
        let st' := fst (fst (ChatDatabase.cleanup_duplicate_chat_sessions
                               st now)) in
        ChatDatabase.find_duplicate_chat_sessions st' = []
        /\ ChatDatabase.cleanup_duplicate_chat_sessions st' now'
           = (st', mkCleanupStats 0 0 0 0 None true, [])).
Proof.
  intros st now now'.
  assert (H0 : forall s t,
             ChatDatabase.find_duplicate_chat_sessions s = [] ->
             ChatDatabase.cleanup_duplicate_chat_sessions s t
             = (s, mkCleanupStats 0 0 0 0 None true, [])).
  { intros s t E. unfold ChatDatabase.cleanup_duplicate_chat_sessions.
    now rewrite E. }
  split; [apply H0|].
  intros Hc st'.
  assert (E : ChatDatabase.find_duplicate_chat_sessions st' = [])
    by (apply find_duplicate_nil; now apply cleanup_collapses).
  split; [exact E|now apply H0].
Qed.

(** C4 at two sessions of one conversation whose ids, 'x,y' and 'x,z',
    hold a comma.  The ids of the group travel through GROUP_CONCAT and
    [ids_str.split(',')], which names the sessions x, y, x and z: the
    pass succeeds and counts one group and three removals, removes
    neither stored session, and a second pass finds the group again
    instead of zero groups. *)
Theorem comma_ids_never_converge :
  exists st' stats log stats' log',
    ChatDatabase.cleanup_duplicate_chat_sessions Sample.comma_store 200
    = (st', stats, log)
    /\ duplicate_groups_found stats = 1
    /\ cs_sessions_removed stats = 3
    /\ success stats = true
    /\ map session_id (chat_sessions st') = ["x,y"; "x,z"]
    /\ ChatDatabase.cleanup_duplicate_chat_sessions st' 300
       = (st', stats', log')
    /\ duplicate_groups_found stats' = 1.
Proof.
  do 5 eexists.
  split; [vm_compute; reflexivity|].
  do 4 (split; [reflexivity|]).
  split; [vm_compute; reflexivity|reflexivity].
Qed.

(** ** The rows that a merge appends *)

Lemma merged_rows_ext (keep : string) (msgs : list Message) :
  forall present present' max_order rowid,
    (forall k, key_in k present = key_in k present') ->
    merged_rows keep present max_order rowid msgs
    = merged_rows keep present' max_order rowid msgs.
Proof.
  induction msgs as [|m ms IH]; intros p p' mo rid H; simpl; [reflexivity|].
  rewrite <- H. destruct (key_in (dedup_key m) p); [now apply IH|].
  f_equal. apply IH. intros k. unfold key_in. simpl.
  fold (key_in k p). fold (key_in k p'). now rewrite H.
Qed.

Lemma merged_rows_app (keep : string) (a b : list Message) :
  forall present present' max_order rowid,
    (forall k, key_in k present'
               = key_in k present
                 || key_in k (map dedup_key
                                  (merged_rows keep present max_order rowid a))) ->
    merged_rows keep present max_order rowid (a ++ b)
    = (merged_rows keep present max_order rowid a
       ++ merged_rows keep present'
            (max_order + Z.of_nat (List.length
                                     (merged_rows keep present max_order rowid a)))
            (rowid + Z.of_nat (List.length
                                 (merged_rows keep present max_order rowid a)))
            b)%list.
Proof.
  induction a as [|m ms IH]; intros p p' mo rid H.
  - simpl. rewrite !Z.add_0_r. apply merged_rows_ext. intros k.
    rewrite H. simpl. now rewrite orb_false_r.
  - simpl in *. destruct (key_in (dedup_key m) p) eqn:E.
    + now apply IH.
    + simpl. f_equal. simpl in H.
      rewrite (IH (dedup_key m :: p) p' (mo + 1) (rid + 1)).
      * f_equal. f_equal; lia.
      * intros k. rewrite H. unfold key_in. simpl.
        now rewrite orb_assoc, (orb_comm (existsb (key_eqb k) p)).
Qed.

Lemma merged_rows_owned (keep : string) (msgs : list Message) :
  forall present max_order rowid,
    Forall (fun m => m_session_id m = keep)
           (merged_rows keep present max_order rowid msgs).
Proof.
  induction msgs as [|m ms IH]; intros p mo rid; simpl; [constructor|].
  destruct (key_in (dedup_key m) p); [apply IH|].
  constructor; [reflexivity|apply IH].
Qed.

(** The merged rows carry, in the order the messages are read, the first
    occurrence of each key that was not present. *)
Lemma merged_rows_keys (keep : string) (msgs : list Message) :
  forall present max_order rowid,
    map dedup_key (merged_rows keep present max_order rowid msgs)
    = distinct key_eqb
        (filter (fun k => negb (key_in k present)) (map dedup_key msgs)).
Proof.
  induction msgs as [|m ms IH]; intros p mo rid; simpl; [reflexivity|].
  destruct (key_in (dedup_key m) p) eqn:E; simpl; [apply IH|].
  f_equal. rewrite IH. rewrite <- (distinct_filter key_eqb key_eqb_eq).
  f_equal. rewrite filter_andb. apply filter_ext. intros k.
  unfold key_in at 1. simpl. rewrite negb_orb. f_equal. f_equal.
  destruct (key_eqb k (dedup_key m)) eqn:A, (key_eqb (dedup_key m) k) eqn:B;
    try reflexivity.
  - apply key_eqb_eq in A. subst k.
    rewrite (proj2 (key_eqb_eq _ _) eq_refl) in B. discriminate.
  - apply key_eqb_eq in B. subst k.
    rewrite (proj2 (key_eqb_eq _ _) eq_refl) in A. discriminate.
Qed.

(** Each merged row is the copy of a message that was read. *)
Lemma merged_rows_content (keep : string) (msgs : list Message) :
  forall present max_order rowid row,
    In row (merged_rows keep present max_order rowid msgs) ->
    exists original, In original msgs /\ same_content row original.
Proof.
  induction msgs as [|m ms IH]; intros p mo rid row; simpl; [tauto|].
  destruct (key_in (dedup_key m) p).
  - intros H. destruct (IH _ _ _ _ H) as (o & Ho & Hc). eauto.
  - intros [<-|H].
    + exists m. split; [now left|]. repeat split.
    + destruct (IH _ _ _ _ H) as (o & Ho & Hc). eauto.
Qed.

Lemma merge_message_cases (keep : string) (s : MergeLoop) (msg : Message) :
  (message_exists (ml_store s) keep (sender msg) (message_text msg) = true
   /\ ChatDatabase.merge_message keep s msg
      = mkMergeLoop (ml_store s) (ml_max_order s) (ml_merged s)
                    (ml_skipped s + 1) (ml_removed s)
                    (ml_log s ++ [Skipped (sender msg) (message_text msg)]))
  \/ (message_exists (ml_store s) keep (sender msg) (message_text msg) = false
      /\ exists st',
          insert_message (ml_store s) keep
                         (keep ++ "_" ++ Str.of_Z (ml_max_order s + 1))
                         (sender msg) (sender_type msg) (message_text msg)
                         (timestamp msg) (ml_max_order s + 1) (scraped_at msg)
          = Ok st'
          /\ ChatDatabase.merge_message keep s msg
             = mkMergeLoop st' (ml_max_order s + 1) (ml_merged s + 1)
                           (ml_skipped s) (ml_removed s)
                           (ml_log s ++ [Added (sender msg) (message_text msg)]))
  \/ (exists e,
        ChatDatabase.merge_message keep s msg
        = mkMergeLoop (ml_store s) (ml_max_order s + 1) (ml_merged s)
                      (ml_skipped s) (ml_removed s)
                      (ml_log s ++ [WriteFailed e])).
Proof.
  unfold ChatDatabase.merge_message.
  destruct (message_exists _ _ _ _); [left; now split|right].
  destruct (insert_message _ _ _ _ _ _ _ _ _) as [st'|e]; [left|right]; eauto.
Qed.

(** Without a failed write, the inner loop of the merge appends the rows
    of the specification. *)
Lemma fold_merge_message_rows (keep : string) (msgs : list Message) :
  forall s present,
    (forall who text,
        key_in (who, text) present
        = message_exists (ml_store s) keep who text) ->
    no_write_failed (ml_log (fold_left (ChatDatabase.merge_message keep) msgs s)) ->
    let s' := fold_left (ChatDatabase.merge_message keep) msgs s in
    let rows := merged_rows keep present (ml_max_order s)
                            (messages_seq (ml_store s)) msgs in
    chat_messages (ml_store s') = (chat_messages (ml_store s) ++ rows)%list
    /\ ml_max_order s' = ml_max_order s + Z.of_nat (List.length rows)
    /\ messages_seq (ml_store s')
       = messages_seq (ml_store s) + Z.of_nat (List.length rows)
    /\ ml_merged s' = ml_merged s + Z.of_nat (List.length rows)
    /\ ml_skipped s'
       = ml_skipped s + Z.of_nat (List.length msgs)
         - Z.of_nat (List.length rows).
Proof.
  induction msgs as [|m ms IH]; intros s present Hpres Hlog; simpl.
  - rewrite app_nil_r. repeat split; lia.
  - simpl in Hlog.
    assert (Hk : key_in (dedup_key m) present
                 = message_exists (ml_store s) keep (sender m) (message_text m))
      by apply Hpres.
    destruct (merge_message_cases keep s m)
      as [[Hex E]|[[Hex (st' & Hins & E)]|(e & E)]];
      rewrite E in *.
    + rewrite Hk, Hex.
      destruct (IH (mkMergeLoop (ml_store s) (ml_max_order s) (ml_merged s)
                      (ml_skipped s + 1) (ml_removed s)
                      (ml_log s ++ [Skipped (sender m) (message_text m)]))
                  present Hpres Hlog) as (A & B & C & D & F).
      cbn [ml_store ml_max_order ml_merged ml_skipped] in *.
      repeat split; try assumption. lia.
    + rewrite Hk, Hex.
      apply insert_message_sessions in Hins.
      destruct Hins as (_ & _ & Hm & _ & Hseq).
      destruct (IH (mkMergeLoop st' (ml_max_order s + 1) (ml_merged s + 1)
                      (ml_skipped s) (ml_removed s)
                      (ml_log s ++ [Added (sender m) (message_text m)]))
                  (dedup_key m :: present)) as (A & B & C & D & F).
      * intros w t. cbn [ml_store]. unfold message_exists. rewrite Hm.
        rewrite existsb_snoc.
        fold (message_exists (ml_store s) keep w t).
        rewrite <- Hpres. unfold key_in. simpl. rewrite orb_comm. f_equal.
        unfold has_key, owned_by, key_eqb. simpl.
        rewrite String.eqb_refl. simpl.
        now rewrite (String.eqb_sym (sender m)),
          (String.eqb_sym (message_text m)).
      * exact Hlog.
      * cbn [ml_store ml_max_order ml_merged ml_skipped] in *.
        rewrite Hseq in A, B, C, D, F.
        rewrite A, B, C, D, F, Hm. simpl length.
        rewrite <- app_assoc. simpl.
        repeat split; lia.
    + exfalso.
      destruct (fold_merge_message_sessions keep ms
                  (mkMergeLoop (ml_store s) (ml_max_order s + 1) (ml_merged s)
                     (ml_skipped s) (ml_removed s)
                     (ml_log s ++ [WriteFailed e])))
        as (_ & _ & (evs & Hev)).
      apply (Hlog e). rewrite Hev. cbn [ml_log]. rewrite !in_app_iff.
      left. right. now left.
Qed.

(** ** What a merge does to the message rows *)

Lemma fold_merge_message_grows (keep : string) (msgs : list Message) :
  forall s,
  exists rows,
    chat_messages (ml_store (fold_left (ChatDatabase.merge_message keep) msgs s))
    = (chat_messages (ml_store s) ++ rows)%list
    /\ Forall (fun m => m_session_id m = keep) rows.
Proof.
  induction msgs as [|m ms IH]; intros s; simpl.
  - exists []. rewrite app_nil_r. now split.
  - destruct (IH (ChatDatabase.merge_message keep s m)) as (rows & E & Hr).
    rewrite E.
    destruct (merge_message_cases keep s m)
      as [[_ ->]|[[_ (st' & Hins & ->)]|(e & ->)]]; cbn [ml_store]; eauto.
    apply insert_message_sessions in Hins.
    destruct Hins as (_ & _ & -> & _).
    eexists. rewrite <- app_assoc. split; [reflexivity|].
    constructor; [reflexivity|exact Hr].
Qed.

Lemma messages_of_owned (st : Store) (sid : string) :
  Forall (fun m => m_session_id m = sid) (messages_of st sid).
Proof.
  rewrite Forall_forall. intros m Hm. unfold messages_of in Hm.
  apply filter_In in Hm. destruct Hm as [_ Hm]. now apply String.eqb_eq.
Qed.

Lemma filter_not_owned (r sid : string) (l : list Message) :
  sid <> r -> Forall (fun m => m_session_id m = sid) l ->
  filter (fun m => negb (owned_by r m)) l = l.
Proof.
  intros Hne Hl. apply filter_all. eapply Forall_impl; [|exact Hl].
  intros m Hm. apply negb_true_iff, String.eqb_neq. congruence.
Qed.

Lemma messages_of_grown_elsewhere (st st' : Store) (keep sid : string)
      (rows : list Message) :
  chat_messages st' = (chat_messages st ++ rows)%list ->
  Forall (fun m => m_session_id m = keep) rows ->
  sid <> keep ->
  messages_of st' sid = messages_of st sid.
Proof.
  intros E Hr Hne. unfold messages_of. rewrite E, filter_app.
  rewrite (filter_nil_iff _ rows); [apply app_nil_r|].
  intros m Hm. rewrite Forall_forall in Hr. apply String.eqb_neq.
  rewrite (Hr m Hm). congruence.
Qed.

(** The sessions that a merge does not name keep their messages; a
    removed session keeps none. *)
Lemma merge_session_frame (keep : string) (s : MergeLoop) (r sid : string) :
  sid <> keep -> sid <> r ->
  messages_of (ml_store (ChatDatabase.merge_session keep s r)) sid
  = messages_of (ml_store s) sid.
Proof.
  intros Hk Hr. unfold ChatDatabase.merge_session. cbn [ml_store].
  rewrite messages_of_delete.
  rewrite (filter_not_owned r sid) by (auto using messages_of_owned).
  match goal with
  | |- context [fold_left ?f ?l s] =>
      destruct (fold_merge_message_grows keep l s) as (rows & E & Hrows)
  end.
  eapply messages_of_grown_elsewhere; eauto.
Qed.

Lemma merge_session_removed (keep : string) (s : MergeLoop) (r : string) :
  messages_of (ml_store (ChatDatabase.merge_session keep s r)) r = [].
Proof.
  unfold ChatDatabase.merge_session. cbn [ml_store].
  rewrite messages_of_delete. apply filter_nil_iff.
  intros m Hm. apply negb_false_iff.
  unfold messages_of in Hm. apply filter_In in Hm. tauto.
Qed.

Lemma fold_merge_session_frame (keep : string) (removes : list string)
      (sid : string) :
  sid <> keep -> ~ In sid removes ->
  forall s,
    messages_of (ml_store (fold_left (ChatDatabase.merge_session keep)
                                     removes s)) sid
    = messages_of (ml_store s) sid.
Proof.
  intros Hk. induction removes as [|r rs IH]; intros Hn s; simpl;
    [reflexivity|].
  rewrite IH by (intros H; apply Hn; now right).
  apply merge_session_frame; [exact Hk|]. intros ->. apply Hn. now left.
Qed.

Lemma fold_merge_session_removed (keep : string) (removes : list string) :
  ~ In keep removes ->
  forall s r,
    In r removes ->
    messages_of (ml_store (fold_left (ChatDatabase.merge_session keep)
                                     removes s)) r = [].
Proof.
  induction removes as [|r0 rs IH]; intros Hk s r; simpl; [tauto|].
  intros Hr.
  destruct (in_dec string_dec r rs) as [Hin|Hout].
  - apply IH; [|exact Hin]. intros H. apply Hk. now right.
  - destruct Hr as [->|Hr]; [|contradiction].
    rewrite fold_merge_session_frame; [apply merge_session_removed| |exact Hout].
    intros ->. apply Hk. now left.
Qed.

Lemma key_in_app (k : string * string) (p q : list (string * string)) :
  key_in k (p ++ q)%list = key_in k p || key_in k q.
Proof. apply existsb_app. Qed.

(** Without a failed write, the merge appends to the surviving session
    the rows of the specification for the messages of the removed
    sessions, read session by session in ascending order position. *)
Lemma fold_merge_session_rows (keep : string) (removes : list string) :
  ~ In keep removes -> NoDup removes ->
  forall s,
    no_write_failed
      (ml_log (fold_left (ChatDatabase.merge_session keep) removes s)) ->
    let s' := fold_left (ChatDatabase.merge_session keep) removes s in
    let rows := merged_rows keep (keys_of (ml_store s) keep) (ml_max_order s)
                            (messages_seq (ml_store s))
                            (messages_to_merge (ml_store s) removes) in
    messages_of (ml_store s') keep
    = (messages_of (ml_store s) keep ++ rows)%list
    /\ ml_merged s' = ml_merged s + Z.of_nat (List.length rows)
    /\ ml_skipped s'
       = ml_skipped s
         + Z.of_nat (List.length (messages_to_merge (ml_store s) removes))
         - Z.of_nat (List.length rows)
    /\ ml_removed s' = ml_removed s + Z.of_nat (List.length removes).
Proof.
  induction removes as [|r rs IH]; intros Hk Hnd s Hlog.
  - simpl. rewrite app_nil_r. repeat split; lia.
  - inversion Hnd as [|? ? Hr Hnd']; subst.
    assert (Hkr : keep <> r) by (intros ->; apply Hk; now left).
    assert (Hk' : ~ In keep rs) by (intros H; apply Hk; now right).
    cbn [fold_left] in *.
    set (msgs := order_by (fun a b => message_order a <=? message_order b)
                          (messages_of (ml_store s) r)).
    set (s1 := fold_left (ChatDatabase.merge_message keep) msgs s).
    set (s2 := ChatDatabase.merge_session keep s r) in *.
    destruct (fold_merge_session_sessions keep rs s2) as (_ & (evs & Hev)).
    assert (Hlog1 : no_write_failed (ml_log s1)).
    { intros e He. apply (Hlog e). rewrite Hev. apply in_app_iff. now left. }
    destruct (fold_merge_message_rows keep msgs s (keys_of (ml_store s) keep))
      as (A & B & C & D & F).
    { intros who text. symmetry. apply message_exists_key_in. }
    { exact Hlog1. }
    fold s1 in A, B, C, D, F.
    set (rowsA := merged_rows keep (keys_of (ml_store s) keep) (ml_max_order s)
                              (messages_seq (ml_store s)) msgs) in *.
    assert (Hkeep2 : messages_of (ml_store s2) keep
                     = (messages_of (ml_store s) keep ++ rowsA)%list).
    { unfold s2, ChatDatabase.merge_session. cbn [ml_store].
      rewrite messages_of_delete. fold msgs. fold s1.
      rewrite (filter_not_owned r keep) by (auto using messages_of_owned).
      apply messages_of_app; [exact A|]. apply merged_rows_owned. }
    assert (Hsrc : messages_to_merge (ml_store s2) rs
                   = messages_to_merge (ml_store s) rs).
    { unfold messages_to_merge. f_equal. apply map_ext_in. intros r' Hr'.
      f_equal. apply merge_session_frame.
      - intros ->. now apply Hk'.
      - intros ->. now apply Hr. }
    destruct (IH Hk' Hnd' s2 Hlog) as (A2 & D2 & F2 & G2).
    rewrite Hsrc in A2, D2, F2.
    assert (Hmax2 : ml_max_order s2 = ml_max_order s1) by reflexivity.
    assert (Hseq2 : messages_seq (ml_store s2) = messages_seq (ml_store s1))
      by reflexivity.
    assert (Hmerged2 : ml_merged s2 = ml_merged s1) by reflexivity.
    assert (Hskipped2 : ml_skipped s2 = ml_skipped s1) by reflexivity.
    assert (Hremoved2 : ml_removed s2 = ml_removed s + 1).
    { unfold s2, ChatDatabase.merge_session. cbn [ml_removed].
      fold msgs. destruct (fold_merge_message_sessions keep msgs s)
        as (_ & -> & _). reflexivity. }
    rewrite Hmax2, Hseq2, B, C in A2, D2, F2.
    assert (Hsplit :
              merged_rows keep (keys_of (ml_store s) keep) (ml_max_order s)
                          (messages_seq (ml_store s))
                          (messages_to_merge (ml_store s) (r :: rs))
              = (rowsA
                 ++ merged_rows keep (keys_of (ml_store s2) keep)
                      (ml_max_order s + Z.of_nat (List.length rowsA))
                      (messages_seq (ml_store s) + Z.of_nat (List.length rowsA))
                      (messages_to_merge (ml_store s) rs))%list).
    { unfold messages_to_merge at 1. cbn [map List.concat]. fold msgs.
      fold (messages_to_merge (ml_store s) rs).
      apply merged_rows_app. intros k.
      unfold keys_of at 1. rewrite Hkeep2, map_app.
      apply key_in_app. }
    cbv zeta. rewrite Hsplit, length_app.
    assert (Hlen : List.length (messages_to_merge (ml_store s) (r :: rs))
                   = (List.length msgs
                      + List.length (messages_to_merge (ml_store s) rs))%nat).
    { unfold messages_to_merge at 1. cbn [map List.concat]. fold msgs.
      fold (messages_to_merge (ml_store s) rs). apply length_app. }
    rewrite Hlen. rewrite A2, D2, F2, G2, Hkeep2, Hmerged2, Hskipped2,
      Hremoved2, D, F.
    rewrite <- app_assoc.
    repeat split; cbn [List.length]; lia.
Qed.

Lemma sessions_named_frame (st st' : Store) (f : Session -> Session)
      (removed : list string) (sid : string) :
  chat_sessions st'
  = map f (filter (fun x => negb (mentioned removed (session_id x)))
                  (chat_sessions st)) ->
  (forall x, session_id (f x) = session_id x) ->
  sessions_named st' sid
  = if mentioned removed sid then [] else map f (sessions_named st sid).
Proof.
  intros E Hf. unfold sessions_named. rewrite E, filter_map_swap.
  rewrite (filter_ext _ (fun s => String.eqb (session_id s) sid))
    by (intros x; now rewrite Hf).
  destruct (mentioned removed sid) eqn:M.
  - rewrite filter_andb, (filter_nil_iff _ (chat_sessions st)); [reflexivity|].
    intros x _. destruct (String.eqb (session_id x) sid) eqn:Ex;
      [|reflexivity].
    apply String.eqb_eq in Ex. rewrite Ex, M. reflexivity.
  - f_equal. rewrite filter_andb. apply filter_ext. intros x.
    destruct (String.eqb (session_id x) sid) eqn:Ex; [|reflexivity].
    apply String.eqb_eq in Ex. rewrite Ex, M. reflexivity.
Qed.

Lemma mentioned_In (ids : list string) (sid : string) :
  mentioned ids sid = true <-> In sid ids.
Proof.
  unfold mentioned. rewrite existsb_exists. split.
  - intros (x & Hx & E). apply String.eqb_eq in E. now subst.
  - intros H. exists sid. split; [exact H|apply String.eqb_refl].
Qed.

Lemma mentioned_false (ids : list string) (sid : string) :
  ~ In sid ids -> mentioned ids sid = false.
Proof.
  intros H. destruct (mentioned ids sid) eqn:E; [|reflexivity].
  apply mentioned_In in E. contradiction.
Qed.

(** A merge leaves alone the sessions that it does not name. *)
Lemma merge_chat_sessions_frame (st : Store) (keep : string)
      (removes : list string) (now : Time) (sid : string) :
  sid <> keep -> ~ In sid removes ->
  let st' := fst (fst (ChatDatabase.merge_chat_sessions st keep removes now)) in
  messages_of st' sid = messages_of st sid
  /\ sessions_named st' sid = sessions_named st sid.
Proof.
  intros Hk Hr st'. split.
  - subst st'. unfold ChatDatabase.merge_chat_sessions. cbn [fst].
    unfold messages_of at 1. rewrite update_session_rollup_messages.
    fold (messages_of
            (ml_store (fold_left (ChatDatabase.merge_session keep) removes
                         (mkMergeLoop st (max_message_order st keep) 0 0 0 [])))
            sid).
    now rewrite fold_merge_session_frame.
  - pose proof (merge_chat_sessions_sessions st keep removes now) as E.
    cbv zeta in E. fold st' in E.
    rewrite (sessions_named_frame _ _ _ _ sid E)
      by (intros x; apply refresh_keeps_identity).
    rewrite (mentioned_false _ _ Hr).
    rewrite <- (map_id (sessions_named st sid)) at 2.
    apply map_ext_in. intros x Hx. unfold sessions_named in Hx.
    apply filter_In in Hx. destruct Hx as [_ Hx].
    apply String.eqb_eq in Hx. rewrite Hx.
    now rewrite (proj2 (String.eqb_neq sid keep) Hk).
Qed.

(** One merge, in the terms of the specification. *)
Lemma merge_chat_sessions_rows (st st' : Store) (keep : string)
      (removes : list string) (now : Time) (stats : MergeStats)
      (log : list Event) :
  ~ In keep removes -> NoDup removes ->
  ChatDatabase.merge_chat_sessions st keep removes now = (st', stats, log) ->
  no_write_failed log ->
  let rows := merged_rows keep (keys_of st keep) (max_message_order st keep)
                          (messages_seq st) (messages_to_merge st removes) in
  messages_of st' keep = (messages_of st keep ++ rows)%list
  /\ messages_merged stats = Z.of_nat (List.length rows)
  /\ duplicate_messages_skipped stats
     = Z.of_nat (List.length (messages_to_merge st removes))
       - Z.of_nat (List.length rows)
  /\ sessions_removed stats = Z.of_nat (List.length removes)
  /\ total_messages_before stats = count_messages st keep
  /\ total_messages_after stats = count_messages st' keep
  /\ (forall r, In r removes ->
        messages_of st' r = [] /\ sessions_named st' r = [])
  /\ sessions_named st' keep
     = map (refresh_session now (count_messages st' keep))
           (sessions_named st keep).
Proof.
  intros Hk Hnd E Hlog rows.
  pose proof (merge_chat_sessions_sessions st keep removes now) as Es.
  cbv zeta in Es. rewrite E in Es. cbn [fst] in Es.
  assert (Hid : forall x,
             session_id (if String.eqb (session_id x) keep
                         then refresh_session now (count_messages st' keep) x
                         else x) = session_id x)
    by (intros x; apply refresh_keeps_identity).
  unfold ChatDatabase.merge_chat_sessions in E.
  set (s' := fold_left (ChatDatabase.merge_session keep) removes
                       (mkMergeLoop st (max_message_order st keep) 0 0 0 []))
    in *.
  injection E as E1 E2 E3.
  assert (Hlog' : no_write_failed (ml_log s')) by now rewrite E3.
  destruct (fold_merge_session_rows keep removes Hk Hnd _ Hlog')
    as (A & B & C & D).
  fold s' in A, B, C, D.
  cbn [ml_store ml_max_order ml_merged ml_skipped ml_removed] in A, B, C, D.
  fold rows in A, B, C.
  assert (Hm : forall sid, messages_of st' sid = messages_of (ml_store s') sid)
    by (intros sid; rewrite <- E1; reflexivity).
  split; [now rewrite Hm|].
  rewrite <- E2. cbn [messages_merged duplicate_messages_skipped
                        sessions_removed total_messages_before
                        total_messages_after].
  split; [lia|]. split; [lia|]. split; [lia|]. split; [reflexivity|].
  split; [now rewrite E1|]. split.
  - intros r Hr. split.
    + rewrite Hm. now apply fold_merge_session_removed.
    + rewrite (sessions_named_frame _ _ _ _ r Es Hid).
      now rewrite (proj2 (mentioned_In removes r) Hr).
  - rewrite (sessions_named_frame _ _ _ _ keep Es Hid).
    rewrite (mentioned_false _ _ Hk). apply map_ext_in.
    intros x Hx. unfold sessions_named in Hx. apply filter_In in Hx.
    destruct Hx as [_ ->]. reflexivity.
Qed.

(** *** Through a whole pass *)

Lemma fold_cleanup_log (now : Time) (groups : list DuplicateGroup) :
  forall s, exists evs,
    cl_log (fold_left (ChatDatabase.cleanup_group now) groups s)
    = (cl_log s ++ evs)%list.
Proof.
  induction groups as [|g gs IH]; intros s; simpl.
  - exists []. now rewrite app_nil_r.
  - destruct (IH (ChatDatabase.cleanup_group now s g)) as (e2 & ->).
    destruct (cleanup_group_store now s g) as (_ & ->).
    eexists. rewrite <- app_assoc. reflexivity.
Qed.

Lemma fold_cleanup_frame (now : Time) (groups : list DuplicateGroup)
      (sid : string) :
  (forall g, In g groups ->
             sid <> keep_session g /\ ~ In sid (remove_sessions g)) ->
  forall s,
    messages_of (cl_store (fold_left (ChatDatabase.cleanup_group now) groups s))
                sid
    = messages_of (cl_store s) sid
    /\ sessions_named
         (cl_store (fold_left (ChatDatabase.cleanup_group now) groups s)) sid
       = sessions_named (cl_store s) sid.
Proof.
  induction groups as [|g gs IH]; intros Hg s; simpl; [now split|].
  destruct (IH (fun g' H => Hg g' (or_intror H))
               (ChatDatabase.cleanup_group now s g)) as (A & B).
  rewrite A, B. destruct (cleanup_group_store now s g) as (-> & _).
  destruct (Hg g (or_introl eq_refl)) as (Hk & Hr).
  exact (merge_chat_sessions_frame (cl_store s) (keep_session g)
           (remove_sessions g) now sid Hk Hr).
Qed.

Lemma NoDup_map_inj {A B} (f : A -> B) (l : list A) (x y : A) :
  NoDup (map f l) -> In x l -> In y l -> f x = f y -> x = y.
Proof.
  induction l as [|a l IH]; simpl; [tauto|].
  intros Hnd Hx Hy E. inversion Hnd as [|? ? Ha Hl]; subst.
  destruct Hx as [->|Hx], Hy as [->|Hy]; auto.
  - exfalso. apply Ha. rewrite E. now apply in_map.
  - exfalso. apply Ha. rewrite <- E. now apply in_map.
Qed.

Lemma sessions_named_unique (st : Store) (s : Session) :
  session_ids_unique st -> In s (chat_sessions st) ->
  sessions_named st (session_id s) = [s].
Proof.
  unfold session_ids_unique, sessions_named.
  induction (chat_sessions st) as [|a l IH]; simpl; [tauto|].
  intros Hnd Hin. inversion Hnd as [|? ? Ha Hl]; subst.
  destruct Hin as [->|Hin].
  - rewrite String.eqb_refl. f_equal. apply filter_nil_iff.
    intros x Hx. apply String.eqb_neq. intros E. apply Ha.
    rewrite <- E. now apply in_map.
  - destruct (String.eqb (session_id a) (session_id s)) eqn:E.
    + exfalso. apply String.eqb_eq in E. apply Ha. rewrite E.
      now apply in_map.
    + now apply IH.
Qed.

(** The names in the row of a group are the ids of its members, which no
    other group shares. *)
Lemma group_row_names (st : Store) (k : ChatDatabase.Fingerprint)
      (sid : string) :
  comma_free st ->
  (1 < List.length (members_of st k))%nat ->
  sid = keep_session (ChatDatabase.group_row k (members_of st k))
  \/ In sid (remove_sessions (ChatDatabase.group_row k (members_of st k))) ->
  exists m, In m (members_of st k) /\ session_id m = sid.
Proof.
  intros Hc Hlen H.
  destruct (group_row_ids st k Hc Hlen) as (keep_row & rest & Er & Hk & Hr).
  rewrite Hk, Hr in H.
  assert (Hin : forall x, In x (keep_row :: rest) -> In x (members_of st k)).
  { intros x Hx. rewrite <- Er in Hx. now apply order_by_In in Hx. }
  destruct H as [->|H].
  - exists keep_row. split; [apply Hin; now left|reflexivity].
  - apply in_map_iff in H. destruct H as (x & <- & Hx).
    exists x. split; [apply Hin; now right|reflexivity].
Qed.

Lemma other_group_disjoint (st : Store) (k k' : ChatDatabase.Fingerprint)
      (m : Session) :
  session_ids_unique st -> comma_free st ->
  k' <> k ->
  (1 < List.length (members_of st k'))%nat ->
  In m (members_of st k) ->
  session_id m <> keep_session (ChatDatabase.group_row k' (members_of st k'))
  /\ ~ In (session_id m)
          (remove_sessions (ChatDatabase.group_row k' (members_of st k'))).
Proof.
  intros Hu Hc Hne Hlen Hm.
  assert (H : ~ (session_id m
                 = keep_session (ChatDatabase.group_row k' (members_of st k'))
                 \/ In (session_id m)
                       (remove_sessions
                          (ChatDatabase.group_row k' (members_of st k'))))).
  { intros H. apply (group_row_names st k' _ Hc Hlen) in H.
    destruct H as (m' & Hm' & E).
    apply members_of_In in Hm. apply members_of_In in Hm'.
    assert (m' = m)
      by (apply (NoDup_map_inj session_id (chat_sessions st)); tauto).
    subst m'. apply Hne. destruct Hm as (_ & _ & <-).
    destruct Hm' as (_ & _ & <-). reflexivity. }
  tauto.
Qed.

Lemma NoDup_map_filter {A B} (f : A -> B) (g : A -> bool) (l : list A) :
  NoDup (map f l) -> NoDup (map f (filter g l)).
Proof.
  induction l as [|a l IH]; simpl; [auto|].
  intros H. inversion H as [|? ? Ha Hl]; subst.
  destruct (g a); simpl; [|now apply IH].
  constructor; [|now apply IH].
  intros Hin. apply Ha. apply in_map_iff in Hin.
  destruct Hin as (x & E & Hx). apply filter_In in Hx.
  rewrite <- E. apply in_map. tauto.
Qed.

Lemma messages_to_merge_In (st : Store) (removes : list string)
      (m : Message) :
  In m (messages_to_merge st removes) <->
  exists r, In r removes /\ In m (messages_of st r).
Proof.
  unfold messages_to_merge. rewrite in_concat. split.
  - intros (l & Hl & Hm). apply in_map_iff in Hl.
    destruct Hl as (r & <- & Hr). exists r. split; [exact Hr|].
    now apply order_by_In in Hm.
  - intros (r & Hr & Hm). eexists. split.
    + apply in_map_iff. exists r. split; [reflexivity|exact Hr].
    + now apply order_by_In.
Qed.

Lemma cleanup_unfold (st : Store) (now : Time) :
  ChatDatabase.find_duplicate_chat_sessions st <> [] ->
  let s := fold_left (ChatDatabase.cleanup_group now)
                     (ChatDatabase.find_duplicate_chat_sessions st)
                     (mkCleanupLoop st 0 0 0 0 []) in
  ChatDatabase.cleanup_duplicate_chat_sessions st now
  = (cl_store s,
     mkCleanupStats
       (Z.of_nat (List.length (ChatDatabase.find_duplicate_chat_sessions st)))
       (cl_removed s) (cl_merged s) (cl_skipped s) (Some (cl_processed s))
       true,
     cl_log s).
Proof.
  intros H. unfold ChatDatabase.cleanup_duplicate_chat_sessions.
  destruct (ChatDatabase.find_duplicate_chat_sessions st); [congruence|].
  reflexivity.
Qed.

(** The groups of a pass around the group of one fingerprint: the others
    belong to other fingerprints. *)
Lemma find_duplicate_split (st : Store) (k : ChatDatabase.Fingerprint) :
  (1 < List.length (members_of st k))%nat ->
  exists before after,
    ChatDatabase.find_duplicate_chat_sessions st
    = (before ++ ChatDatabase.group_row k (members_of st k) :: after)%list
    /\ forall g, In g (before ++ after)%list ->
         exists k', k' <> k
                    /\ (1 < List.length (members_of st k'))%nat
                    /\ g = ChatDatabase.group_row k' (members_of st k').
Proof.
  intros Hlen.
  assert (Hin : In (k, members_of st k) (ChatDatabase.duplicate_groups st))
    by (apply duplicate_groups_In; now split).
  pose proof (duplicate_groups_keys_NoDup st) as Hnd.
  pose proof (fun k' m' => proj1 (duplicate_groups_In st k' m')) as Hall.
  unfold ChatDatabase.find_duplicate_chat_sessions.
  destruct (in_split _ _ Hin) as (d1 & d2 & E). rewrite E in *.
  exists (map (fun g => ChatDatabase.group_row (fst g) (snd g)) d1),
         (map (fun g => ChatDatabase.group_row (fst g) (snd g)) d2).
  split; [now rewrite map_app|].
  rewrite map_app in Hnd. simpl in Hnd. apply NoDup_remove_2 in Hnd.
  intros g Hg. rewrite <- map_app in Hg. apply in_map_iff in Hg.
  destruct Hg as ([k' m'] & <- & Hg). simpl.
  assert (Hg' : In (k', m') (d1 ++ (k, members_of st k) :: d2)%list).
  { apply in_app_iff in Hg. apply in_app_iff. simpl. tauto. }
  destruct (Hall k' m' Hg') as [-> Hl]. exists k'. split; [|now split].
  intros ->. apply Hnd. rewrite <- map_app.
  change k with (fst (k, members_of st k)). now apply in_map.
Qed.

Lemma singleton_of_short {A} (l : list A) (x : A) :
  (List.length l <= 1)%nat -> In x l -> l = [x].
Proof.
  destruct l as [|a [|b l]]; simpl; intros Hl Hx.
  - destruct Hx.
  - destruct Hx as [->|[]]. reflexivity.
  - lia.
Qed.

(** A pass, seen from one duplicate group: the merges of the groups
    before it leave its sessions alone, then its own merge takes place,
    then the merges of the groups after it leave its sessions alone. *)
Lemma pass_around_group (st st' : Store) (now : Time)
      (k : ChatDatabase.Fingerprint) (stats : CleanupStats) (log : list Event) :
  session_ids_unique st -> comma_free st ->
  (1 < List.length (members_of st k))%nat ->
  ChatDatabase.cleanup_duplicate_chat_sessions st now = (st', stats, log) ->
  no_write_failed log ->
  exists keep_row rest st1 st2 mstats mlog,
    order_by ranks_before (members_of st k) = keep_row :: rest
    /\ (forall m, In m (members_of st k) ->
          messages_of st1 (session_id m) = messages_of st (session_id m)
          /\ sessions_named st1 (session_id m)
             = sessions_named st (session_id m))
    /\ ChatDatabase.merge_chat_sessions st1 (session_id keep_row)
                                        (map session_id rest) now
       = (st2, mstats, mlog)
    /\ no_write_failed mlog
    /\ (forall m, In m (members_of st k) ->
          messages_of st' (session_id m) = messages_of st2 (session_id m)
          /\ sessions_named st' (session_id m)
             = sessions_named st2 (session_id m)).
Proof.
  intros Hu Hc Hlen Hpass Hlog.
  destruct (find_duplicate_split st k Hlen) as (g1 & g2 & Eg & Hothers).
  destruct (group_row_ids st k Hc Hlen) as (keep_row & rest & Er & Hk & Hr).
  rewrite cleanup_unfold in Hpass by (rewrite Eg; now destruct g1).
  cbv zeta in Hpass. rewrite Eg in Hpass.
  rewrite fold_left_app in Hpass. cbn [fold_left] in Hpass.
  set (s1 := fold_left (ChatDatabase.cleanup_group now) g1
                       (mkCleanupLoop st 0 0 0 0 [])) in *.
  set (g := ChatDatabase.group_row k (members_of st k)) in *.
  set (s2 := ChatDatabase.cleanup_group now s1 g) in *.
  injection Hpass as E1 _ E3.
  destruct (cleanup_group_store now s1 g) as (Est2 & Elog2).
  fold s2 in Est2, Elog2. rewrite Hk, Hr in Est2, Elog2.
  destruct (ChatDatabase.merge_chat_sessions (cl_store s1)
              (session_id keep_row) (map session_id rest) now)
    as [[st2 mstats] mlog] eqn:Em.
  cbn [fst snd] in Est2, Elog2.
  assert (Hframe : forall groups s m,
             (forall x, In x groups -> In x (g1 ++ g2)%list) ->
             In m (members_of st k) ->
             messages_of (cl_store (fold_left (ChatDatabase.cleanup_group now)
                                              groups s)) (session_id m)
             = messages_of (cl_store s) (session_id m)
             /\ sessions_named
                  (cl_store (fold_left (ChatDatabase.cleanup_group now)
                                       groups s)) (session_id m)
                = sessions_named (cl_store s) (session_id m)).
  { intros groups s m Hsub Hm. apply fold_cleanup_frame.
    intros x Hx. destruct (Hothers x (Hsub x Hx)) as (k' & Hne & Hl & ->).
    now apply (other_group_disjoint st k k' m). }
  exists keep_row, rest, (cl_store s1), st2, mstats, mlog.
  split; [exact Er|]. split.
  { intros m Hm. apply (Hframe g1 (mkCleanupLoop st 0 0 0 0 []) m); [|exact Hm].
    intros x Hx. apply in_app_iff. now left. }
  split; [exact Em|]. split.
  { intros e He. apply (Hlog e). rewrite <- E3.
    destruct (fold_cleanup_log now g2 s2) as (evs & ->).
    rewrite Elog2, !in_app_iff. left. now right. }
  intros m Hm. rewrite <- E1, <- Est2.
  apply (Hframe g2 s2 m); [|exact Hm].
  intros x Hx. apply in_app_iff. now right.
Qed.

(** ** Reconciliation convergence *)

(** X27.  In a store whose session ids are unique and hold no
    comma, take a group of two or more sessions with non-null platform
    and participant that share their (platform, title, participant); if
    no copy of a message fails during the pass, one run of the
    reconciliation leaves exactly one session of that group: a member
    that no member outranks by stored message count, ties broken by the
    more recent last activity, its row refreshed to the count of its
    messages.  Its messages are those it had, followed by copies (same
    sender, role, text and timestamps) of messages of the other members,
    one for each dedup key that it did not hold; so its dedup keys are
    the union of the keys of the group, the rows that it held staying as
    they were, repeated keys included.  The other members have neither a
    session row nor message rows any more. *)
Theorem reconciliation_converges :
  forall (st st' : Store) (now : Time) (k : ChatDatabase.Fingerprint)
         (stats : CleanupStats) (log : list Event),
    session_ids_unique st -> comma_free st ->
    (2 <= List.length (members_of st k))%nat ->
    ChatDatabase.cleanup_duplicate_chat_sessions st now = (st', stats, log) ->
    no_write_failed log ->
    exists (survivor : Session) (new : list Message),
      In survivor (members_of st k)
      /\ (forall m, In m (members_of st k) -> outranked_by m survivor)
      /\ members_of st' k
         = [refresh_session now (count_messages st' (session_id survivor))
                            survivor]
      /\ messages_of st' (session_id survivor)
         = (messages_of st (session_id survivor) ++ new)%list
      /\ (forall key,
            In key (keys_of st' (session_id survivor)) <->
            exists m, In m (members_of st k)
                      /\ In key (keys_of st (session_id m)))
      /\ NoDup (map dedup_key new)
      /\ (forall row, In row new ->
            ~ In (dedup_key row) (keys_of st (session_id survivor)))
      /\ (forall row, In row new ->
            exists m original,
              In m (members_of st k)
              /\ session_id m <> session_id survivor
              /\ In original (messages_of st (session_id m))
              /\ same_content row original)
      /\ (forall m, In m (members_of st k) ->
            session_id m <> session_id survivor ->
            sessions_named st' (session_id m) = []
            /\ messages_of st' (session_id m) = []).
Proof.
  intros st st' now k stats log Hu Hc Hlen Hpass Hlog.
  assert (Hlen' : (1 < List.length (members_of st k))%nat) by lia.
  destruct (pass_around_group st st' now k stats log Hu Hc Hlen' Hpass Hlog)
    as (keep_row & rest & st1 & st2 & mstats & mlog
        & Er & Hf1 & Em & Hmlog & Hf2).
  set (keep := session_id keep_row) in *.
  set (removes := map session_id rest) in *.
  (* the ranked members *)
  destruct (order_by_head _ ranks_before_total ranks_before_trans _ _ _ Er)
    as (Hkeep_in & Hmax).
  assert (Hranked : forall m, In m (members_of st k) <->
                              m = keep_row \/ In m rest).
  { intros m. rewrite <- (order_by_In ranks_before), Er. simpl.
    split; intros [H|H]; auto. }
  assert (Hnd : NoDup (keep :: removes)).
  { change (keep :: removes) with (map session_id (keep_row :: rest)).
    rewrite <- Er.
    apply (Permutation_NoDup
             (l := map session_id (members_of st k))).
    - apply Permutation_map, Permutation_sym, order_by_perm.
    - unfold members_of. now do 2 apply NoDup_map_filter. }
  inversion Hnd as [|? ? Hkr Hndr]; subst.
  assert (Hrest : forall m, In m (members_of st k) ->
                            session_id m <> keep -> In (session_id m) removes).
  { intros m Hm Hne. apply Hranked in Hm. destruct Hm as [->|Hm];
      [now elim Hne|]. now apply in_map. }
  assert (Hremoved : forall r, In r removes ->
                     exists m, In m (members_of st k) /\ session_id m = r
                               /\ r <> keep).
  { intros r Hr. apply in_map_iff in Hr. destruct Hr as (m & <- & Hm).
    exists m. split; [apply Hranked; now right|]. split; [reflexivity|].
    intros E. apply Hkr. rewrite <- E. now apply in_map. }
  (* the merge of the group, read on the store of the start *)
  destruct (merge_chat_sessions_rows _ _ _ _ _ _ _ Hkr Hndr Em Hmlog)
    as (A & _ & _ & _ & _ & _ & Hgone & Hrow).
  destruct (Hf1 keep_row Hkeep_in) as (Fm & Fs). fold keep in Fm, Fs.
  assert (Esrc : messages_to_merge st1 removes = messages_to_merge st removes).
  { unfold messages_to_merge. f_equal. apply map_ext_in. intros r Hr.
    destruct (Hremoved r Hr) as (m & Hm & <- & _).
    now rewrite (proj1 (Hf1 m Hm)). }
  assert (Ekeys : keys_of st1 keep = keys_of st keep)
    by (unfold keys_of; now rewrite Fm).
  assert (Emax : max_message_order st1 keep = max_message_order st keep)
    by (unfold max_message_order; now rewrite Fm).
  rewrite Esrc, Ekeys, Emax, Fm in A.
  set (new := merged_rows keep (keys_of st keep) (max_message_order st keep)
                          (messages_seq st1) (messages_to_merge st removes))
    in *.
  destruct (Hf2 keep_row Hkeep_in) as (Gm & Gs). fold keep in Gm, Gs.
  assert (Hnew_keys : map dedup_key new
                      = distinct key_eqb
                          (filter (fun x => negb (key_in x (keys_of st keep)))
                                  (map dedup_key (messages_to_merge st removes))))
    by apply merged_rows_keys.
  exists keep_row, new. fold keep.
  split; [exact Hkeep_in|]. split.
  { intros m Hm. apply ranks_before_outranked, Hmax, Hm. }
  split.
  { apply singleton_of_short.
    - replace st'
        with (fst (fst (ChatDatabase.cleanup_duplicate_chat_sessions st now)))
        by now rewrite Hpass.
      now apply cleanup_collapses.
    - assert (Hc2 : count_messages st' keep = count_messages st2 keep)
        by (unfold count_messages; now rewrite Gm).
      assert (Hin : In (refresh_session now (count_messages st' keep) keep_row)
                       (sessions_named st' keep)).
      { rewrite Gs, Hrow, Fs, Hc2.
        unfold keep at 3. rewrite (sessions_named_unique st keep_row Hu).
        - now left.
        - apply members_of_In in Hkeep_in. tauto. }
      unfold sessions_named in Hin. apply filter_In in Hin.
      apply members_of_In in Hkeep_in. apply members_of_In.
      split; [tauto|]. split; [apply Hkeep_in|apply Hkeep_in]. }
  split; [now rewrite Gm, A|]. split.
  { intros key. unfold keys_of at 1. rewrite Gm, A, map_app.
    fold (keys_of st keep). rewrite Hnew_keys, keys_union_step. split.
    - intros [H|H].
      + exists keep_row. now split.
      + apply in_map_iff in H. destruct H as (orig & <- & Ho).
        apply messages_to_merge_In in Ho. destruct Ho as (r & Hr & Ho).
        destruct (Hremoved r Hr) as (m & Hm & <- & _).
        exists m. split; [exact Hm|]. unfold keys_of. now apply in_map.
    - intros (m & Hm & Hkey).
      destruct (string_dec (session_id m) keep) as [E|E].
      + left. now rewrite <- E.
      + right. unfold keys_of in Hkey. apply in_map_iff in Hkey.
        destruct Hkey as (orig & <- & Ho). apply in_map.
        apply messages_to_merge_In. exists (session_id m).
        split; [now apply Hrest|exact Ho]. }
  split.
  { rewrite Hnew_keys. apply (distinct_NoDup _ key_eqb_eq). }
  split.
  { intros row Hrow' Hin.
    assert (H : In (dedup_key row) (map dedup_key new)) by now apply in_map.
    rewrite Hnew_keys in H. apply (proj1 (distinct_In _ key_eqb_eq _ _)) in H.
    apply filter_In in H. destruct H as [_ H].
    apply negb_true_iff in H. apply key_in_In in Hin. congruence. }
  split.
  { intros row Hrow'. apply merged_rows_content in Hrow'.
    destruct Hrow' as (orig & Ho & Hcontent).
    apply messages_to_merge_In in Ho. destruct Ho as (r & Hr & Ho).
    destruct (Hremoved r Hr) as (m & Hm & <- & Hne).
    exists m, orig. auto. }
  intros m Hm Hne. destruct (Hf2 m Hm) as (-> & ->).
  destruct (Hgone (session_id m) (Hrest m Hm Hne)) as (-> & ->).
  now split.
Qed.

Lemma comma_free_check (st : Store) :
  forallb (fun s => negb (Str.contains "," (session_id s))) (chat_sessions st)
  = true ->
  comma_free st.
Proof.
  rewrite forallb_forall. intros H s Hs. apply negb_true_iff. now apply H.
Qed.

(** The scenario of the specification: three sessions of 4, 6 and 2
    messages with one overlap give one session, the one of 6, with
    4 + 6 + 2 - 1 = 11 messages; 2 sessions are removed and 1 duplicate
    is skipped. *)
Example trio_reconciled :
  exists st' log,
    ChatDatabase.cleanup_duplicate_chat_sessions Sample.trio_store 500
    = (st', mkCleanupStats 1 2 5 1 (Some 1) true, log)
    /\ map session_id (chat_sessions st') = ["erin_b"]
    /\ map total_messages (chat_sessions st') = [11]
    /\ count_messages st' "erin_b" = 11
    /\ map message_order (messages_of st' "erin_b")
       = [1; 2; 3; 4; 5; 6; 7; 8; 9; 10; 11].
Proof.
  eexists. eexists. split; [vm_compute; reflexivity|].
  repeat split; vm_compute; reflexivity.
Qed.

Lemma reconciliation_converges_witness :
  session_ids_unique Sample.trio_store
  /\ comma_free Sample.trio_store
  /\ (2 <= List.length (members_of Sample.trio_store Sample.erin))%nat
  /\ exists st' stats log survivor new,
       ChatDatabase.cleanup_duplicate_chat_sessions Sample.trio_store 500
       = (st', stats, log)
       /\ no_write_failed log
       /\ In survivor (members_of Sample.trio_store Sample.erin)
       /\ members_of st' Sample.erin
          = [refresh_session 500 (count_messages st' (session_id survivor))
                             survivor]
       /\ messages_of st' (session_id survivor)
          = (messages_of Sample.trio_store (session_id survivor) ++ new)%list.
Proof.
  assert (Hu : session_ids_unique Sample.trio_store).
  { unfold session_ids_unique. vm_compute.
    repeat constructor; simpl; intuition discriminate. }
  assert (Hc : comma_free Sample.trio_store)
    by (apply comma_free_check; vm_compute; reflexivity).
  assert (Hlen : (2 <= List.length (members_of Sample.trio_store
                                               Sample.erin))%nat)
    by (vm_compute; lia).
  eassert (Hpass : ChatDatabase.cleanup_duplicate_chat_sessions
                     Sample.trio_store 500 = (_, _, _))
    by (vm_compute; reflexivity).
  match type of Hpass with
  | _ = (_, _, ?l) => assert (Hlog : no_write_failed l)
  end.
  { intros e He. simpl in He.
    repeat (destruct He as [He|He]; [discriminate He|]). destruct He. }
  destruct (reconciliation_converges _ _ _ _ _ _ Hu Hc Hlen Hpass Hlog)
    as (survivor & new & A & _ & B & C & _).
  split; [exact Hu|]. split; [exact Hc|]. split; [exact Hlen|].
  do 3 eexists. exists survivor, new.
  split; [exact Hpass|]. split; [exact Hlog|].
  split; [exact A|]. split; [exact B|exact C].
Defined.

(** C3 at two sessions of one conversation, the larger of which holds
    a row under the message id that the merge derives for its next order
    position.  The copy of the message of the smaller session fails on
    the UNIQUE message id and is reported; the smaller session is deleted
    with its rows all the same.  One session is left, and it does not
    hold the union: the message ("Dan", "three") is in no session any
    more, and no message is counted as merged. *)
Theorem merge_loses_failed_copy :
  exists st' stats log,
    ChatDatabase.cleanup_duplicate_chat_sessions Sample.lossy_store 500
    = (st', stats, log)
    /\ session_ids_unique Sample.lossy_store
    /\ comma_free Sample.lossy_store
    /\ map session_id
           (members_of Sample.lossy_store
                       (Some "upwork", Some "Upwork Chat with Dan", Some "Dan"))
       = ["dan_a"; "dan_b"]
    /\ In ("Dan", "three") (keys_of Sample.lossy_store "dan_b")
    /\ map session_id (chat_sessions st') = ["dan_a"]
    /\ ~ In ("Dan", "three") (keys_of st' "dan_a")
    /\ List.length (chat_messages st') = 2%nat
    /\ cs_messages_merged stats = 0
    /\ log = [WriteFailed (IntegrityError "chat_messages.message_id")].
Proof.
  do 3 eexists. split; [vm_compute; reflexivity|].
  split.
  { unfold session_ids_unique. vm_compute.
    repeat constructor; simpl; intuition discriminate. }
  split; [apply comma_free_check; vm_compute; reflexivity|].
  split; [vm_compute; reflexivity|].
  split; [vm_compute; auto|].
  split; [vm_compute; reflexivity|].
  split; [apply key_absent_check; vm_compute; reflexivity|].
  repeat split; reflexivity.
Qed.

(** The two scrapes of the scenario, each saved by [save_to_database],
    make a duplicate group of two sessions.  The pass keeps the later
    one, whose row says 7 messages and which owns 2 rows, and removes the
    one that owns 5: the five older messages are appended after the two
    newer ones. *)
Lemma cleanup_keeps_the_session_of_fewer_rows :
  exists st2 st' stats log,
    st2 = fst (ChatParser.save_to_database Sample.first_store
                 Sample.second_scrape "upwork" None Sample.ten_past_noon)
    /\ ChatDatabase.cleanup_duplicate_chat_sessions st2 1735734000
       = (st', stats, log)
    /\ map total_messages (chat_sessions st2) = [5; 7]
    /\ count_messages st2 "upwork_20250101_120000" = 5
    /\ count_messages st2 "upwork_20250101_121000" = 2
    /\ map session_id (chat_sessions st') = ["upwork_20250101_121000"]
    /\ map message_order (messages_of st' "upwork_20250101_121000")
       = [6; 7; 8; 9; 10; 11; 12]
    /\ map message_text (messages_of st' "upwork_20250101_121000")
       = ["Offer sent"; "Accepted, thank you"; "Hi, are you available?";
          "Yes, what do you need?"; "A scraper for my shop";
          "I can start on Monday"; "Great, send me an offer"].
Proof.
  do 4 eexists. split; [reflexivity|].
  split; [vm_compute; reflexivity|].
  repeat split; vm_compute; reflexivity.
Qed.

Lemma reconciliation_idempotent_witness :
  comma_free Sample.trio_store
  /\ ChatDatabase.find_duplicate_chat_sessions
       (fst (fst (ChatDatabase.cleanup_duplicate_chat_sessions
                    Sample.trio_store 500))) = []
  /\ ChatDatabase.cleanup_duplicate_chat_sessions
       (fst (fst (ChatDatabase.cleanup_duplicate_chat_sessions
                    Sample.trio_store 500))) 600
     = (fst (fst (ChatDatabase.cleanup_duplicate_chat_sessions
                    Sample.trio_store 500)),
        mkCleanupStats 0 0 0 0 None true, []).
Proof.
  assert (Hc : comma_free Sample.trio_store)
    by (apply comma_free_check; vm_compute; reflexivity).
  split; [exact Hc|].
  exact (proj2 (reconciliation_idempotent Sample.trio_store 500 600) Hc).
Defined.

(** ** [save_chat_messages]: what one call writes *)

Lemma message_id_taken_snoc (st st' : Store) (rows : list Message)
      (mid : string) :
  chat_messages st' = (chat_messages st ++ rows)%list ->
  message_id_taken st mid = true -> message_id_taken st' mid = true.
Proof.
  unfold message_id_taken. intros -> H.
  rewrite existsb_app, H. reflexivity.
Qed.

Lemma unwritable_grows (st st' : Store) (rows : list Message) (msg : Msg) :
  chat_messages st' = (chat_messages st ++ rows)%list ->
  unwritable st msg -> unwritable st' msg.
Proof.
  intro Happ. unfold unwritable.
  destruct (msg_message_id msg), (msg_sender msg), (msg_sender_type msg),
           (msg_text msg), (msg_timestamp msg), (msg_order msg); auto.
  apply (message_id_taken_snoc st st' rows); assumption.
Qed.

(** One turn of the loop either leaves the table as it is, or appends the
    row of the message. *)
Lemma save_message_turn (sid : string) (now : Time) (s : SaveLoop) (msg : Msg) :
  let s' := ChatDatabase.save_message sid now s msg in
  (sl_store s' = sl_store s /\ sl_saved s' = sl_saved s
   /\ unwritable (sl_store s) msg)
  \/ (exists r,
        chat_messages (sl_store s') = (chat_messages (sl_store s) ++ [r])%list
        /\ sl_saved s' = sl_saved s + 1
        /\ written_as sid now msg r
        /\ message_id_taken (sl_store s) (message_id r) = false).
Proof.
  unfold ChatDatabase.save_message, unwritable, written_as.
  destruct (msg_message_id msg) as [mid|]; cbn [bind subscript];
    [|left; auto].
  destruct (msg_sender msg) as [who|]; cbn [bind subscript]; [|left; auto].
  destruct (msg_sender_type msg) as [kind|]; cbn [bind subscript];
    [|left; auto].
  destruct (msg_text msg) as [text|]; cbn [bind subscript]; [|left; auto].
  destruct (msg_timestamp msg) as [ts|]; cbn [bind subscript]; [|left; auto].
  destruct (msg_order msg) as [order|]; cbn [bind subscript]; [|left; auto].
  unfold insert_message.
  destruct (message_id_taken (sl_store s) mid) eqn:Htaken; cbn.
  - left. auto.
  - right. eexists. split; [reflexivity|]. cbn. repeat split; auto.
Qed.

Lemma save_message_leaves_unwritable (sid : string) (now : Time) (s : SaveLoop)
      (msg : Msg) :
  unwritable (sl_store (ChatDatabase.save_message sid now s msg)) msg.
Proof.
  destruct (save_message_turn sid now s msg) as [(Hst & _ & Hun)|(r & Happ & _ & Hw & _)].
  - rewrite Hst. exact Hun.
  - destruct Hw as (_ & _ & Hmid & Hwho & Hkind & Htext & Hts & Hord).
    unfold unwritable. rewrite Hmid, Hwho, Hkind, Htext, Hts, Hord.
    unfold message_id_taken. rewrite Happ, existsb_app. cbn.
    rewrite String.eqb_refl. apply orb_true_iff. right. reflexivity.
Qed.

Lemma fold_save_message_grows (sid : string) (now : Time) (messages : list Msg) :
  forall s,
    let s' := fold_left (ChatDatabase.save_message sid now) messages s in
    exists rows,
      chat_messages (sl_store s') = (chat_messages (sl_store s) ++ rows)%list
      /\ sl_saved s' = sl_saved s + Z.of_nat (List.length rows)
      /\ (List.length rows <= List.length messages)%nat
      /\ Forall (fun r => exists msg, In msg messages /\ written_as sid now msg r)
                rows.
Proof.
  induction messages as [|msg rest IH]; intros s; cbn [fold_left].
  - exists []. rewrite app_nil_r. cbn. repeat split; auto; lia.
  - destruct (IH (ChatDatabase.save_message sid now s msg))
      as (rows & Happ & Hsaved & Hlen & Hrows).
    assert (Hweak :
      Forall (fun r => exists m, In m (msg :: rest) /\ written_as sid now m r)
             rows).
    { eapply Forall_impl; [|exact Hrows].
      intros r (m & Hin & Hw). exists m. split; [now right|exact Hw]. }
    destruct (save_message_turn sid now s msg)
      as [(Hst & Hn & _)|(r & Hone & Hn & Hw & _)].
    + exists rows. rewrite Happ, Hsaved, Hst, Hn.
      repeat split; auto. cbn. lia.
    + exists (r :: rows). rewrite Happ, Hsaved, Hone, Hn, <- app_assoc.
      cbn [app List.length]. repeat split; auto; try lia.
      constructor; [|exact Hweak].
      exists msg. split; [now left|exact Hw].
Qed.

(** X1.  [save_chat_messages] returns the number of rows it has appended
    to [chat_messages]: the rows that were there stay, in their places; each
    new row belongs to the session of the call, carries the instant of the
    call and the six fields of a message of the list; no more rows are
    written than messages were passed; [chat_sessions] is not touched. *)
Theorem save_chat_messages_counts_appended_rows :
  forall (st : Store) (sid : string) (messages : list Msg) (now : Time),
    exists rows,
      chat_messages
        (fst (fst (ChatDatabase.save_chat_messages st sid messages now)))
      = (chat_messages st ++ rows)%list
      /\ snd (fst (ChatDatabase.save_chat_messages st sid messages now))
         = Z.of_nat (List.length rows)
      /\ (List.length rows <= List.length messages)%nat
      /\ Forall (fun r => exists msg, In msg messages
                                      /\ written_as sid now msg r) rows
      /\ chat_sessions
           (fst (fst (ChatDatabase.save_chat_messages st sid messages now)))
         = chat_sessions st.
Proof.
  intros st sid messages now.
  destruct (fold_save_message_grows sid now messages (mkSaveLoop st 0 []))
    as (rows & Happ & Hsaved & Hlen & Hrows).
  exists rows. unfold ChatDatabase.save_chat_messages. cbn [fst snd].
  cbn in Happ, Hsaved.
  repeat split; auto.
  apply (save_chat_messages_sessions sid now messages st).
Qed.

Lemma fold_save_message_settled (sid : string) (now : Time)
      (messages : list Msg) :
  forall s,
    Forall (unwritable (sl_store s)) messages ->
    sl_store (fold_left (ChatDatabase.save_message sid now) messages s)
    = sl_store s
    /\ sl_saved (fold_left (ChatDatabase.save_message sid now) messages s)
       = sl_saved s.
Proof.
  induction messages as [|msg rest IH]; intros s Hall; cbn [fold_left].
  - auto.
  - inversion Hall as [|? ? Hmsg Hrest]; subst.
    assert (Hsame : sl_store (ChatDatabase.save_message sid now s msg) = sl_store s
                    /\ sl_saved (ChatDatabase.save_message sid now s msg) = sl_saved s).
    { destruct (save_message_turn sid now s msg)
        as [(Hst & Hn & _)|(r & _ & _ & Hw & Hfree)]; [auto|].
      exfalso. destruct Hw as (_ & _ & Hmid & Hwho & Hkind & Htext & Hts & Hord).
      unfold unwritable in Hmsg.
      rewrite Hmid, Hwho, Hkind, Htext, Hts, Hord in Hmsg. congruence. }
    destruct Hsame as [Hst Hn].
    destruct (IH (ChatDatabase.save_message sid now s msg)) as [H1 H2].
    { rewrite Hst. exact Hrest. }
    rewrite H1, H2. auto.
Qed.

Lemma fold_save_message_leaves_unwritable (sid : string) (now : Time)
      (messages : list Msg) :
  forall s,
    Forall (unwritable
              (sl_store (fold_left (ChatDatabase.save_message sid now)
                                   messages s)))
           messages.
Proof.
  induction messages as [|msg rest IH]; intros s; cbn [fold_left].
  - constructor.
  - constructor; [|apply IH].
    destruct (fold_save_message_grows sid now rest
                (ChatDatabase.save_message sid now s msg))
      as (rows & Happ & _).
    eapply unwritable_grows; [exact Happ|].
    apply save_message_leaves_unwritable.
Qed.

(** X2.  [save_chat_messages] is idempotent, whatever the store and the
    list: called again with the messages of an earlier call, under any
    session id and at any instant, it writes no row and returns 0. *)
Theorem save_chat_messages_idempotent :
  forall (st : Store) (sid sid' : string) (messages : list Msg)
         (now now' : Time),
    let st1 :=
      fst (fst (ChatDatabase.save_chat_messages st sid messages now)) in
    fst (ChatDatabase.save_chat_messages st1 sid' messages now') = (st1, 0).
Proof.
  intros st sid sid' messages now now' st1.
  unfold ChatDatabase.save_chat_messages. cbn [fst].
  destruct (fold_save_message_settled sid' now' messages (mkSaveLoop st1 0 []))
    as [Hst Hn].
  { apply (fold_save_message_leaves_unwritable sid now messages
             (mkSaveLoop st 0 [])). }
  cbn [sl_store sl_saved] in Hst, Hn. rewrite Hst, Hn. reflexivity.
Qed.

(** ** Batches with missing fields *)

Lemma save_message_log (sid : string) (now : Time) (s : SaveLoop) (msg : Msg) :
  sl_log (ChatDatabase.save_message sid now s msg)
  = (sl_log s ++ reported [msg])%list.
Proof.
  unfold ChatDatabase.save_message, reported, first_missing. cbn [flat_map].
  destruct (msg_message_id msg) as [mid|]; cbn [bind subscript sl_log];
    [|reflexivity].
  destruct (msg_sender msg) as [who|]; cbn [bind subscript sl_log];
    [|reflexivity].
  destruct (msg_sender_type msg) as [kind|]; cbn [bind subscript sl_log];
    [|reflexivity].
  destruct (msg_text msg) as [text|]; cbn [bind subscript sl_log];
    [|reflexivity].
  destruct (msg_timestamp msg) as [ts|]; cbn [bind subscript sl_log];
    [|reflexivity].
  destruct (msg_order msg) as [order|]; cbn [bind subscript sl_log];
    [|reflexivity].
  destruct (insert_message (sl_store s) sid mid who kind text ts order now);
    cbn [sl_log app]; now rewrite app_nil_r.
Qed.

Lemma save_message_malformed (sid : string) (now : Time) (s : SaveLoop)
      (msg : Msg) :
  well_formed msg = false ->
  sl_store (ChatDatabase.save_message sid now s msg) = sl_store s
  /\ sl_saved (ChatDatabase.save_message sid now s msg) = sl_saved s.
Proof.
  unfold well_formed, first_missing, ChatDatabase.save_message.
  destruct (msg_message_id msg) as [mid|]; cbn [bind subscript sl_store sl_saved];
    [|split; reflexivity].
  destruct (msg_sender msg) as [who|]; cbn [bind subscript sl_store sl_saved];
    [|split; reflexivity].
  destruct (msg_sender_type msg) as [kind|]; cbn [bind subscript sl_store sl_saved];
    [|split; reflexivity].
  destruct (msg_text msg) as [text|]; cbn [bind subscript sl_store sl_saved];
    [|split; reflexivity].
  destruct (msg_timestamp msg) as [ts|]; cbn [bind subscript sl_store sl_saved];
    [|split; reflexivity].
  destruct (msg_order msg) as [order|]; cbn [bind subscript sl_store sl_saved];
    [discriminate|split; reflexivity].
Qed.

(** What a turn of the loop writes depends on the table and the count,
    not on what was reported before. *)
Lemma save_message_same_store (sid : string) (now : Time) (s s' : SaveLoop)
      (msg : Msg) :
  sl_store s = sl_store s' -> sl_saved s = sl_saved s' ->
  sl_store (ChatDatabase.save_message sid now s msg)
  = sl_store (ChatDatabase.save_message sid now s' msg)
  /\ sl_saved (ChatDatabase.save_message sid now s msg)
     = sl_saved (ChatDatabase.save_message sid now s' msg).
Proof.
  intros Hst Hn. unfold ChatDatabase.save_message. rewrite Hst.
  destruct (msg_message_id msg) as [mid|]; cbn [bind subscript sl_store sl_saved];
    [|split; congruence].
  destruct (msg_sender msg) as [who|]; cbn [bind subscript sl_store sl_saved];
    [|split; congruence].
  destruct (msg_sender_type msg) as [kind|]; cbn [bind subscript sl_store sl_saved];
    [|split; congruence].
  destruct (msg_text msg) as [text|]; cbn [bind subscript sl_store sl_saved];
    [|split; congruence].
  destruct (msg_timestamp msg) as [ts|]; cbn [bind subscript sl_store sl_saved];
    [|split; congruence].
  destruct (msg_order msg) as [order|]; cbn [bind subscript sl_store sl_saved];
    [|split; congruence].
  destruct (insert_message (sl_store s') sid mid who kind text ts order now);
    cbn [sl_store sl_saved]; [split; congruence|].
  split; congruence.
Qed.

Lemma fold_save_message_log (sid : string) (now : Time) (messages : list Msg) :
  forall s,
    sl_log (fold_left (ChatDatabase.save_message sid now) messages s)
    = (sl_log s ++ reported messages)%list.
Proof.
  induction messages as [|msg rest IH]; intros s; cbn [fold_left].
  - unfold reported. cbn. now rewrite app_nil_r.
  - rewrite IH, save_message_log, <- app_assoc. f_equal.
    unfold reported. cbn [flat_map]. now rewrite app_nil_r.
Qed.

Lemma fold_save_message_well_formed (sid : string) (now : Time)
      (messages : list Msg) :
  forall s s',
    sl_store s = sl_store s' -> sl_saved s = sl_saved s' ->
    sl_store (fold_left (ChatDatabase.save_message sid now) messages s)
    = sl_store (fold_left (ChatDatabase.save_message sid now)
                          (filter well_formed messages) s')
    /\ sl_saved (fold_left (ChatDatabase.save_message sid now) messages s)
       = sl_saved (fold_left (ChatDatabase.save_message sid now)
                             (filter well_formed messages) s').
Proof.
  induction messages as [|msg rest IH]; intros s s' Hst Hn;
    cbn [fold_left filter]; [split; assumption|].
  destruct (well_formed msg) eqn:Hwf; cbn [fold_left].
  - destruct (save_message_same_store sid now s s' msg Hst Hn) as [A B].
    now apply IH.
  - destruct (save_message_malformed sid now s msg Hwf) as [A B].
    apply IH; congruence.
Qed.

(** C9 (as amended).  No batch is validated before the writes.
    [save_chat_messages], through which the creating ingest
    [save_to_database] writes a batch, takes the messages one by one: a
    message that lacks a field is reported, with the KeyError of the
    first missing field, and skipped by itself; the table and the count
    returned are those of the same call on the other messages, each of
    which is in the table afterwards under its message id; and
    [save_to_database] has written the session row, counting every
    message of the batch, whatever the batch lacks. *)
Theorem malformed_messages_are_skipped_one_by_one :
  forall (st : Store) (sid : string) (messages : list Msg) (now : Time),
    fst (ChatDatabase.save_chat_messages st sid messages now)
    = fst (ChatDatabase.save_chat_messages st sid
                                           (filter well_formed messages) now)
    /\ snd (ChatDatabase.save_chat_messages st sid messages now)
       = reported messages
    /\ (forall msg, In msg messages -> well_formed msg = false ->
          exists key,
            first_missing msg = Some key
            /\ In (WriteFailed (KeyError key))
                  (snd (ChatDatabase.save_chat_messages st sid messages now)))
    /\ (forall msg mid, In msg messages -> well_formed msg = true ->
          msg_message_id msg = Some mid ->
          message_id_taken
            (fst (fst (ChatDatabase.save_chat_messages st sid messages now)))
            mid = true)
    /\ forall (platform : string) (given : option string) (at_ : Now),
         exists row,
           sessions_named
             (fst (ChatParser.save_to_database st messages platform
                                               given at_))
             (snd (ChatParser.save_to_database st messages platform
                                               given at_))
           = [row]
           /\ total_messages row = Z.of_nat (List.length messages)
           /\ last_activity row = instant at_.
Proof.
  intros st sid messages now.
  assert (Hlog : snd (ChatDatabase.save_chat_messages st sid messages now)
                 = reported messages).
  { unfold ChatDatabase.save_chat_messages. cbn [snd].
    now rewrite fold_save_message_log. }
  split; [|split; [exact Hlog|split; [|split]]].
  - unfold ChatDatabase.save_chat_messages. cbn [fst].
    destruct (fold_save_message_well_formed sid now messages
                (mkSaveLoop st 0 []) (mkSaveLoop st 0 []) eq_refl eq_refl)
      as [A B].
    now rewrite A, B.
  - intros msg Hin Hwf. rewrite Hlog. unfold well_formed in Hwf.
    destruct (first_missing msg) as [key|] eqn:Hkey; [|discriminate].
    exists key. split; [reflexivity|].
    unfold reported. apply in_flat_map. exists msg. split; [exact Hin|].
    rewrite Hkey. now left.
  - intros msg mid Hin Hwf Hmid.
    pose proof (fold_save_message_leaves_unwritable sid now messages
                  (mkSaveLoop st 0 [])) as Hall.
    rewrite Forall_forall in Hall. specialize (Hall msg Hin).
    unfold ChatDatabase.save_chat_messages. cbn [fst].
    unfold well_formed, first_missing in Hwf. unfold unwritable in Hall.
    rewrite Hmid in *.
    destruct (msg_sender msg); [|discriminate].
    destruct (msg_sender_type msg); [|discriminate].
    destruct (msg_text msg); [|discriminate].
    destruct (msg_timestamp msg); [|discriminate].
    destruct (msg_order msg); [|discriminate].
    exact Hall.
  - intros platform given at_.
    unfold ChatParser.save_to_database.
    set (sid' := if ChatParser.falsy given
                 then platform ++ "_" ++ stamp at_ else get given "").
    unfold ChatDatabase.save_chat_session. cbn [sd_session_id bind subscript].
    match goal with
    | |- context [ChatDatabase.save_chat_messages ?a ?b ?c ?d] =>
        pose proof (save_chat_messages_sessions b d c a) as Hs;
        destruct (ChatDatabase.save_chat_messages a b c d) as [[st2 n] log]
    end.
    cbn [fst snd] in *. eexists. unfold sessions_named. rewrite Hs.
    unfold ChatDatabase.insert_or_replace_session.
    cbn [chat_sessions session_id]. split.
    + rewrite filter_app, filter_filter_negb. cbn [filter session_id app].
      rewrite String.eqb_refl. reflexivity.
    + split; reflexivity.
Qed.

(** A scrape whose second message has no timestamp is not turned away:
    the session row and the first message are written. *)
Lemma untimed_scrape_is_written :
  exists st',
    ChatParser.save_to_database empty_store Sample.untimed_scrape "upwork"
                                None Sample.noon
    = (st', "upwork_20250101_120000")
    /\ (exists msg, In msg Sample.untimed_scrape /\ msg_timestamp msg = None)
    /\ map message_text (chat_messages st') = ["any news?"]
    /\ map session_id (chat_sessions st') = ["upwork_20250101_120000"]
    /\ st' <> empty_store.
Proof.
  eexists. split; [vm_compute; reflexivity|].
  split; [eexists; split; [right; left; reflexivity|reflexivity]|].
  split; [reflexivity|]. split; [reflexivity|discriminate].
Qed.

(** ** The session ids that a call keeps *)

Lemma ids_kept_same (st st' : Store) :
  map session_id (chat_sessions st') = map session_id (chat_sessions st) ->
  ids_kept st st' [].
Proof.
  intro H. exists (fun _ => true). split.
  - rewrite app_nil_r, H. f_equal. symmetry. apply filter_all.
    rewrite Forall_forall. reflexivity.
  - intros x sid _ _ [].
Qed.

Lemma ids_kept_reshaped (st st' : Store) (f : Session -> Session)
      (g : Session -> bool) :
  (forall x, session_id (f x) = session_id x) ->
  chat_sessions st' = map f (filter g (chat_sessions st)) ->
  ids_kept st st' [].
Proof.
  intros Hf H. exists g. split.
  - rewrite app_nil_r, H, map_map. apply map_ext. exact Hf.
  - intros x sid _ _ [].
Qed.

Lemma ids_kept_comma_free (st st' : Store) (new : list string) :
  ids_kept st st' new ->
  (forall sid, In sid new -> Str.contains "," sid = false) ->
  comma_free st -> comma_free st'.
Proof.
  unfold comma_free. intros (g & Heq & _) Hnew Hst s Hs.
  assert (Hin : In (session_id s) (map session_id (chat_sessions st')))
    by now apply in_map.
  rewrite Heq, in_app_iff in Hin. destruct Hin as [Hin|Hin].
  - apply in_map_iff in Hin. destruct Hin as (x & Hx & Hin).
    apply filter_In in Hin. rewrite <- Hx. apply Hst. tauto.
  - now apply Hnew.
Qed.

Lemma save_chat_session_ids (st st' : Store) (data : SessionData)
      (now : Time) (sid : string) :
  ChatDatabase.save_chat_session st data now = Ok (st', sid) ->
  ids_kept st st' [sid] /\ chat_messages st' = chat_messages st.
Proof.
  unfold ChatDatabase.save_chat_session.
  destruct (sd_session_id data) as [sid0|]; cbn [bind subscript];
    [|discriminate].
  intros H. injection H as <- <-. split; [|reflexivity].
  exists (fun s => negb (String.eqb (session_id s) sid0)). split.
  - cbn. now rewrite map_app.
  - intros x sid _ Hg [<-|[]] Heq. rewrite Heq, String.eqb_refl in Hg.
    discriminate.
Qed.

Lemma save_to_database_ids (st : Store) (messages : list Msg)
      (platform : string) (session_id : option string) (now : Now) :
  let sid := if ChatParser.falsy session_id
             then platform ++ "_" ++ stamp now
             else get session_id "" in
  snd (ChatParser.save_to_database st messages platform session_id now) = sid
  /\ ids_kept st
       (fst (ChatParser.save_to_database st messages platform session_id now))
       [sid]
  /\ exists st1,
       chat_messages st1 = chat_messages st
       /\ fst (ChatParser.save_to_database st messages platform session_id now)
          = fst (fst (ChatDatabase.save_chat_messages
                        st1 sid (ChatParser.enumerate_from 0 messages)
                        (instant now))).
Proof.
  intros sid. unfold ChatParser.save_to_database. fold sid.
  match goal with
  | |- context [ChatDatabase.save_chat_session st ?d ?t] =>
      destruct (ChatDatabase.save_chat_session st d t) as [[st1 sid1]|e] eqn:Hsave
  end.
  2:{ unfold ChatDatabase.save_chat_session in Hsave.
      cbn [sd_session_id bind subscript] in Hsave. discriminate. }
  assert (Hsid : sid1 = sid).
  { unfold ChatDatabase.save_chat_session in Hsave.
    cbn [sd_session_id bind subscript] in Hsave. now injection Hsave. }
  subst sid1. apply save_chat_session_ids in Hsave. destruct Hsave as [Hk Hm].
  pose proof (save_chat_messages_sessions sid (instant now)
                (ChatParser.enumerate_from 0 messages) st1) as Hs.
  assert (Hst : forall r : Store * Z * list Event,
             fst (let '(st2, _, _) := r in (st2, sid)) = fst (fst r)
             /\ snd (let '(st2, _, _) := r in (st2, sid)) = sid)
    by (intros [[? ?] ?]; split; reflexivity).
  match goal with
  | |- context [ChatDatabase.save_chat_messages st1 sid ?l ?t] =>
      destruct (Hst (ChatDatabase.save_chat_messages st1 sid l t)) as [H1 H2]
  end.
  rewrite H1, H2. split; [reflexivity|]. split.
  - destruct Hk as (g & Heq & Hnew). exists g. rewrite Hs. auto.
  - exists st1. auto.
Qed.

Lemma cleanup_ids (st : Store) (now : Time) :
  ids_kept st (fst (fst (ChatDatabase.cleanup_duplicate_chat_sessions st now)))
           [].
Proof.
  destruct (ChatDatabase.find_duplicate_chat_sessions st) as [|g gs] eqn:Hfind.
  - unfold ChatDatabase.cleanup_duplicate_chat_sessions. rewrite Hfind.
    cbn [fst]. now apply ids_kept_same.
  - rewrite cleanup_unfold by (rewrite Hfind; discriminate). cbn [fst].
    destruct (fold_cleanup_sessions now
                (ChatDatabase.find_duplicate_chat_sessions st)
                (mkCleanupLoop st 0 0 0 0 [])) as (f & Hf & Heq).
    eapply ids_kept_reshaped; [|exact Heq]. intros x. apply Hf.
Qed.

(** ** From the page to the store *)

Lemma contains_app (c : ascii) (a b : string) :
  Str.contains c (a ++ b) = Str.contains c a || Str.contains c b.
Proof.
  induction a as [|x a IH]; cbn; [reflexivity|].
  now rewrite IH, orb_assoc.
Qed.

Lemma detect_platform_known (page_text base_name : string) :
  In (ChatParserHtml._detect_platform_from_html page_text base_name)
     ["upwork"; "linkedin"; "discord"; "teams"; "slack"; "unknown"].
Proof.
  unfold ChatParserHtml._detect_platform_from_html.
  repeat match goal with
         | |- context [if ?b then _ else _] => destruct b
         end; cbn; tauto.
Qed.

(** X4.  The session ids that the parser makes up hold no comma.  The
    platform that [_detect_platform_from_html] returns is one of six fixed
    names, whatever the page and the file name; [process_incremental]
    called with it, on a store whose session ids hold no comma and at a
    stamp that holds none, leaves a store whose session ids hold none, and
    so does a reconciliation pass after it; so does [save_to_database],
    which writes the session of the scrape under the platform and the
    stamp. *)
Theorem parsed_scrapes_keep_ids_comma_free :
  forall (first_of_set : list string -> string) (st : Store)
         (messages : list Msg) (page_text base_name : string)
         (now : Now) (later : Time),
    comma_free st ->
    Str.contains "," (stamp now) = false ->
    let platform :=
      ChatParserHtml._detect_platform_from_html page_text base_name in
    let st' :=
      fst (ChatParser.process_incremental first_of_set st messages platform
                                          now) in
    In platform ["upwork"; "linkedin"; "discord"; "teams"; "slack"; "unknown"]
    /\ comma_free st'
    /\ comma_free
         (fst (fst (ChatDatabase.cleanup_duplicate_chat_sessions st' later)))
    /\ comma_free
         (fst (ChatParser.save_to_database st messages platform None now))
    /\ comma_free
         (fst (fst (ChatDatabase.cleanup_duplicate_chat_sessions
                      (fst (ChatParser.save_to_database st messages platform
                                                        None now))
                      later))).
Proof.
  intros pick st messages page_text base_name now later Hst Hstamp platform st'.
  pose proof (detect_platform_known page_text base_name) as Hknown.
  fold platform in Hknown.
  assert (Hst' : comma_free st').
  { subst st'. now rewrite process_incremental_writes_nothing. }
  assert (Hsaved :
    comma_free (fst (ChatParser.save_to_database st messages platform None
                                                 now))).
  { destruct (save_to_database_ids st messages platform None now)
      as (_ & Hk & _).
    cbn [ChatParser.falsy] in Hk.
    eapply ids_kept_comma_free; [exact Hk| |exact Hst].
    intros sid [<-|[]]. rewrite !contains_app, Hstamp.
    cbn in Hknown.
    destruct Hknown as [<-|[<-|[<-|[<-|[<-|[<-|[]]]]]]]; reflexivity. }
  split; [exact Hknown|]. split; [exact Hst'|].
  split; [|split; [exact Hsaved|]].
  - eapply ids_kept_comma_free; [apply cleanup_ids| |exact Hst'].
    intros sid [].
  - eapply ids_kept_comma_free; [apply cleanup_ids| |exact Hsaved].
    intros sid [].
Qed.

Lemma parsed_scrapes_keep_ids_comma_free_witness :
  comma_free
    (fst (ChatParser.save_to_database
            empty_store Sample.first_scrape
            (ChatParserHtml._detect_platform_from_html
               "Messages - Upwork" "chat_raw_20250101.html")
            None Sample.noon)).
Proof.
  apply (parsed_scrapes_keep_ids_comma_free
           Sample.first_inserted empty_store Sample.first_scrape
           "Messages - Upwork" "chat_raw_20250101.html" Sample.noon 0).
  - intros s [].
  - reflexivity.
Defined.

Lemma parse_elements_fields (hash : string -> Z) (platform : string)
      (elements : list Element) :
  Forall (fun msg =>
            exists element,
              In element elements
              /\ ChatParserHtml._extract_message_data hash element platform
                 = Some msg)
         (ChatParserHtml.parse_elements hash platform elements).
Proof.
  induction elements as [|element rest IH]; cbn; [constructor|].
  assert (Hweak :
    Forall (fun msg =>
              exists el, In el (element :: rest)
                         /\ ChatParserHtml._extract_message_data hash el platform
                            = Some msg)
           (ChatParserHtml.parse_elements hash platform rest)).
  { eapply Forall_impl; [|exact IH]. intros msg (el & Hin & H).
    exists el. split; [now right|exact H]. }
  destruct (ChatParserHtml._extract_message_data hash element platform)
    as [msg|] eqn:Hx; [|exact Hweak].
  constructor; [|exact Hweak]. exists element. split; [now left|exact Hx].
Qed.

Lemma extract_message_data_fields (hash : string -> Z) (element : Element)
      (platform : string) (msg : Msg) :
  ChatParserHtml._extract_message_data hash element platform = Some msg ->
  (2 <= Str.len (el_text element))%nat
  /\ msg_message_id msg
     = Some (platform ++ "_" ++ Str.of_Z (hash (el_text element)) ++ "_"
                      ++ el_timestamp element)
  /\ msg_sender msg = Some (el_sender element)
  /\ msg_sender_type msg
     = Some (ChatParserHtml._determine_message_type element (el_text element))
  /\ msg_text msg = Some (el_text element)
  /\ msg_timestamp msg = Some (el_timestamp element)
  /\ msg_order msg = Some 0.
Proof.
  unfold ChatParserHtml._extract_message_data.
  destruct (Str.len (el_text element) <? 2)%nat eqn:Hlen;
    [discriminate|].
  intros H. injection H as <-. cbn.
  apply Nat.ltb_ge in Hlen. auto 10.
Qed.

(** X5.  The messages that the platform parsers build from HTML elements
    carry all six fields, so that the creating ingest reports no failure
    for them: [save_chat_messages] reports nothing on such a list, whether
    or not [save_to_database] has numbered it, for any store and session
    id. *)
Theorem parsed_messages_are_saved_without_error :
  forall (hash : string -> Z) (st : Store) (elements : list Element)
         (parsed_as sid : string) (now : Time),
    let messages := ChatParserHtml.parse_elements hash parsed_as elements in
    Forall (fun msg => well_formed msg = true /\ msg_order msg = Some 0)
           messages
    /\ snd (ChatDatabase.save_chat_messages st sid messages now) = []
    /\ snd (ChatDatabase.save_chat_messages
              st sid (ChatParser.enumerate_from 0 messages) now) = [].
Proof.
  intros hash st elements parsed_as sid now messages.
  pose proof (parse_elements_fields hash parsed_as elements) as Hall.
  fold messages in Hall.
  assert (Hwf : Forall (fun msg => well_formed msg = true
                                   /\ msg_order msg = Some 0) messages).
  { eapply Forall_impl; [|exact Hall]. intros m (el & _ & Hx).
    apply extract_message_data_fields in Hx.
    destruct Hx as (_ & Hid & Hw & Hk & Ht & Hts & Ho).
    unfold well_formed, first_missing.
    rewrite Hid, Hw, Hk, Ht, Hts, Ho. auto. }
  assert (Hnone : forall l, Forall (fun msg => well_formed msg = true) l ->
                            reported l = []).
  { induction 1 as [|x l Hx _ IH]; [reflexivity|].
    unfold reported in *. cbn [flat_map]. rewrite IH.
    unfold well_formed in Hx. destruct (first_missing x); [discriminate|].
    reflexivity. }
  split; [exact Hwf|]. split.
  - unfold ChatDatabase.save_chat_messages. cbn [snd].
    rewrite fold_save_message_log. cbn [sl_log app]. apply Hnone.
    eapply Forall_impl; [|exact Hwf]. cbn. tauto.
  - unfold ChatDatabase.save_chat_messages. cbn [snd].
    rewrite fold_save_message_log. cbn [sl_log app]. apply Hnone.
    clear Hall. generalize 0 at 1. induction Hwf as [|x l [Hx _] _ IH];
      intros i; cbn [ChatParser.enumerate_from]; constructor; [|apply IH].
    unfold well_formed, first_missing in *. cbn.
    destruct (msg_message_id x); [|discriminate].
    destruct (msg_sender x); [|discriminate].
    destruct (msg_sender_type x); [|discriminate].
    destruct (msg_text x); [|discriminate].
    destruct (msg_timestamp x); [|discriminate]. reflexivity.
Qed.

(** ** Message direction from the [class] attribute *)

Lemma prefix_nil (text : string) : String.prefix "" text = true.
Proof. destruct text; reflexivity. Qed.

Lemma prefix_split (word text : string) :
  String.prefix word text = true <-> exists after, text = word ++ after.
Proof.
  revert text. induction word as [|a word IH]; intros text.
  - split; [intros _; now exists text|intros _; apply prefix_nil].
  - destruct text as [|b text]; cbn.
    + split; [discriminate|]. intros (after & H). discriminate.
    + destruct (ascii_dec a b) as [->|Hne].
      * rewrite IH. split; intros (after & H); exists after.
        -- now rewrite H.
        -- now injection H.
      * split; [discriminate|]. intros (after & H). injection H as H _.
        congruence.
Qed.

Lemma is_in_split (word text : string) :
  ChatParserHtml.is_in word text = true <->
  exists before after, text = before ++ word ++ after.
Proof.
  induction text as [|a text IH]; cbn [ChatParserHtml.is_in].
  - destruct (String.prefix word "") eqn:Hp.
    + split; [intros _|reflexivity].
      apply prefix_split in Hp. destruct Hp as (after & ->). now exists "", after.
    + split; [discriminate|]. intros (before & after & H).
      destruct before; [|discriminate]. cbn in H.
      assert (Hc : String.prefix word "" = true)
        by (apply prefix_split; now exists after).
      congruence.
  - destruct (String.prefix word (String a text)) eqn:Hp.
    + split; [intros _|reflexivity].
      apply prefix_split in Hp. destruct Hp as (after & ->). now exists "", after.
    + rewrite IH. split.
      * intros (before & after & ->). now exists (String a before), after.
      * intros (before & after & H). destruct before as [|b before].
        -- cbn in H.
           assert (Hc : String.prefix word (String a text) = true)
             by (apply prefix_split; now exists after).
           congruence.
        -- injection H as _ ->. now exists before, after.
Qed.

Lemma is_in_app_r (word before text : string) :
  ChatParserHtml.is_in word text = true ->
  ChatParserHtml.is_in word (before ++ text) = true.
Proof.
  rewrite !is_in_split. intros (p & q & ->).
  exists (before ++ p), q. now rewrite append_assoc.
Qed.

Lemma is_in_app_l (word text after : string) :
  ChatParserHtml.is_in word text = true ->
  ChatParserHtml.is_in word (text ++ after) = true.
Proof.
  rewrite !is_in_split. intros (p & q & ->).
  exists p, (q ++ after). now rewrite !append_assoc.
Qed.

Lemma is_in_trans (a b c : string) :
  ChatParserHtml.is_in a b = true -> ChatParserHtml.is_in b c = true ->
  ChatParserHtml.is_in a c = true.
Proof.
  intros Hab Hbc. apply is_in_split in Hbc. destruct Hbc as (p & q & ->).
  now apply is_in_app_r, is_in_app_l.
Qed.

Lemma lower_app (a b : string) :
  ChatParserHtml.lower (a ++ b)
  = ChatParserHtml.lower a ++ ChatParserHtml.lower b.
Proof.
  induction a as [|x a IH]; cbn; [reflexivity|]. now rewrite IH.
Qed.

Lemma is_in_join (sep c : string) (classes : list string) :
  In c classes -> ChatParserHtml.is_in c (Str.join sep classes) = true.
Proof.
  induction classes as [|x rest IH]; intros Hin; [destruct Hin|].
  destruct rest as [|y rest'].
  - destruct Hin as [<-|[]]. cbn [Str.join]. apply is_in_split.
    exists "", "". cbn. now rewrite append_nil_r.
  - change (Str.join sep (x :: y :: rest'))
      with (x ++ sep ++ Str.join sep (y :: rest')).
    destruct Hin as [<-|Hin].
    + apply is_in_split. now exists "", (sep ++ Str.join sep (y :: rest')).
    + apply is_in_app_r, is_in_app_r, IH, Hin.
Qed.

Lemma is_in_lower (a b : string) :
  ChatParserHtml.is_in a b = true ->
  ChatParserHtml.is_in (ChatParserHtml.lower a) (ChatParserHtml.lower b) = true.
Proof.
  intro H. apply is_in_split in H. destruct H as (p & q & ->).
  rewrite !lower_app. apply is_in_split. eauto.
Qed.

(** X6.  An element with a class that holds, in any case, one of the
    words "sent", "outgoing", "own", "me" is an outgoing message for
    [_determine_message_type], whatever its other classes say; "message"
    holds "me", so that every element that one of the class selectors of
    the parsers picks for its "message" class is stored as outgoing. *)
Theorem message_class_reads_as_outgoing :
  forall (hash : string -> Z) (element : Element) (platform c : string)
         (msg : Msg),
    In c (el_class element) ->
    ChatParserHtml.is_in "sent" (ChatParserHtml.lower c) = true
    \/ ChatParserHtml.is_in "outgoing" (ChatParserHtml.lower c) = true
    \/ ChatParserHtml.is_in "own" (ChatParserHtml.lower c) = true
    \/ ChatParserHtml.is_in "me" (ChatParserHtml.lower c) = true
    \/ ChatParserHtml.is_in "message" (ChatParserHtml.lower c) = true ->
    ChatParserHtml._extract_message_data hash element platform = Some msg ->
    (forall text,
       ChatParserHtml._determine_message_type element text = "outgoing")
    /\ msg_sender_type msg = Some "outgoing".
Proof.
  intros hash element platform c msg Hin Hword Hx.
  apply extract_message_data_fields in Hx.
  destruct Hx as (_ & _ & _ & -> & _).
  assert (Hout : forall text,
             ChatParserHtml._determine_message_type element text = "outgoing").
  { intros text.
    unfold ChatParserHtml._determine_message_type.
    pose proof (is_in_lower _ _ (is_in_join " " c (el_class element) Hin))
      as Hc.
    assert (Hany : forall w, ChatParserHtml.is_in w (ChatParserHtml.lower c)
                             = true ->
                   ChatParserHtml.is_in
                     w (ChatParserHtml.lower (Str.join " " (el_class element)))
                   = true)
      by (intros w Hw; exact (is_in_trans _ _ _ Hw Hc)).
    cbn [existsb].
    destruct Hword as [H|[H|[H|[H|H]]]].
    - now rewrite (Hany _ H).
    - rewrite (Hany _ H). now rewrite !orb_true_r.
    - rewrite (Hany _ H). now rewrite !orb_true_r.
    - rewrite (Hany _ H). now rewrite !orb_true_r.
    - assert (Hme : ChatParserHtml.is_in "me" (ChatParserHtml.lower c) = true)
        by (apply (is_in_trans _ "message"); [reflexivity|exact H]).
      rewrite (Hany _ Hme). now rewrite !orb_true_r. }
  split; [exact Hout|]. now rewrite Hout.
Qed.

Lemma message_class_reads_as_outgoing_witness :
  ChatParserHtml._determine_message_type
    (mkElement "Thanks, see you on Monday" "10:41" "Alice"
               ["message-item"; "received"])
    "Thanks, see you on Monday"
  = "outgoing".
Proof.
  refine (proj1 (message_class_reads_as_outgoing
                   (fun _ => 0)
                   (mkElement "Thanks, see you on Monday" "10:41" "Alice"
                              ["message-item"; "received"])
                   "upwork" "message-item"
                   (mkMsg (Some "upwork_0_10:41") (Some "Alice")
                          (Some "outgoing") (Some "Thanks, see you on Monday")
                          (Some "10:41") (Some 0))
                   _ _ _) _).
  - cbn. tauto.
  - do 4 right. reflexivity.
  - reflexivity.
Defined.

(** ** The read methods *)

Lemma firstn_In {A} (n : nat) (l : list A) (x : A) :
  In x (firstn n l) -> In x l.
Proof.
  intro H. rewrite <- (firstn_skipn n l). apply in_or_app. now left.
Qed.

Lemma insert_by_last {A} (before : A -> A -> bool) (x : A) (l : list A) :
  (forall y, In y l -> before x y = false) ->
  insert_by before x l = (l ++ [x])%list.
Proof.
  induction l as [|y l IH]; intros H; cbn; [reflexivity|].
  rewrite (H y (or_introl eq_refl)). f_equal. apply IH.
  intros z Hz. apply H. now right.
Qed.

Lemma insert_by_first {A} (before : A -> A -> bool) (x : A) (l : list A) :
  (forall y, In y l -> before x y = true) ->
  insert_by before x l = x :: l.
Proof.
  destruct l as [|y l]; intros H; cbn; [reflexivity|].
  now rewrite (H y (or_introl eq_refl)).
Qed.

(** Rows whose order positions grow strictly come back reversed from
    [ORDER BY message_order DESC], and as they are from [ASC]. *)
Lemma order_by_desc_rev (l : list Message) :
  StronglySorted Z.lt (map message_order l) ->
  order_by (fun a b => message_order b <=? message_order a) l = rev l.
Proof.
  induction l as [|x l IH]; intros Hs; cbn; [reflexivity|].
  cbn in Hs. inversion Hs as [|? ? Hl Hx]; subst.
  unfold order_by in IH. rewrite (IH Hl). apply insert_by_last.
  intros y Hy. apply in_rev in Hy. rewrite Forall_forall in Hx.
  apply Z.leb_gt. apply Hx. now apply in_map.
Qed.

Lemma order_by_asc_id (l : list Message) :
  StronglySorted Z.lt (map message_order l) ->
  order_by (fun a b => message_order a <=? message_order b) l = l.
Proof.
  induction l as [|x l IH]; intros Hs; cbn; [reflexivity|].
  cbn in Hs. inversion Hs as [|? ? Hl Hx]; subst.
  unfold order_by in IH. rewrite (IH Hl). apply insert_by_first.
  intros y Hy. rewrite Forall_forall in Hx.
  apply Z.leb_le, Z.lt_le_incl. apply Hx. now apply in_map.
Qed.

Lemma leb_desc_total {A} (f : A -> Z) (a b : A) :
  (f b <=? f a) = true \/ (f a <=? f b) = true.
Proof. rewrite !Z.leb_le. lia. Qed.

Lemma leb_desc_trans {A} (f : A -> Z) (a b c : A) :
  (f b <=? f a) = true -> (f c <=? f b) = true -> (f c <=? f a) = true.
Proof. rewrite !Z.leb_le. lia. Qed.

(** X7.  [get_latest_messages] never returns more than [limit] messages
    when the limit is not negative, and all of them belong to the
    session.  For a session whose order positions grow along its rows,
    which is what the ingest and the merge keep, the result is the last
    [limit] rows of the session, the newest first; a negative limit
    returns the whole session, newest first. *)
Theorem get_latest_messages_newest_first :
  forall (st : Store) (sid : string) (lim : Z),
    (0 <= lim ->
     (List.length (ChatDatabaseReads.get_latest_messages st sid lim)
      <= Z.to_nat lim)%nat)
    /\ (forall v, In v (ChatDatabaseReads.get_latest_messages st sid lim) ->
          exists m, In m (chat_messages st) /\ m_session_id m = sid
                    /\ v = ChatDatabaseReads.view_message m)
    /\ (StronglySorted Z.lt (map message_order (messages_of st sid)) ->
        ChatDatabaseReads.get_latest_messages st sid lim
        = map ChatDatabaseReads.view_message
              (if lim <? 0 then rev (messages_of st sid)
               else firstn (Z.to_nat lim) (rev (messages_of st sid)))).
Proof.
  intros st sid lim. unfold ChatDatabaseReads.get_latest_messages.
  split; [|split].
  - intros Hlim. rewrite length_map. unfold ChatDatabaseReads.limit.
    destruct (lim <? 0) eqn:Hneg; [apply Z.ltb_lt in Hneg; lia|].
    apply firstn_le_length.
  - intros v Hin. apply in_map_iff in Hin. destruct Hin as (m & <- & Hin).
    exists m.
    assert (Hm : In m (messages_of st sid)).
    { apply (order_by_In (fun a b => message_order b <=? message_order a)).
      unfold ChatDatabaseReads.limit in Hin.
      destruct (lim <? 0); [exact Hin|].
      eapply firstn_In; exact Hin. }
    apply filter_In in Hm. destruct Hm as [Hm Hown].
    apply String.eqb_eq in Hown. auto.
  - intros Hs. rewrite (order_by_desc_rev _ Hs). reflexivity.
Qed.

Lemma get_latest_messages_newest_first_witness :
  ChatDatabaseReads.get_latest_messages Sample.trio_store "erin_b" 2
  = [mkMessageView "Erin" "incoming" "thanks" "12:00" 6;
     mkMessageView "me" "incoming" "fixed" "12:00" 5].
Proof.
  rewrite (proj2 (proj2 (get_latest_messages_newest_first
                           Sample.trio_store "erin_b" 2))).
  - reflexivity.
  - vm_compute. repeat constructor.
Defined.

(** X8.  [get_latest_session] answers None exactly when no session has
    the status 'active'; otherwise it returns the columns of an active
    session whose last activity no active session exceeds.  Sessions of
    another status are never returned, which the resolver of the parser
    does not ensure. *)
Theorem get_latest_session_most_recent_active :
  forall st : Store,
    (ChatDatabaseReads.get_latest_session st = None <->
     forall s, In s (chat_sessions st) -> status s <> "active")
    /\ (forall v, ChatDatabaseReads.get_latest_session st = Some v ->
        exists row,
          In row (chat_sessions st) /\ status row = "active"
          /\ v = mkSessionView (session_id row) (chat_platform row)
                               (chat_title row) (participant_name row)
                               (last_activity row) (total_messages row)
                               (chat_url row)
          /\ forall other,
              In other (chat_sessions st) -> status other = "active" ->
              last_activity other <= last_activity row).
Proof.
  intros st. unfold ChatDatabaseReads.get_latest_session.
  destruct (order_by (fun a b => last_activity b <=? last_activity a)
              (filter (fun s => String.eqb (status s) "active")
                      (chat_sessions st))) as [|row rest] eqn:E.
  - apply order_by_nil in E. split; [|discriminate].
    split; [intros _|reflexivity].
    intros s Hs Hact.
    assert (Hin : In s (filter (fun s => String.eqb (status s) "active")
                               (chat_sessions st))).
    { apply filter_In. split; [exact Hs|]. now apply String.eqb_eq. }
    rewrite E in Hin. destruct Hin.
  - apply (order_by_head _ (leb_desc_total last_activity)
                         (leb_desc_trans last_activity)) in E.
    destruct E as [Hrow Hmax]. apply filter_In in Hrow.
    destruct Hrow as [Hin Hact]. apply String.eqb_eq in Hact. split.
    + split; [discriminate|]. intros H. elim (H row Hin Hact).
    + intros v Hv. injection Hv as <-. exists row.
      repeat split; auto. intros other Ho Hoa.
      apply Z.leb_le. apply Hmax. apply filter_In. split; [exact Ho|].
      now apply String.eqb_eq.
Qed.

Lemma map_unmatched {A} (test : A -> bool) (f : A -> A) (l : list A) :
  existsb test l = false -> map (fun x => if test x then f x else x) l = l.
Proof.
  induction l as [|x l IH]; cbn; [reflexivity|].
  intros H. apply orb_false_iff in H. destruct H as [Hx Hl].
  now rewrite Hx, IH.
Qed.

Lemma filter_map_kept {A} (test : A -> bool) (f : A -> A) (l : list A) :
  (forall x, test (f x) = test x) ->
  filter test (map f l) = map f (filter test l).
Proof.
  intros Hf. induction l as [|x l IH]; cbn; [reflexivity|].
  rewrite Hf. destruct (test x); cbn; now rewrite IH.
Qed.

(** X9.  [update_session_phase] returns True exactly when a session has
    the id; if none has, the store is left as it was.  Otherwise
    [get_session_with_phase] reads the phase, the confidence and the
    instant of the call back, beside the columns that it read before; the
    sessions of any other id read as before, and no message row
    changes. *)
Theorem update_session_phase_read_back :
  forall (st : Store) (sid p : string) (confidence : float) (now : Time),
    let st' := fst (ChatDatabase.update_session_phase st sid p confidence now) in
    let updated :=
      snd (ChatDatabase.update_session_phase st sid p confidence now) in
    (updated = true <->
     ChatDatabaseReads.get_session_with_phase st sid <> None)
    /\ (updated = false -> st' = st)
    /\ (forall v, ChatDatabaseReads.get_session_with_phase st sid = Some v ->
          ChatDatabaseReads.get_session_with_phase st' sid
          = Some (with_phase v p confidence now))
    /\ (forall other, other <> sid ->
          ChatDatabaseReads.get_session_with_phase st' other
          = ChatDatabaseReads.get_session_with_phase st other)
    /\ chat_messages st' = chat_messages st.
Proof.
  intros st sid p confidence now. cbn zeta.
  unfold ChatDatabase.update_session_phase. cbn [fst snd].
  unfold ChatDatabaseReads.get_session_with_phase. cbn [chat_sessions].
  split; [|split; [|split; [|split]]].
  - induction (chat_sessions st) as [|s l IH]; cbn.
    + split; [discriminate|]. intros H. now elim H.
    + destruct (String.eqb (session_id s) sid); cbn.
      * split; [discriminate|reflexivity].
      * exact IH.
  - intros Hnone. rewrite (map_unmatched _ _ _ Hnone). now destruct st.
  - intros v.
    rewrite (filter_map_kept (fun s => String.eqb (session_id s) sid)).
    2:{ intros x. destruct (String.eqb (session_id x) sid) eqn:E; cbn;
          [exact E|exact E]. }
    destruct (filter (fun s => String.eqb (session_id s) sid) (chat_sessions st))
      as [|row rest] eqn:Hf; [discriminate|].
    assert (Hrow : String.eqb (session_id row) sid = true).
    { assert (Hin : In row (filter (fun s => String.eqb (session_id s) sid)
                                   (chat_sessions st)))
        by (rewrite Hf; now left).
      now apply filter_In in Hin. }
    intros H. injection H as <-. cbn [map]. rewrite Hrow. reflexivity.
  - intros other Hother.
    rewrite (filter_map_kept (fun s => String.eqb (session_id s) other)).
    2:{ intros x. destruct (String.eqb (session_id x) sid); reflexivity. }
    destruct (filter (fun s => String.eqb (session_id s) other)
                     (chat_sessions st)) as [|row rest] eqn:Hf; [reflexivity|].
    assert (Hrow : String.eqb (session_id row) other = true).
    { assert (Hin : In row (filter (fun s => String.eqb (session_id s) other)
                                   (chat_sessions st)))
        by (rewrite Hf; now left).
      now apply filter_In in Hin. }
    apply String.eqb_eq in Hrow. cbn [map].
    destruct (String.eqb (session_id row) sid) eqn:E; [|reflexivity].
    apply String.eqb_eq in E. congruence.
  - reflexivity.
Qed.

(** X10.  [save_chat_session] raises KeyError on a dict without a
    session id.  Otherwise [get_session_with_phase] reads back what was
    saved: the given columns or their defaults, the instant of the call
    as last activity, and no phase, whether or not the id was in the
    table; the sessions of any other id read as before. *)
Theorem save_chat_session_read_back :
  forall (st : Store) (data : SessionData) (now : Time),
    (sd_session_id data = None ->
     ChatDatabase.save_chat_session st data now
     = Raise (KeyError "session_id"))
    /\ (forall sid, sd_session_id data = Some sid ->
        exists st',
          ChatDatabase.save_chat_session st data now = Ok (st', sid)
          /\ ChatDatabaseReads.get_session_with_phase st' sid
             = Some (mkPhaseView sid
                       (Some (get (sd_platform data) "unknown"))
                       (Some (get (sd_title data) "Unknown Chat"))
                       (Some (get (sd_participant data) "Unknown"))
                       now (get (sd_total_messages data) 0) None None None)
          /\ forall other, other <> sid ->
               ChatDatabaseReads.get_session_with_phase st' other
               = ChatDatabaseReads.get_session_with_phase st other).
Proof.
  intros st data now. unfold ChatDatabase.save_chat_session. split.
  - intros ->. reflexivity.
  - intros sid ->. cbn [bind subscript]. eexists. split; [reflexivity|].
    unfold ChatDatabaseReads.get_session_with_phase,
      ChatDatabase.insert_or_replace_session.
    cbn [chat_sessions session_id]. split.
    + rewrite filter_app, filter_filter_negb. cbn.
      rewrite String.eqb_refl. reflexivity.
    + intros other Hother. rewrite filter_app. cbn [filter session_id].
      destruct (String.eqb sid other) eqn:E;
        [apply String.eqb_eq in E; congruence|].
      rewrite app_nil_r, filter_implied; [reflexivity|].
      intros x Hx. apply String.eqb_eq in Hx. subst other.
      apply negb_true_iff. apply String.eqb_neq. congruence.
Qed.

(** ** The dashboard *)

Lemma shown_before_total (a b : Session) :
  ChatDashboardGenerator.shown_before a b = true
  \/ ChatDashboardGenerator.shown_before b a = true.
Proof.
  unfold ChatDashboardGenerator.shown_before.
  rewrite !orb_true_iff, !andb_true_iff, !Z.ltb_lt, !Z.eqb_eq, !Z.leb_le. lia.
Qed.

Lemma shown_before_trans (a b c : Session) :
  ChatDashboardGenerator.shown_before a b = true ->
  ChatDashboardGenerator.shown_before b c = true ->
  ChatDashboardGenerator.shown_before a c = true.
Proof.
  unfold ChatDashboardGenerator.shown_before.
  rewrite !orb_true_iff, !andb_true_iff, !Z.ltb_lt, !Z.eqb_eq, !Z.leb_le. lia.
Qed.

(** X11.  The dashboard shows no chat exactly when no session is active.
    Otherwise it shows an active session that no active session exceeds
    in last activity, with at most a hundred of its messages; when the
    order positions of the session grow along its rows these are its
    first hundred rows, oldest first, so that the latest messages of a
    longer conversation are not shown.  The message total is the stored
    one, unless that is 0: then it is the number of messages shown. *)
Theorem dashboard_shows_first_hundred_messages :
  forall st : Store,
    (ChatDashboardGenerator.get_active_chat_content st = None <->
     forall s, In s (chat_sessions st) -> status s <> "active")
    /\ (forall chat,
          ChatDashboardGenerator.get_active_chat_content st = Some chat ->
          exists row,
            In row (chat_sessions st) /\ status row = "active"
            /\ ac_session_id chat = session_id row
            /\ (forall other,
                  In other (chat_sessions st) -> status other = "active" ->
                  last_activity other <= last_activity row)
            /\ (List.length (ac_messages chat) <= 100)%nat
            /\ (forall v, In v (ac_messages chat) ->
                  exists m, In m (messages_of st (session_id row))
                            /\ v = ChatDatabaseReads.view_message m)
            /\ (StronglySorted Z.lt
                  (map message_order (messages_of st (session_id row))) ->
                ac_messages chat
                = map ChatDatabaseReads.view_message
                      (firstn 100 (messages_of st (session_id row))))
            /\ (total_messages row <> 0 ->
                ac_total_messages chat = total_messages row)
            /\ (total_messages row = 0 ->
                ac_total_messages chat
                = Z.of_nat (List.length (ac_messages chat)))).
Proof.
  intros st. unfold ChatDashboardGenerator.get_active_chat_content.
  destruct (order_by ChatDashboardGenerator.shown_before
              (filter (fun s => String.eqb (status s) "active")
                      (chat_sessions st))) as [|row rest] eqn:E.
  - apply order_by_nil in E. split; [|discriminate].
    split; [intros _|reflexivity].
    intros s Hs Hact.
    assert (Hin : In s (filter (fun s => String.eqb (status s) "active")
                               (chat_sessions st))).
    { apply filter_In. split; [exact Hs|]. now apply String.eqb_eq. }
    rewrite E in Hin. destruct Hin.
  - apply (order_by_head _ shown_before_total shown_before_trans) in E.
    destruct E as [Hrow Hmax]. apply filter_In in Hrow.
    destruct Hrow as [Hin Hact]. apply String.eqb_eq in Hact. split.
    + split; [discriminate|]. intros H. elim (H row Hin Hact).
    + intros chat Hchat.
      remember (firstn 100
                  (order_by (fun a b => message_order a <=? message_order b)
                            (messages_of st (session_id row)))) as shown
        eqn:Hshown.
      injection Hchat as <-. exists row.
      cbn [ac_session_id ac_messages ac_total_messages]. subst shown.
      split; [exact Hin|]. split; [exact Hact|]. split; [reflexivity|].
      split; [|split; [|split; [|split; [|split]]]].
      * intros other Ho Hoa.
        assert (Hb : ChatDashboardGenerator.shown_before row other = true).
        { apply Hmax. apply filter_In. split; [exact Ho|].
          now apply String.eqb_eq. }
        unfold ChatDashboardGenerator.shown_before in Hb.
        rewrite orb_true_iff, andb_true_iff, Z.ltb_lt, Z.eqb_eq in Hb. lia.
      * rewrite length_map. apply firstn_le_length.
      * intros v Hv. apply in_map_iff in Hv. destruct Hv as (m & <- & Hm).
        exists m. split; [|reflexivity].
        apply (order_by_In (fun a b => message_order a <=? message_order b)).
        eapply firstn_In. exact Hm.
      * intros Hs. now rewrite (order_by_asc_id _ Hs).
      * intros Hne. apply Z.eqb_neq in Hne. now rewrite Hne.
      * intros ->. reflexivity.
Qed.

(** X12.  [time_ago] on the whole seconds elapsed since the timestamp:
    up to a minute reads "Just now", up to an hour in minutes, with
    "60 minutes ago" at the full hour, up to a day in hours from 1 to 23,
    then in days.  A timestamp that lies in the future is read as if it
    lay that much after the start of a past day: one second ahead reads
    like 86399 seconds ago. *)
Theorem time_ago_ranges :
  forall elapsed : Z,
    (0 <= elapsed <= 60 ->
     ChatDashboardGenerator.time_ago elapsed = "Just now")
    /\ (60 < elapsed <= 3600 ->
        ChatDashboardGenerator.time_ago elapsed
        = Str.of_Z (elapsed / 60) ++ " minutes ago"
        /\ 1 <= elapsed / 60 <= 60)
    /\ (3600 < elapsed < 86400 ->
        ChatDashboardGenerator.time_ago elapsed
        = Str.of_Z (elapsed / 3600) ++ " hours ago"
        /\ 1 <= elapsed / 3600 <= 23)
    /\ (86400 <= elapsed ->
        ChatDashboardGenerator.time_ago elapsed
        = Str.of_Z (elapsed / 86400) ++ " days ago"
        /\ 1 <= elapsed / 86400)
    /\ (elapsed < 0 ->
        ChatDashboardGenerator.time_ago elapsed
        = ChatDashboardGenerator.time_ago (elapsed mod 86400)
        /\ 0 <= elapsed mod 86400 < 86400).
Proof.
  intros elapsed. unfold ChatDashboardGenerator.time_ago. cbn zeta.
  split; [|split; [|split; [|split]]].
  - intros H. rewrite Z.div_small, Z.mod_small by lia. cbn [Z.ltb Z.compare].
    destruct (3600 <? elapsed) eqn:E1; [apply Z.ltb_lt in E1; lia|].
    destruct (60 <? elapsed) eqn:E2; [apply Z.ltb_lt in E2; lia|].
    reflexivity.
  - intros H. rewrite Z.div_small, Z.mod_small by lia. cbn [Z.ltb Z.compare].
    destruct (3600 <? elapsed) eqn:E1; [apply Z.ltb_lt in E1; lia|].
    destruct (60 <? elapsed) eqn:E2; [|apply Z.ltb_ge in E2; lia].
    split; [reflexivity|].
    split; [apply Z.div_le_lower_bound; lia|apply Z.div_le_upper_bound; lia].
  - intros H. rewrite Z.div_small, Z.mod_small by lia. cbn [Z.ltb Z.compare].
    destruct (3600 <? elapsed) eqn:E1; [|apply Z.ltb_ge in E1; lia].
    split; [reflexivity|].
    split; [apply Z.div_le_lower_bound; lia|].
    assert (elapsed / 3600 < 24) by (apply Z.div_lt_upper_bound; lia). lia.
  - intros H.
    assert (Hd : 1 <= elapsed / 86400) by (apply Z.div_le_lower_bound; lia).
    destruct (0 <? elapsed / 86400) eqn:E; [|apply Z.ltb_ge in E; lia].
    split; [reflexivity|exact Hd].
  - intros H.
    assert (Hm : 0 <= elapsed mod 86400 < 86400) by (apply Z.mod_pos_bound; lia).
    assert (Hd : elapsed / 86400 < 0) by (apply Z.div_lt_upper_bound; lia).
    destruct (0 <? elapsed / 86400) eqn:E; [apply Z.ltb_lt in E; lia|].
    rewrite (Z.div_small (elapsed mod 86400) 86400) by exact Hm.
    rewrite Z.mod_mod by lia. cbn [Z.ltb Z.compare].
    split; [reflexivity|exact Hm].
Qed.

(** ** The counts of a merge *)

Lemma merge_message_count (keep : string) (s : MergeLoop) (msg : Message) :
  count_messages (ml_store (ChatDatabase.merge_message keep s msg)) keep
  - ml_merged (ChatDatabase.merge_message keep s msg)
  = count_messages (ml_store s) keep - ml_merged s
  /\ ml_merged s <= ml_merged (ChatDatabase.merge_message keep s msg)
  /\ ml_skipped s <= ml_skipped (ChatDatabase.merge_message keep s msg).
Proof.
  destruct (merge_message_cases keep s msg)
    as [(_ & ->)|[(_ & st' & Hins & ->)|(e & ->)]];
    cbn [ml_store ml_merged ml_skipped]; try (repeat split; lia).
  apply insert_message_sessions in Hins. destruct Hins as (_ & _ & Happ & _).
  unfold count_messages.
  rewrite (messages_of_app (ml_store s) st' keep _ Happ)
    by (repeat constructor).
  rewrite length_app. cbn [List.length]. repeat split; lia.
Qed.

Lemma fold_merge_message_count (keep : string) (msgs : list Message) :
  forall s,
    count_messages
      (ml_store (fold_left (ChatDatabase.merge_message keep) msgs s)) keep
    - ml_merged (fold_left (ChatDatabase.merge_message keep) msgs s)
    = count_messages (ml_store s) keep - ml_merged s
    /\ ml_merged s <= ml_merged (fold_left (ChatDatabase.merge_message keep) msgs s)
    /\ ml_skipped s
       <= ml_skipped (fold_left (ChatDatabase.merge_message keep) msgs s).
Proof.
  induction msgs as [|m rest IH]; intros s; cbn [fold_left];
    [repeat split; lia|].
  destruct (IH (ChatDatabase.merge_message keep s m)) as (A & B & C).
  destruct (merge_message_count keep s m) as (A' & B' & C').
  repeat split; lia.
Qed.

Lemma merge_session_counts (keep : string) (s : MergeLoop) (r : string) :
  ml_removed (ChatDatabase.merge_session keep s r) = ml_removed s + 1
  /\ ml_merged s <= ml_merged (ChatDatabase.merge_session keep s r)
  /\ ml_skipped s <= ml_skipped (ChatDatabase.merge_session keep s r)
  /\ (r <> keep ->
      count_messages (ml_store (ChatDatabase.merge_session keep s r)) keep
      - ml_merged (ChatDatabase.merge_session keep s r)
      = count_messages (ml_store s) keep - ml_merged s).
Proof.
  unfold ChatDatabase.merge_session.
  cbn [ml_store ml_merged ml_skipped ml_removed].
  match goal with
  | |- context [fold_left (ChatDatabase.merge_message keep) ?l s] =>
      destruct (fold_merge_message_count keep l s) as (A & B & C);
      destruct (fold_merge_message_sessions keep l s) as (_ & D & _)
  end.
  rewrite D. repeat split; try lia.
  intros Hne. rewrite <- A. f_equal. unfold count_messages.
  rewrite messages_of_delete, (filter_not_owned r keep);
    [reflexivity|congruence|apply messages_of_owned].
Qed.

Lemma fold_merge_session_counts (keep : string) (removes : list string) :
  forall s,
    let s' := fold_left (ChatDatabase.merge_session keep) removes s in
    ml_removed s' = ml_removed s + Z.of_nat (List.length removes)
    /\ ml_merged s <= ml_merged s'
    /\ ml_skipped s <= ml_skipped s'
    /\ (~ In keep removes ->
        count_messages (ml_store s') keep - ml_merged s'
        = count_messages (ml_store s) keep - ml_merged s).
Proof.
  induction removes as [|r rest IH]; intros s; cbn [fold_left List.length].
  - repeat split; lia.
  - destruct (IH (ChatDatabase.merge_session keep s r)) as (A & B & C & D).
    destruct (merge_session_counts keep s r) as (A' & B' & C' & D').
    cbn zeta in *. repeat split; try lia.
    intros Hnot. rewrite D, D'; [reflexivity| |].
    + intros ->. apply Hnot. now left.
    + intros Hin. apply Hnot. now right.
Qed.

(** X13.  The counts that [merge_chat_sessions] returns.
    [sessions_removed] is the number of ids it was given, whether or not
    sessions of these ids exist.  When the surviving session is not
    among them, [total_messages_after] is [total_messages_before] plus
    [messages_merged], whatever writes failed, and it is the message
    total stored on the surviving session row. *)
Theorem merge_chat_sessions_counts_add_up :
  forall (st : Store) (keep : string) (removes : list string) (now : Time),
    let st' := fst (fst (ChatDatabase.merge_chat_sessions st keep removes now)) in
    let stats :=
      snd (fst (ChatDatabase.merge_chat_sessions st keep removes now)) in
    sessions_removed stats = Z.of_nat (List.length removes)
    /\ total_messages_before stats = count_messages st keep
    /\ total_messages_after stats = count_messages st' keep
    /\ 0 <= messages_merged stats
    /\ 0 <= duplicate_messages_skipped stats
    /\ (forall s, In s (sessions_named st' keep) ->
          total_messages s = total_messages_after stats)
    /\ (~ In keep removes ->
        total_messages_after stats
        = total_messages_before stats + messages_merged stats).
Proof.
  intros st keep removes now st' stats.
  pose proof (merge_chat_sessions_rollup st keep removes now) as Hroll.
  fold st' in Hroll.
  subst st' stats. unfold ChatDatabase.merge_chat_sessions in *.
  cbn [fst snd sessions_removed total_messages_before total_messages_after
       messages_merged duplicate_messages_skipped] in *.
  destruct (fold_merge_session_counts keep removes
              (mkMergeLoop st (max_message_order st keep) 0 0 0 []))
    as (A & B & C & D).
  cbn [ml_removed ml_merged ml_skipped ml_store] in *.
  split; [lia|]. split; [reflexivity|]. split; [reflexivity|].
  split; [exact B|]. split; [exact C|]. split; [exact Hroll|].
  intros Hnot. specialize (D Hnot).
  unfold count_messages at 1.
  unfold messages_of. rewrite update_session_rollup_messages.
  fold (messages_of
          (ml_store (fold_left (ChatDatabase.merge_session keep) removes
                               (mkMergeLoop st (max_message_order st keep)
                                            0 0 0 []))) keep).
  fold (count_messages
          (ml_store (fold_left (ChatDatabase.merge_session keep) removes
                               (mkMergeLoop st (max_message_order st keep)
                                            0 0 0 []))) keep).
  lia.
Qed.

Lemma merge_chat_sessions_counts_add_up_witness :
  total_messages_after
    (snd (fst (ChatDatabase.merge_chat_sessions
                 Sample.trio_store "erin_b" ["erin_a"; "erin_c"] 400)))
  = total_messages_before
      (snd (fst (ChatDatabase.merge_chat_sessions
                   Sample.trio_store "erin_b" ["erin_a"; "erin_c"] 400)))
    + messages_merged
        (snd (fst (ChatDatabase.merge_chat_sessions
                     Sample.trio_store "erin_b" ["erin_a"; "erin_c"] 400))).
Proof.
  apply (merge_chat_sessions_counts_add_up
           Sample.trio_store "erin_b" ["erin_a"; "erin_c"] 400).
  intros [H|[H|[]]]; discriminate.
Defined.

Lemma fold_merge_message_all_skipped (keep : string) (msgs : list Message) :
  forall s,
    (forall m, In m msgs ->
       message_exists (ml_store s) keep (sender m) (message_text m) = true) ->
    ml_store (fold_left (ChatDatabase.merge_message keep) msgs s) = ml_store s
    /\ ml_merged (fold_left (ChatDatabase.merge_message keep) msgs s)
       = ml_merged s
    /\ ml_skipped (fold_left (ChatDatabase.merge_message keep) msgs s)
       = ml_skipped s + Z.of_nat (List.length msgs).
Proof.
  induction msgs as [|m rest IH]; intros s H; cbn [fold_left List.length].
  - repeat split; lia.
  - assert (Hm : ChatDatabase.merge_message keep s m
                 = mkMergeLoop (ml_store s) (ml_max_order s) (ml_merged s)
                     (ml_skipped s + 1) (ml_removed s)
                     (ml_log s ++ [Skipped (sender m) (message_text m)])).
    { unfold ChatDatabase.merge_message.
      now rewrite (H m (or_introl eq_refl)). }
    rewrite Hm.
    destruct (IH (mkMergeLoop (ml_store s) (ml_max_order s) (ml_merged s)
                    (ml_skipped s + 1) (ml_removed s)
                    (ml_log s ++ [Skipped (sender m) (message_text m)])))
      as (A & B & C).
    { intros x Hx. cbn [ml_store]. apply H. now right. }
    cbn [ml_store ml_merged ml_skipped] in *. repeat split; try assumption.
    lia.
Qed.

(** X14.  [merge_chat_sessions] does not check that the surviving
    session is not among the sessions to remove.  If it is, its session
    row is deleted with the others; merged into itself alone, the
    session loses its row and every message, all of them counted as
    duplicates that were skipped, while the other sessions keep their
    rows and messages. *)
Theorem merge_into_itself_deletes_the_session :
  forall (st : Store) (keep : string) (removes : list string) (now : Time),
    In keep removes ->
    sessions_named
      (fst (fst (ChatDatabase.merge_chat_sessions st keep removes now))) keep
    = []
    /\ (removes = [keep] ->
        let st' :=
          fst (fst (ChatDatabase.merge_chat_sessions st keep removes now)) in
        let stats :=
          snd (fst (ChatDatabase.merge_chat_sessions st keep removes now)) in
        messages_of st' keep = []
        /\ messages_merged stats = 0
        /\ duplicate_messages_skipped stats = count_messages st keep
        /\ total_messages_after stats = 0
        /\ forall sid, sid <> keep ->
             messages_of st' sid = messages_of st sid
             /\ sessions_named st' sid = sessions_named st sid).
Proof.
  intros st keep removes now Hin. split.
  - rewrite (sessions_named_frame st _ _ removes keep
               (merge_chat_sessions_sessions st keep removes now)).
    + now rewrite (proj2 (mentioned_In removes keep) Hin).
    + intros x. destruct (String.eqb (session_id x) keep); reflexivity.
  - intros ->. cbn zeta.
    assert (Hgone :
      messages_of
        (fst (fst (ChatDatabase.merge_chat_sessions st keep [keep] now))) keep
      = []).
    { unfold ChatDatabase.merge_chat_sessions. cbn [fst fold_left].
      unfold messages_of. rewrite update_session_rollup_messages.
      apply merge_session_removed. }
    split; [exact Hgone|].
    split; [|split; [|split]].
    + unfold ChatDatabase.merge_chat_sessions, ChatDatabase.merge_session.
      cbn [fst snd fold_left messages_merged ml_merged ml_store].
      match goal with
      | |- context [fold_left (ChatDatabase.merge_message keep) ?l ?s] =>
          destruct (fold_merge_message_all_skipped keep l s) as (_ & B & _)
      end; [|exact B].
      intros m Hm. cbn [ml_store]. apply order_by_In in Hm.
      apply filter_In in Hm. destruct Hm as [Hm Hown].
      apply existsb_exists. exists m. split; [exact Hm|].
      apply has_key_own; auto. now apply String.eqb_eq.
    + unfold ChatDatabase.merge_chat_sessions, ChatDatabase.merge_session.
      cbn [fst snd fold_left duplicate_messages_skipped ml_skipped ml_store].
      match goal with
      | |- context [fold_left (ChatDatabase.merge_message keep) ?l ?s] =>
          destruct (fold_merge_message_all_skipped keep l s) as (_ & _ & C)
      end.
      * intros m Hm. cbn [ml_store]. apply order_by_In in Hm.
        apply filter_In in Hm. destruct Hm as [Hm Hown].
        apply existsb_exists. exists m. split; [exact Hm|].
        apply has_key_own; auto. now apply String.eqb_eq.
      * rewrite C. cbn [ml_skipped]. rewrite order_by_length. reflexivity.
    + change (total_messages_after
                (snd (fst (ChatDatabase.merge_chat_sessions st keep [keep] now))))
        with (count_messages
                (fst (fst (ChatDatabase.merge_chat_sessions st keep [keep] now)))
                keep).
      unfold count_messages. now rewrite Hgone.
    + intros sid Hsid. apply merge_chat_sessions_frame; [exact Hsid|].
      intros [H|[]]. congruence.
Qed.

Lemma merge_into_itself_deletes_the_session_witness :
  sessions_named
    (fst (fst (ChatDatabase.merge_chat_sessions
                 Sample.chat_1_store "chat_1" ["chat_1"] 200))) "chat_1"
  = [].
Proof.
  apply (merge_into_itself_deletes_the_session
           Sample.chat_1_store "chat_1" ["chat_1"] 200).
  now left.
Defined.

(** ** What the duplicate finder returns *)

Lemma split_acc_nonempty (c : ascii) (s cur : string) :
  Str.split_acc c s cur <> [].
Proof.
  revert cur. induction s as [|a s IH]; intros cur; cbn; [discriminate|].
  destruct (Ascii.eqb a c); [discriminate|apply IH].
Qed.

Lemma find_duplicate_In (st : Store) (g : DuplicateGroup) :
  In g (ChatDatabase.find_duplicate_chat_sessions st) <->
  exists k, (1 < List.length (members_of st k))%nat
            /\ g = ChatDatabase.group_row k (members_of st k).
Proof.
  unfold ChatDatabase.find_duplicate_chat_sessions. rewrite in_map_iff. split.
  - intros ([k m] & <- & Hin). apply duplicate_groups_In in Hin.
    destruct Hin as [-> Hlen]. exists k. auto.
  - intros (k & Hlen & ->). exists (k, members_of st k). split; [reflexivity|].
    apply duplicate_groups_In. auto.
Qed.

Lemma sorted_map {A B} (R : A -> A -> Prop) (S : B -> B -> Prop) (f : A -> B)
      (l : list A) :
  (forall a b, R a b -> S (f a) (f b)) ->
  StronglySorted R l -> StronglySorted S (map f l).
Proof.
  intros HRS. induction 1 as [|x l Hs IH Hall]; cbn; constructor; [exact IH|].
  rewrite Forall_forall in *. intros y Hy. apply in_map_iff in Hy.
  destruct Hy as (z & <- & Hz). apply HRS, Hall, Hz.
Qed.

(** X15.  Every group that [find_duplicate_chat_sessions] returns stands
    for a fingerprint that at least two sessions with a platform and a
    participant share; no fingerprint comes twice, and larger groups come
    first.  In a group [session_ids] is [keep_session] followed by
    [remove_sessions], and [message_counts] descends.  When no session id
    holds a comma, [session_ids] are the ids of the sessions of the
    group, as many as [duplicate_count], the one with the most messages
    first. *)
Theorem duplicate_groups_are_well_formed :
  forall st : Store,
    NoDup (map (fun g => (dg_platform g, dg_title g, dg_participant g))
               (ChatDatabase.find_duplicate_chat_sessions st))
    /\ StronglySorted (fun g h => duplicate_count h <= duplicate_count g)
                      (ChatDatabase.find_duplicate_chat_sessions st)
    /\ forall g,
         In g (ChatDatabase.find_duplicate_chat_sessions st) ->
         let k := (dg_platform g, dg_title g, dg_participant g) in
         2 <= duplicate_count g
         /\ duplicate_count g = Z.of_nat (List.length (members_of st k))
         /\ dg_platform g <> None /\ dg_participant g <> None
         /\ session_ids g = keep_session g :: remove_sessions g
         /\ StronglySorted Z.ge (message_counts g)
         /\ (comma_free st ->
             session_ids g
             = map session_id (order_by ranks_before (members_of st k))
             /\ Z.of_nat (List.length (session_ids g)) = duplicate_count g
             /\ forall s, In s (members_of st k) ->
                  exists top, In top (members_of st k)
                              /\ session_id top = keep_session g
                              /\ outranked_by s top).
Proof.
  intros st. split; [|split].
  - unfold ChatDatabase.find_duplicate_chat_sessions. rewrite map_map.
    rewrite (map_ext _ fst); [apply duplicate_groups_keys_NoDup|].
    intros [[[p t] n] m]. reflexivity.
  - unfold ChatDatabase.find_duplicate_chat_sessions,
      ChatDatabase.duplicate_groups.
    match goal with
    | |- StronglySorted _ (map _ (order_by ?b ?l)) =>
        pose proof (order_by_sorted b) as Hs; specialize (Hs
          ltac:(intros a c; rewrite !Nat.leb_le; lia)
          ltac:(intros a c d; rewrite !Nat.leb_le; lia) l)
    end.
    eapply sorted_map; [|exact Hs].
    intros a b Hab. cbn. apply Nat.leb_le in Hab. lia.
  - intros g Hg. apply find_duplicate_In in Hg. destruct Hg as (k & Hlen & ->).
    destruct k as [[p t] n]. cbn [dg_platform dg_title dg_participant
      ChatDatabase.group_row fst snd duplicate_count session_ids
      message_counts keep_session remove_sessions].
    set (k := (p, t, n)) in *.
    assert (Hmem : exists s, In s (members_of st k)).
    { destruct (members_of st k) as [|s rest]; [cbn in Hlen; lia|].
      exists s. now left. }
    destruct Hmem as (s0 & Hs0). apply members_of_In in Hs0.
    destruct Hs0 as (_ & Hgr & Hfp).
    unfold ChatDatabase.groupable in Hgr. apply andb_true_iff in Hgr.
    unfold ChatDatabase.fingerprint in Hfp. injection Hfp as Hp Ht Hn.
    split; [lia|]. split; [reflexivity|].
    split; [rewrite <- Hp; destruct (chat_platform s0); [discriminate|];
            cbn in Hgr; destruct Hgr; discriminate|].
    split; [rewrite <- Hn; destruct (participant_name s0); [discriminate|];
            cbn in Hgr; destruct Hgr; discriminate|].
    split.
    { unfold Str.split.
      pose proof (split_acc_nonempty ","
                    (Str.join "," (map session_id
                                       (order_by ranks_before (members_of st k))))
                    "") as Hne.
      destruct (Str.split_acc _ _ _); [congruence|reflexivity]. }
    split.
    { eapply sorted_map;
        [|apply (order_by_sorted _ ranks_before_total ranks_before_trans)].
      intros a b Hab. cbn beta in Hab. unfold ranks_before in Hab.
      rewrite orb_true_iff, andb_true_iff, Z.ltb_lt, Z.eqb_eq in Hab. lia. }
    intros Hc.
    assert (Hids : Str.split ","
                     (Str.join "," (map session_id
                                        (order_by ranks_before
                                                  (members_of st k))))
                   = map session_id (order_by ranks_before (members_of st k))).
    { apply split_join.
      - intros Hnil. apply map_eq_nil in Hnil. apply order_by_nil in Hnil.
        rewrite Hnil in Hlen. cbn in Hlen. lia.
      - intros x Hx. apply in_map_iff in Hx. destruct Hx as (s & <- & Hs).
        apply order_by_In in Hs. apply members_of_In in Hs. apply Hc, Hs. }
    rewrite Hids. split; [reflexivity|].
    split; [now rewrite length_map, order_by_length|].
    intros s Hs.
    destruct (order_by ranks_before (members_of st k)) as [|top rest] eqn:E.
    { apply order_by_nil in E. rewrite E in Hs. destruct Hs. }
    apply (order_by_head _ ranks_before_total ranks_before_trans) in E.
    destruct E as [Htop Hmax]. exists top. split; [exact Htop|].
    split; [reflexivity|]. apply ranks_before_outranked. now apply Hmax.
Qed.

(** ** The duplicate statistics and the cleanup *)

Lemma filter_map_swap {A B} (p : B -> bool) (f : A -> B) (l : list A) :
  filter p (map f l) = map f (filter (fun x => p (f x)) l).
Proof.
  induction l as [|x l IH]; cbn; [reflexivity|].
  destruct (p (f x)); cbn; now rewrite IH.
Qed.

Lemma total_perm (xs ys : list Z) : Permutation xs ys -> total xs = total ys.
Proof.
  unfold total. induction 1; cbn; lia.
Qed.

(** The counts of the statistics query are the sizes of the groups of
    the finder, up to their order. *)
Lemma group_counts_perm (st : Store) :
  Permutation (ChatDatabaseReads.group_counts st)
              (map duplicate_count
                   (ChatDatabase.find_duplicate_chat_sessions st)).
Proof.
  unfold ChatDatabaseReads.group_counts,
    ChatDatabase.find_duplicate_chat_sessions, ChatDatabase.duplicate_groups.
  cbn zeta. rewrite map_map. cbn [duplicate_count ChatDatabase.group_row].
  set (rows := filter ChatDatabase.groupable (chat_sessions st)).
  set (keys := distinct ChatDatabase.fingerprint_eqb
                        (map ChatDatabase.fingerprint rows)).
  match goal with
  | |- Permutation _ (map ?f (order_by ?b ?l)) =>
      apply (Permutation_trans (l' := map f l));
      [|apply Permutation_map, Permutation_sym, order_by_perm]
  end.
  rewrite filter_map_swap, filter_map_swap, map_map. cbn [snd].
  match goal with
  | |- Permutation (map ?f (filter ?p ?l)) (map ?g (filter ?q ?l)) =>
      rewrite (filter_ext p q); [apply Permutation_refl|]
  end.
  intros k. cbn [snd].
  destruct (1 <? List.length (filter (ChatDatabase.in_group k) rows))%nat eqn:E.
  - apply Nat.ltb_lt in E. apply Z.ltb_lt. lia.
  - apply Nat.ltb_ge in E. apply Z.ltb_ge. lia.
Qed.

Lemma cleanup_group_removed (now : Time) (s : CleanupLoop) (g : DuplicateGroup) :
  cl_removed (ChatDatabase.cleanup_group now s g)
  = cl_removed s + Z.of_nat (List.length (remove_sessions g)).
Proof.
  unfold ChatDatabase.cleanup_group, ChatDatabase.merge_chat_sessions.
  cbn [cl_removed sessions_removed].
  destruct (fold_merge_session_counts (keep_session g) (remove_sessions g)
              (mkMergeLoop (cl_store s)
                 (max_message_order (cl_store s) (keep_session g)) 0 0 0 []))
    as (A & _).
  cbn [ml_removed] in A. rewrite A. lia.
Qed.

Lemma fold_cleanup_removed (now : Time) (groups : list DuplicateGroup) :
  forall s,
    cl_removed (fold_left (ChatDatabase.cleanup_group now) groups s)
    = cl_removed s
      + total (map (fun g => Z.of_nat (List.length (remove_sessions g))) groups).
Proof.
  induction groups as [|g rest IH]; intros s; cbn [fold_left map].
  - unfold total. cbn. lia.
  - rewrite IH, cleanup_group_removed. unfold total. cbn. lia.
Qed.

Lemma cleanup_sessions_removed (st : Store) (now : Time) :
  cs_sessions_removed
    (snd (fst (ChatDatabase.cleanup_duplicate_chat_sessions st now)))
  = total (map (fun g => Z.of_nat (List.length (remove_sessions g)))
               (ChatDatabase.find_duplicate_chat_sessions st)).
Proof.
  destruct (ChatDatabase.find_duplicate_chat_sessions st) as [|g gs] eqn:Hfind.
  - unfold ChatDatabase.cleanup_duplicate_chat_sessions. rewrite Hfind.
    reflexivity.
  - rewrite cleanup_unfold by (rewrite Hfind; discriminate).
    cbn [fst snd cs_sessions_removed]. rewrite fold_cleanup_removed, Hfind.
    cbn [cl_removed]. lia.
Qed.

Lemma remove_sessions_length (st : Store) (g : DuplicateGroup) :
  comma_free st ->
  In g (ChatDatabase.find_duplicate_chat_sessions st) ->
  Z.of_nat (List.length (remove_sessions g)) = duplicate_count g - 1.
Proof.
  intros Hc Hg. apply find_duplicate_In in Hg. destruct Hg as (k & Hlen & ->).
  destruct (group_row_ids st k Hc Hlen) as (keep_row & rest & Hrank & _ & ->).
  cbn [duplicate_count ChatDatabase.group_row].
  rewrite <- (order_by_length ranks_before (members_of st k)), Hrank.
  rewrite length_map. cbn [List.length]. lia.
Qed.

Lemma stats_duplicate_sessions (st : Store) :
  ds_duplicate_sessions_count (ChatDatabaseReads.get_duplicate_chat_stats st)
  = total (map (fun g => duplicate_count g - 1)
               (ChatDatabase.find_duplicate_chat_sessions st)).
Proof.
  unfold ChatDatabaseReads.get_duplicate_chat_stats.
  cbn [ds_duplicate_sessions_count].
  rewrite <- (map_map duplicate_count (fun c => c - 1)).
  rewrite <- (total_perm _ _ (Permutation_map (fun c => c - 1)
                                              (group_counts_perm st))).
  unfold ChatDatabaseReads.sql_sum, total.
  destruct (map (fun count => count - 1) (ChatDatabaseReads.group_counts st));
    reflexivity.
Qed.

(** X16.  The dry run agrees with the cleanup.  The number of duplicate
    groups that [get_duplicate_chat_stats] reports is the number of
    groups that [find_duplicate_chat_sessions] returns, and the number of
    potential duplicates is the sum of their sizes less one each: it is 0
    exactly when there is no group.  When no session id holds a comma, it
    is the number of sessions that a cleanup of the same store reports as
    removed, and after the cleanup the statistics show no group and no
    potential duplicate. *)
Theorem duplicate_stats_predict_cleanup :
  forall (st : Store) (now : Time),
    let stats := ChatDatabaseReads.get_duplicate_chat_stats st in
    let cleaned :=
      fst (fst (ChatDatabase.cleanup_duplicate_chat_sessions st now)) in
    ds_duplicate_groups stats
    = Z.of_nat (List.length (ChatDatabase.find_duplicate_chat_sessions st))
    /\ ds_potential_duplicates stats
       = total (map (fun g => duplicate_count g - 1)
                    (ChatDatabase.find_duplicate_chat_sessions st))
    /\ ds_potential_duplicates stats = ds_duplicate_sessions_count stats
    /\ (ds_potential_duplicates stats = 0 <->
        ChatDatabase.find_duplicate_chat_sessions st = [])
    /\ (comma_free st ->
        cs_sessions_removed
          (snd (fst (ChatDatabase.cleanup_duplicate_chat_sessions st now)))
        = ds_potential_duplicates stats
        /\ ds_duplicate_groups
             (ChatDatabaseReads.get_duplicate_chat_stats cleaned) = 0
        /\ ds_potential_duplicates
             (ChatDatabaseReads.get_duplicate_chat_stats cleaned) = 0).
Proof.
  intros st now stats cleaned.
  assert (Hgroups : forall st0,
             ds_duplicate_groups (ChatDatabaseReads.get_duplicate_chat_stats st0)
             = Z.of_nat (List.length
                           (ChatDatabase.find_duplicate_chat_sessions st0))).
  { intros st0. unfold ChatDatabaseReads.get_duplicate_chat_stats.
    cbn [ds_duplicate_groups].
    rewrite (Permutation_length (group_counts_perm st0)), length_map.
    reflexivity. }
  assert (Hpot : forall st0,
             ds_potential_duplicates
               (ChatDatabaseReads.get_duplicate_chat_stats st0)
             = total (map (fun g => duplicate_count g - 1)
                          (ChatDatabase.find_duplicate_chat_sessions st0))).
  { intros st0. rewrite <- stats_duplicate_sessions. reflexivity. }
  split; [apply Hgroups|]. split; [apply Hpot|]. split; [reflexivity|].
  split.
  - subst stats. rewrite Hpot. split.
    + intros Hzero.
      destruct (ChatDatabase.find_duplicate_chat_sessions st) as [|g gs] eqn:E;
        [reflexivity|exfalso].
      assert (Hall : forall h,
                 In h (ChatDatabase.find_duplicate_chat_sessions st) ->
                 1 <= duplicate_count h - 1).
      { intros h Hh. apply find_duplicate_In in Hh.
        destruct Hh as (k & Hlen & ->). cbn. lia. }
      rewrite E in Hall.
      assert (Hpos : forall l : list DuplicateGroup,
                 (forall h, In h l -> 1 <= duplicate_count h - 1) ->
                 0 <= total (map (fun g => duplicate_count g - 1) l)).
      { induction l as [|h l IH]; intros Hl; unfold total; cbn; [lia|].
        assert (0 <= total (map (fun g => duplicate_count g - 1) l))
          by (apply IH; intros x Hx; apply Hl; now right).
        unfold total in H.
        specialize (Hl h (or_introl eq_refl)). lia. }
      unfold total in Hzero, Hpos. cbn in Hzero.
      specialize (Hall g (or_introl eq_refl)) as Hg.
      assert (0 <= fold_right Z.add 0
                     (map (fun g => duplicate_count g - 1) gs))
        by (apply Hpos; intros x Hx; apply Hall; now right).
      lia.
    + intros ->. reflexivity.
  - intros Hc. split; [|split].
    + subst stats. rewrite Hpot, cleanup_sessions_removed. f_equal.
      apply map_ext_in. intros g Hg. now apply (remove_sessions_length st).
    + rewrite Hgroups, find_duplicate_nil; [reflexivity|].
      now apply cleanup_collapses.
    + rewrite Hpot, find_duplicate_nil; [reflexivity|].
      now apply cleanup_collapses.
Qed.

Lemma duplicate_stats_predict_cleanup_witness :
  cs_sessions_removed
    (snd (fst (ChatDatabase.cleanup_duplicate_chat_sessions
                 Sample.trio_store 400)))
  = ds_potential_duplicates
      (ChatDatabaseReads.get_duplicate_chat_stats Sample.trio_store).
Proof.
  apply (duplicate_stats_predict_cleanup Sample.trio_store 400).
  apply comma_free_check. vm_compute. reflexivity.
Defined.

Lemma filter_mentioned_length {A} (f : A -> string) (l : list A)
      (ids : list string) :
  NoDup (map f l) -> NoDup ids ->
  (forall x, In x ids -> In x (map f l)) ->
  List.length (filter (fun x => mentioned ids (f x)) l) = List.length ids.
Proof.
  intros Hl Hids Hincl.
  rewrite <- (length_map f (filter _ l)).
  apply Permutation_length, NoDup_Permutation;
    [now apply NoDup_map_filter|exact Hids|].
  intros x. rewrite in_map_iff. split.
  - intros (y & <- & Hy). apply filter_In in Hy. now apply mentioned_In.
  - intros Hx. destruct (proj1 (in_map_iff _ _ _) (Hincl x Hx)) as (y & <- & Hy).
    exists y. split; [reflexivity|]. apply filter_In. split; [exact Hy|].
    now apply mentioned_In.
Qed.

Lemma total_lengths (blocks : list (list string)) :
  total (map (fun b => Z.of_nat (List.length b)) blocks)
  = Z.of_nat (List.length (List.concat blocks)).
Proof.
  unfold total. induction blocks as [|b rest IH]; cbn; [reflexivity|].
  rewrite length_app, IH. lia.
Qed.

Lemma members_ids_NoDup (st : Store) (k : ChatDatabase.Fingerprint) :
  session_ids_unique st -> NoDup (map session_id (members_of st k)).
Proof.
  intros Hu. unfold members_of. now apply NoDup_map_filter, NoDup_map_filter.
Qed.

Lemma remove_sessions_NoDup (st : Store) (k : ChatDatabase.Fingerprint) :
  session_ids_unique st -> comma_free st ->
  (1 < List.length (members_of st k))%nat ->
  NoDup (remove_sessions (ChatDatabase.group_row k (members_of st k))).
Proof.
  intros Hu Hc Hlen.
  destruct (group_row_ids st k Hc Hlen) as (keep_row & rest & Hrank & _ & ->).
  assert (Hnd : NoDup (map session_id (order_by ranks_before (members_of st k)))).
  { eapply Permutation_NoDup; [|apply (members_ids_NoDup st k Hu)].
    apply Permutation_map, Permutation_sym, order_by_perm. }
  rewrite Hrank in Hnd. cbn in Hnd. now inversion Hnd.
Qed.

(** The ids that a pass removes are ids of the store, each named once. *)
Lemma removed_ids_NoDup (st : Store) :
  session_ids_unique st -> comma_free st ->
  NoDup (List.concat (map remove_sessions
                          (ChatDatabase.find_duplicate_chat_sessions st)))
  /\ forall x,
       In x (List.concat (map remove_sessions
                              (ChatDatabase.find_duplicate_chat_sessions st))) ->
       In x (map session_id (chat_sessions st)).
Proof.
  intros Hu Hc. split.
  - unfold ChatDatabase.find_duplicate_chat_sessions. rewrite map_map.
    pose proof (duplicate_groups_keys_NoDup st) as Hkeys.
    assert (Hall : forall g, In g (ChatDatabase.duplicate_groups st) ->
                     snd g = members_of st (fst g)
                     /\ (1 < List.length (members_of st (fst g)))%nat).
    { intros [k m] Hg. apply duplicate_groups_In in Hg. cbn.
      destruct Hg as [-> Hlen]. auto. }
    revert Hkeys Hall. generalize (ChatDatabase.duplicate_groups st).
    intros gs. induction gs as [|[k m] gs IH]; intros Hkeys Hall; cbn;
      [constructor|].
    inversion Hkeys as [|? ? Hk Hrest]; subst.
    destruct (Hall (k, m) (or_introl eq_refl)) as [Hm Hlen]. cbn in Hm, Hlen.
    subst m. apply NoDup_app.
    + now apply remove_sessions_NoDup.
    + apply IH; [exact Hrest|]. intros g Hg. apply Hall. now right.
    + intros x Hx Hin. apply in_concat in Hin.
      destruct Hin as (block & Hblock & Hxb).
      apply in_map_iff in Hblock. destruct Hblock as ([k' m'] & <- & Hg').
      destruct (Hall (k', m') (or_intror Hg')) as [Hm' Hlen'].
      cbn in Hm', Hlen', Hxb. subst m'.
      assert (Hne : k' <> k).
      { intros ->. apply Hk. apply in_map_iff. exists (k, members_of st k).
        split; [reflexivity|exact Hg']. }
      destruct (group_row_names st k x Hc Hlen (or_intror Hx))
        as (mm & Hmm & Hid).
      destruct (other_group_disjoint st k k' mm Hu Hc Hne Hlen' Hmm)
        as [_ Hnot].
      apply Hnot. now rewrite Hid.
  - intros x Hx. apply in_concat in Hx. destruct Hx as (block & Hblock & Hxb).
    apply in_map_iff in Hblock. destruct Hblock as (g & <- & Hg).
    apply find_duplicate_In in Hg. destruct Hg as (k & Hlen & ->).
    destruct (group_row_names st k x Hc Hlen (or_intror Hxb)) as (mm & Hmm & <-).
    apply in_map. apply members_of_In in Hmm. tauto.
Qed.

Lemma cleanup_sessions_count (st : Store) (now : Time) :
  session_ids_unique st -> comma_free st ->
  Z.of_nat (List.length
              (chat_sessions
                 (fst (fst (ChatDatabase.cleanup_duplicate_chat_sessions
                              st now)))))
  = Z.of_nat (List.length (chat_sessions st))
    - cs_sessions_removed
        (snd (fst (ChatDatabase.cleanup_duplicate_chat_sessions st now))).
Proof.
  intros Hu Hc. rewrite cleanup_sessions_removed.
  rewrite <- (map_map remove_sessions (fun b => Z.of_nat (List.length b))).
  rewrite total_lengths.
  destruct (removed_ids_NoDup st Hu Hc) as [Hnd Hincl].
  pose proof (filter_mentioned_length session_id (chat_sessions st) _
                Hu Hnd Hincl) as Hcount.
  pose proof (filter_length
                (fun x => mentioned
                            (List.concat
                               (map remove_sessions
                                    (ChatDatabase.find_duplicate_chat_sessions
                                       st)))
                            (session_id x))
                (chat_sessions st)) as Hsplit.
  destruct (ChatDatabase.find_duplicate_chat_sessions st) as [|g gs] eqn:Hfind.
  - unfold ChatDatabase.cleanup_duplicate_chat_sessions. rewrite Hfind.
    cbn. lia.
  - rewrite cleanup_unfold by (rewrite Hfind; discriminate). cbn [fst].
    destruct (fold_cleanup_sessions now
                (ChatDatabase.find_duplicate_chat_sessions st)
                (mkCleanupLoop st 0 0 0 0 [])) as (f & _ & Heq).
    rewrite Heq, length_map. cbn [cl_store]. rewrite Hfind in *. lia.
Qed.

(** X17.  The cleanup script.  With [--check-only] it writes nothing and
    returns the duplicate statistics of the store.  Otherwise, on a
    store whose session ids are unique and hold no comma, the numbers of
    its report add up: the sessions after the cleanup are the sessions
    before less the removed ones, the removed ones are as many as the
    potential duplicates counted before, and none is counted after. *)
Theorem cleanup_script_report_adds_up :
  forall (st : Store) (now : Time),
    CleanupScript.cleanup_chat_database st true now
    = (st, CheckOnly (ChatDatabaseReads.get_duplicate_chat_stats st))
    /\ (session_ids_unique st -> comma_free st ->
        exists summary,
          CleanupScript.cleanup_chat_database st false now
          = (fst (fst (ChatDatabase.cleanup_duplicate_chat_sessions st now)),
             Cleanup summary)
          /\ before_total_sessions summary
             = Z.of_nat (List.length (chat_sessions st))
          /\ after_total_sessions summary
             = before_total_sessions summary - removed_total_sessions summary
          /\ removed_duplicate_sessions summary
             = before_potential_duplicates summary
          /\ removed_total_sessions summary
             = removed_duplicate_sessions summary
          /\ after_potential_duplicates summary = 0).
Proof.
  intros st now. split; [reflexivity|]. intros Hu Hc.
  pose proof (cleanup_sessions_count st now Hu Hc) as Hcount.
  pose proof (cleanup_sessions_removed st now) as Hrem.
  pose proof (stats_duplicate_sessions st) as Hstats.
  pose proof (cleanup_collapses st now Hc) as Hcol.
  unfold CleanupScript.cleanup_chat_database.
  destruct (ChatDatabase.cleanup_duplicate_chat_sessions st now)
    as [[st' stats] log].
  cbn [fst snd] in *. eexists. split; [reflexivity|].
  cbn [before_total_sessions after_total_sessions removed_total_sessions
       removed_duplicate_sessions before_potential_duplicates
       after_potential_duplicates].
  unfold ChatDatabaseReads.get_chat_sessions_count.
  split; [reflexivity|]. split; [exact Hcount|]. split.
  - change (ds_potential_duplicates
              (ChatDatabaseReads.get_duplicate_chat_stats st))
      with (ds_duplicate_sessions_count
              (ChatDatabaseReads.get_duplicate_chat_stats st)).
    rewrite Hrem, Hstats. f_equal. apply map_ext_in.
    intros g Hg. now apply (remove_sessions_length st).
  - split; [reflexivity|].
    change (ds_potential_duplicates
              (ChatDatabaseReads.get_duplicate_chat_stats st'))
      with (ds_duplicate_sessions_count
              (ChatDatabaseReads.get_duplicate_chat_stats st')).
    rewrite stats_duplicate_sessions, find_duplicate_nil; [reflexivity|].
    exact Hcol.
Qed.

Lemma cleanup_script_report_adds_up_witness :
  exists summary,
    CleanupScript.cleanup_chat_database Sample.trio_store false 400
    = (fst (fst (ChatDatabase.cleanup_duplicate_chat_sessions
                   Sample.trio_store 400)),
       Cleanup summary)
    /\ before_total_sessions summary = 3
    /\ after_total_sessions summary
       = before_total_sessions summary - removed_total_sessions summary.
Proof.
  destruct (proj2 (cleanup_script_report_adds_up Sample.trio_store 400))
    as (summary & H1 & H2 & H3 & _).
  - unfold session_ids_unique. vm_compute. repeat constructor; cbn;
      intuition discriminate.
  - apply comma_free_check. vm_compute. reflexivity.
  - exists summary. split; [exact H1|]. split; [rewrite H2; reflexivity|].
    exact H3.
Defined.



(** ** Order positions of a new session *)

Lemma append_row_keeps_order (st st' : Store) (r : Message) :
  chat_messages st' = (chat_messages st ++ [r])%list ->
  orders_increasing st ->
  Forall (fun m => message_order m < message_order r)
         (messages_of st (m_session_id r)) ->
  orders_increasing st'.
Proof.
  intros Happ Hinc Hlt sid.
  destruct (String.eqb sid (m_session_id r)) eqn:E.
  - apply String.eqb_eq in E. subst sid.
    rewrite (messages_of_app st st' (m_session_id r) [r] Happ)
      by (repeat constructor).
    rewrite map_app. cbn. apply sorted_snoc; [apply Hinc|].
    rewrite Forall_map. exact Hlt.
  - apply String.eqb_neq in E.
    rewrite (messages_of_grown_elsewhere st st' (m_session_id r) sid [r] Happ)
      by (repeat constructor; auto).
    apply Hinc.
Qed.

Lemma fold_save_enumerated (sid : string) (now : Time) (messages : list Msg) :
  forall (i : Z) (s : SaveLoop),
    0 <= i ->
    orders_increasing (sl_store s) ->
    Forall (fun m => 1 <= message_order m <= i)
           (messages_of (sl_store s) sid) ->
    let s' := fold_left (ChatDatabase.save_message sid now)
                        (ChatParser.enumerate_from i messages) s in
    orders_increasing (sl_store s')
    /\ Forall (fun m => 1 <= message_order m
                        <= i + Z.of_nat (List.length messages))
              (messages_of (sl_store s') sid).
Proof.
  induction messages as [|msg rest IH]; intros i s Hi Hinc Hb;
    cbn [ChatParser.enumerate_from fold_left List.length].
  - split; [exact Hinc|]. eapply Forall_impl; [|exact Hb]. cbn. lia.
  - set (numbered := mkMsg (msg_message_id msg) (msg_sender msg)
                           (msg_sender_type msg) (msg_text msg)
                           (msg_timestamp msg) (Some (i + 1))).
    assert (Hstep :
      orders_increasing
        (sl_store (ChatDatabase.save_message sid now s numbered))
      /\ Forall (fun m => 1 <= message_order m <= i + 1)
                (messages_of
                   (sl_store (ChatDatabase.save_message sid now s numbered))
                   sid)).
    { destruct (save_message_turn sid now s numbered)
        as [(Hst & _)|(r & Happ & _ & Hw & _)].
      - rewrite Hst. split; [exact Hinc|].
        eapply Forall_impl; [|exact Hb]. cbn. lia.
      - destruct Hw as (Hsid & _ & _ & _ & _ & _ & _ & Hord).
        cbn [numbered msg_order] in Hord. injection Hord as Hord.
        split.
        + eapply append_row_keeps_order; [exact Happ|exact Hinc|].
          rewrite Hsid. eapply Forall_impl; [|exact Hb]. cbn. lia.
        + rewrite (messages_of_app _ _ sid [r] Happ)
            by (repeat constructor; exact Hsid).
          apply Forall_app. split.
          * eapply Forall_impl; [|exact Hb]. cbn. lia.
          * repeat constructor; lia. }
    destruct Hstep as [Hinc1 Hb1].
    destruct (IH (i + 1) (ChatDatabase.save_message sid now s numbered)
                 ltac:(lia) Hinc1 Hb1) as [A B].
    split; [exact A|]. eapply Forall_impl; [|exact B]. cbn. lia.
Qed.

(** X20.  [save_to_database] keeps the order positions increasing when
    the session id under which it saves holds no message yet: from a
    store in which the order positions of every session grow along its
    rows it leaves such a store, and the rows of the new session carry
    positions from 1 to the number of messages of the scrape. *)
Theorem save_to_database_numbers_from_one :
  forall (st : Store) (messages : list Msg) (platform : string)
         (session_id : option string) (now : Now),
    orders_increasing st ->
    messages_of st (snd (ChatParser.save_to_database st messages platform
                                                     session_id now)) = [] ->
    let st' :=
      fst (ChatParser.save_to_database st messages platform session_id now) in
    let sid :=
      snd (ChatParser.save_to_database st messages platform session_id now) in
    orders_increasing st'
    /\ Forall (fun m => 1 <= message_order m
                        <= Z.of_nat (List.length messages))
              (messages_of st' sid)
    /\ count_messages st' sid <= Z.of_nat (List.length messages).
Proof.
  intros st messages platform session_id now Hinc Hfresh. cbn zeta.
  destruct (save_to_database_ids st messages platform session_id now)
    as (Hsid & _ & st1 & Hm & Hst).
  cbn zeta in Hsid. rewrite Hsid in *. rewrite Hst.
  set (sid := if ChatParser.falsy session_id
              then platform ++ "_" ++ stamp now else get session_id "") in *.
  assert (Hsame : forall x, messages_of st1 x = messages_of st x)
    by (intros x; unfold messages_of; now rewrite Hm).
  unfold ChatDatabase.save_chat_messages. cbn [fst].
  destruct (fold_save_enumerated sid (instant now) messages 0
              (mkSaveLoop st1 0 [])) as [A B].
  - lia.
  - intros x. cbn [sl_store]. rewrite Hsame. apply Hinc.
  - cbn [sl_store]. rewrite Hsame, Hfresh. constructor.
  - cbn zeta in A, B. split; [exact A|]. split; [exact B|].
    destruct (fold_save_message_grows sid (instant now)
                (ChatParser.enumerate_from 0 messages)
                (mkSaveLoop st1 0 [])) as (rows & Happ & _ & Hlen & Hrows).
    cbn zeta in Happ. unfold count_messages.
    rewrite (messages_of_app _ _ sid rows Happ).
    + cbn [sl_store]. rewrite Hsame, Hfresh. cbn [app].
      assert (Hen : forall l i, List.length (ChatParser.enumerate_from i l)
                                = List.length l).
      { induction l as [|x l IHl]; intros i; cbn; [reflexivity|].
        now rewrite IHl. }
      rewrite Hen in Hlen. lia.
    + eapply Forall_impl; [|exact Hrows]. intros r (msg & _ & Hw). apply Hw.
Qed.

Lemma save_to_database_numbers_from_one_witness :
  orders_increasing
    (fst (ChatParser.save_to_database Sample.chat_1_store Sample.first_scrape
                                      "upwork" None Sample.noon)).
Proof.
  apply (save_to_database_numbers_from_one
           Sample.chat_1_store Sample.first_scrape "upwork" None Sample.noon).
  - intros sid. unfold messages_of. simpl.
    destruct (owned_by sid _); simpl; repeat constructor.
  - reflexivity.
Defined.

Lemma increasing_sorted (l : list Z) :
  increasing l = true -> StronglySorted Z.lt l.
Proof.
  induction l as [|x l IH]; cbn [increasing]; [constructor|].
  intros H. apply andb_true_iff in H. destruct H as [Hx Hl].
  constructor; [now apply IH|].
  rewrite forallb_forall in Hx. apply Forall_forall. intros y Hy.
  apply Z.ltb_lt. now apply Hx.
Qed.

Lemma orders_increasing_check_ok (st : Store) :
  orders_increasing_check st = true -> orders_increasing st.
Proof.
  unfold orders_increasing_check. rewrite forallb_forall. intros H sid.
  destruct (messages_of st sid) as [|m rest] eqn:E; [constructor|].
  assert (Hm : In m (messages_of st sid)) by (rewrite E; now left).
  unfold messages_of in Hm. apply filter_In in Hm. destruct Hm as [Hin Ho].
  unfold owned_by in Ho. apply String.eqb_eq in Ho.
  rewrite <- E, <- Ho. apply increasing_sorted. now apply H.
Qed.

Lemma orders_increasing_same_messages (st st' : Store) :
  chat_messages st' = chat_messages st ->
  orders_increasing st -> orders_increasing st'.
Proof.
  intros E H sid. unfold messages_of. rewrite E. apply H.
Qed.

(** C5 at two creating ingests under one session id.
    [save_to_database] numbers the rows of a scrape from 1, whatever the
    session holds.  The first scrape is saved into an empty store, which
    leaves the positions 1 to 5; the two new messages are then saved
    under the same session id, either within the same second, the id
    being made of the platform and the second, or with the id passed as
    the argument: the session holds the positions 1, 2, 3, 4, 5, 1, 2 in
    the order of its rows, which are neither increasing nor pairwise
    distinct. *)
Theorem save_to_database_restarts_positions :
  let sid := "upwork_20250101_120000" in
  let again :=
    fst (ChatParser.save_to_database Sample.first_store Sample.new_messages
                                     "upwork" None Sample.noon) in
  let later :=
    fst (ChatParser.save_to_database Sample.first_store Sample.new_messages
                                     "upwork" (Some sid)
                                     Sample.ten_past_noon) in
  orders_increasing Sample.first_store
  /\ map message_order (messages_of Sample.first_store sid) = [1; 2; 3; 4; 5]
  /\ snd (ChatParser.save_to_database Sample.first_store Sample.new_messages
                                      "upwork" None Sample.noon) = sid
  /\ map message_order (messages_of again sid) = [1; 2; 3; 4; 5; 1; 2]
  /\ map message_order (messages_of later sid) = [1; 2; 3; 4; 5; 1; 2]
  /\ ~ orders_increasing again
  /\ ~ orders_increasing later
  /\ ~ NoDup (map message_order (messages_of again sid))
  /\ ~ NoDup (map message_order (messages_of later sid)).
Proof.
  cbv zeta.
  set (again := fst (ChatParser.save_to_database Sample.first_store
                       Sample.new_messages "upwork" None Sample.noon)).
  set (later := fst (ChatParser.save_to_database Sample.first_store
                       Sample.new_messages "upwork"
                       (Some "upwork_20250101_120000") Sample.ten_past_noon)).
  assert (Ea : map message_order (messages_of again "upwork_20250101_120000")
               = [1; 2; 3; 4; 5; 1; 2]) by (vm_compute; reflexivity).
  assert (El : map message_order (messages_of later "upwork_20250101_120000")
               = [1; 2; 3; 4; 5; 1; 2]) by (vm_compute; reflexivity).
  assert (Hbad : ~ StronglySorted Z.lt [1; 2; 3; 4; 5; 1; 2]).
  { intros H. apply StronglySorted_inv in H. destruct H as [_ H].
    rewrite Forall_forall in H. specialize (H 1). cbn in H.
    assert (1 < 1) by (apply H; tauto). lia. }
  assert (Hdup : ~ NoDup [1; 2; 3; 4; 5; 1; 2]).
  { intros H. apply NoDup_cons_iff in H. destruct H as [H _].
    apply H. cbn. tauto. }
  split; [apply orders_increasing_check_ok; vm_compute; reflexivity|].
  split; [vm_compute; reflexivity|].
  split; [vm_compute; reflexivity|].
  split; [exact Ea|]. split; [exact El|].
  split; [intros H; specialize (H "upwork_20250101_120000");
          rewrite Ea in H; exact (Hbad H)|].
  split; [intros H; specialize (H "upwork_20250101_120000");
          rewrite El in H; exact (Hbad H)|].
  split; [rewrite Ea; exact Hdup|rewrite El; exact Hdup].
Qed.

(** X26.  The merges keep the order positions increasing.  From a store
    in which the order positions of every session grow strictly along
    its rows, every sequence of calls of [merge_chat_sessions],
    [cleanup_duplicate_chat_sessions], [update_existing_session],
    [process_incremental], [save_chat_session] and
    [update_session_phase] leaves such a store: a merge appends above
    the largest position of the surviving session, a failed copy leaves
    a gap, and the other four write no message row. *)
Theorem merges_keep_positions_increasing :
  forall (st : Store) (calls : list Call),
    orders_increasing st ->
    forallb numbers_after_stored calls = true ->
    orders_increasing (perform_all st calls).
Proof.
  intros st calls. revert st. unfold perform_all.
  induction calls as [|c rest IH]; intros st Hst Hcalls; cbn [fold_left];
    [exact Hst|].
  cbn [forallb] in Hcalls. apply andb_true_iff in Hcalls.
  destruct Hcalls as [Hc Hrest]. apply IH; [|exact Hrest]. clear IH Hrest.
  destruct c as [data now|sid messages now|sid p confidence now
                |sid batch now|keep removes now|now
                |messages platform sid now|pick messages platform now];
    try discriminate Hc.
  - cbn [perform]. unfold ChatDatabase.save_chat_session.
    destruct (sd_session_id data) as [sid|]; cbn [bind subscript];
      [|exact Hst].
    eapply orders_increasing_same_messages; [|exact Hst]. reflexivity.
  - cbn [perform].
    eapply orders_increasing_same_messages; [|exact Hst]. reflexivity.
  - rewrite perform_update_existing_session. exact Hst.
  - cbn [perform]. now apply merge_chat_sessions_keeps_order.
  - cbn [perform]. now apply cleanup_keeps_order.
  - cbn [perform]. rewrite process_incremental_writes_nothing. exact Hst.
Qed.

Lemma merges_keep_positions_increasing_witness :
  orders_increasing
    (perform_all Sample.trio_store
       [MergeChatSessions "erin_b" ["erin_c"] 400;
        UpdateExistingSession "erin_b" Sample.new_messages 450;
        CleanupDuplicateChatSessions 500]).
Proof.
  apply merges_keep_positions_increasing.
  - apply orders_increasing_check_ok. vm_compute. reflexivity.
  - reflexivity.
Defined.

(** ** The participant *)

(** X22.  [extract_participant_name] looks at the first ten messages
    only and not at the platform.  When the set iteration hands over a
    member of the set, its answer is 'Unknown Participant' if none of
    those messages has a sender other than 'unknown', 'user', 'me', 'you'
    and shorter than 50 characters, and the sender of one of those
    messages that is of this kind otherwise. *)
Theorem participant_is_a_sender_of_the_first_ten :
  forall (first_of_set : list string -> string) (platform other : string)
         (messages : list Msg),
    (forall senders, senders <> [] -> In (first_of_set senders) senders) ->
    let participant :=
      ChatParser.extract_participant_name first_of_set platform messages in
    participant
    = ChatParser.extract_participant_name first_of_set other
                                          (firstn 10 messages)
    /\ ((participant = "Unknown Participant"
         /\ forall msg who, In msg (firstn 10 messages) ->
                            msg_sender msg = Some who ->
                            ChatParser.valid_sender who = false)
        \/ (exists msg, In msg (firstn 10 messages)
                        /\ msg_sender msg = Some participant
                        /\ ChatParser.valid_sender participant = true)).
Proof.
  intros pick platform other messages Hpick. cbn zeta.
  unfold ChatParser.extract_participant_name.
  rewrite firstn_firstn. change (Init.Nat.min 10 10) with 10%nat.
  split; [reflexivity|].
  set (named := map (fun msg => get (msg_sender msg) "unknown")
                    (firstn 10 messages)).
  destruct (distinct String.eqb (filter ChatParser.valid_sender named))
    as [|a rest] eqn:E.
  - left. split; [reflexivity|]. intros msg who Hin Hwho.
    destruct (ChatParser.valid_sender who) eqn:Hv; [|reflexivity].
    assert (Hd : In who (distinct String.eqb
                                  (filter ChatParser.valid_sender named))).
    { apply (distinct_In _ String.eqb_eq). apply filter_In. split; [|exact Hv].
      unfold named. apply in_map_iff. exists msg. rewrite Hwho. auto. }
    rewrite E in Hd. destruct Hd.
  - right.
    assert (Hd : In (pick (a :: rest))
                    (distinct String.eqb
                              (filter ChatParser.valid_sender named))).
    { rewrite E. apply Hpick. discriminate. }
    apply (proj1 (distinct_In _ String.eqb_eq _ _)) in Hd.
    apply filter_In in Hd.
    destruct Hd as [Hin Hv]. unfold named in Hin. apply in_map_iff in Hin.
    destruct Hin as (msg & Hget & Hmsg). exists msg. split; [exact Hmsg|].
    split; [|exact Hv].
    destruct (msg_sender msg) as [who|]; cbn [get] in Hget;
      [now rewrite Hget|].
    rewrite <- Hget in Hv. discriminate.
Qed.

Lemma participant_is_a_sender_of_the_first_ten_witness :
  ChatParser.extract_participant_name Sample.first_inserted "upwork"
                                      Sample.first_scrape
  = ChatParser.extract_participant_name Sample.first_inserted "linkedin"
                                        (firstn 10 Sample.first_scrape).
Proof.
  apply (participant_is_a_sender_of_the_first_ten
           Sample.first_inserted "upwork" "linkedin" Sample.first_scrape).
  intros [|a l] H; [congruence|now left].
Defined.

(** ** The columns that the writes leave alone *)

Lemma same_but_rollup_refl (a : Session) : same_but_rollup a a.
Proof. unfold same_but_rollup. tauto. Qed.

Lemma same_but_rollup_trans (a b c : Session) :
  same_but_rollup a b -> same_but_rollup b c -> same_but_rollup a c.
Proof. unfold same_but_rollup. intuition congruence. Qed.

Lemma refresh_same_but_rollup (sid : string) (now : Time) (count : Z)
      (s : Session) :
  same_but_rollup (if String.eqb (session_id s) sid
                   then refresh_session now count s else s) s.
Proof.
  destruct (String.eqb (session_id s) sid); [|apply same_but_rollup_refl].
  unfold same_but_rollup. cbn. tauto.
Qed.

Lemma rows_of_reshaped (st st' : Store) (f : Session -> Session)
      (g : Session -> bool) :
  (forall x, same_but_rollup (f x) x) ->
  chat_sessions st' = map f (filter g (chat_sessions st)) ->
  forall s', In s' (chat_sessions st') ->
             exists s, In s (chat_sessions st) /\ same_but_rollup s' s.
Proof.
  intros Hf Heq s' Hs'. rewrite Heq in Hs'. apply in_map_iff in Hs'.
  destruct Hs' as (s & <- & Hs). apply filter_In in Hs.
  exists s. split; [tauto|apply Hf].
Qed.

Lemma merge_rows (st : Store) (keep : string) (removes : list string)
      (now : Time) :
  forall s',
    In s' (chat_sessions
             (fst (fst (ChatDatabase.merge_chat_sessions st keep removes now)))) ->
    exists s, In s (chat_sessions st) /\ same_but_rollup s' s.
Proof.
  eapply rows_of_reshaped; [|apply merge_chat_sessions_sessions].
  intros x. apply refresh_same_but_rollup.
Qed.

Lemma cleanup_rows (st : Store) (now : Time) :
  forall s',
    In s' (chat_sessions
             (fst (fst (ChatDatabase.cleanup_duplicate_chat_sessions st now)))) ->
    exists s, In s (chat_sessions st) /\ same_but_rollup s' s.
Proof.
  destruct (ChatDatabase.find_duplicate_chat_sessions st) as [|g gs] eqn:Hfind.
  - unfold ChatDatabase.cleanup_duplicate_chat_sessions. rewrite Hfind.
    cbn [fst]. intros s' Hs'. exists s'. split; [exact Hs'|].
    apply same_but_rollup_refl.
  - rewrite cleanup_unfold by (rewrite Hfind; discriminate). cbn [fst].
    generalize (ChatDatabase.find_duplicate_chat_sessions st). intros groups.
    assert (H : forall s0 s',
               In s' (chat_sessions
                        (cl_store (fold_left (ChatDatabase.cleanup_group now)
                                             groups s0))) ->
               exists s, In s (chat_sessions (cl_store s0))
                         /\ same_but_rollup s' s).
    { induction groups as [|x xs IH]; intros s0 s' Hs'; cbn [fold_left] in Hs'.
      - exists s'. split; [exact Hs'|apply same_but_rollup_refl].
      - destruct (IH _ _ Hs') as (s1 & Hs1 & Hsame1).
        destruct (cleanup_group_store now s0 x) as [Hst _].
        rewrite Hst in Hs1.
        destruct (merge_rows _ _ _ _ _ Hs1) as (s & Hs & Hsame).
        exists s. split; [exact Hs|].
        eapply same_but_rollup_trans; eassumption. }
    intros s' Hs'. exact (H (mkCleanupLoop st 0 0 0 0 []) s' Hs').
Qed.

(** X23.  Writing messages never changes what a session is.  After
    [save_chat_messages], [update_existing_session],
    [merge_chat_sessions] or [cleanup_duplicate_chat_sessions], every
    session row of the store is a row that was there before, with its
    rowid, its id, platform, title, participant, url, status, phase
    columns and creation instant: only [last_activity] and
    [total_messages] may have changed, and rows may have been deleted. *)
Theorem message_writes_touch_the_rollup_only :
  forall (st : Store) (c : Call) (s' : Session),
    writes_messages_only c = true ->
    In s' (chat_sessions (perform st c)) ->
    exists s, In s (chat_sessions st) /\ same_but_rollup s' s.
Proof.
  intros st c s' Hc Hs'.
  destruct c as [data now|sid messages now|sid p confidence now
                |sid batch now|keep removes now|now
                |messages platform sid now|pick messages platform now];
    try discriminate; cbn [perform] in Hs'.
  - rewrite save_chat_messages_sessions in Hs'.
    exists s'. split; [exact Hs'|apply same_but_rollup_refl].
  - exists s'. split; [exact Hs'|apply same_but_rollup_refl].
  - eapply merge_rows. exact Hs'.
  - eapply cleanup_rows. exact Hs'.
Qed.

Lemma message_writes_touch_the_rollup_only_witness :
  exists s, In s (chat_sessions Sample.trio_store)
            /\ same_but_rollup
                 (mkSession 2 "erin_b" (Some "upwork")
                            (Some "Upwork Chat with Erin") (Some "Erin") ""
                            200 400 11 "active" None None None 200)
                 s.
Proof.
  apply (message_writes_touch_the_rollup_only
           Sample.trio_store (CleanupDuplicateChatSessions 400)).
  - reflexivity.
  - vm_compute. now left.
Defined.

Lemma save_chat_session_rows (st st' : Store) (data : SessionData)
      (now : Time) (sid : string) :
  ChatDatabase.save_chat_session st data now = Ok (st', sid) ->
  forall s', In s' (chat_sessions st') ->
             In s' (chat_sessions st) \/ status s' = "active".
Proof.
  unfold ChatDatabase.save_chat_session.
  destruct (sd_session_id data) as [sid0|]; cbn [bind subscript];
    [|discriminate].
  intros H. injection H as <- _. cbn [chat_sessions
    ChatDatabase.insert_or_replace_session].
  intros s' Hs'. apply in_app_or in Hs'. destruct Hs' as [Hs'|[<-|[]]].
  - left. apply filter_In in Hs'. tauto.
  - right. reflexivity.
Qed.

Lemma save_to_database_rows (st : Store) (messages : list Msg)
      (platform : string) (session_id : option string) (now : Now) :
  forall s',
    In s' (chat_sessions
             (fst (ChatParser.save_to_database st messages platform session_id
                                               now))) ->
    In s' (chat_sessions st) \/ status s' = "active".
Proof.
  unfold ChatParser.save_to_database.
  match goal with
  | |- context [ChatDatabase.save_chat_session st ?d ?t] =>
      destruct (ChatDatabase.save_chat_session st d t) as [[st1 sid1]|e] eqn:Hsave
  end.
  2:{ unfold ChatDatabase.save_chat_session in Hsave.
      cbn [sd_session_id bind subscript] in Hsave. discriminate. }
  intros s' Hs'.
  match type of Hs' with
  | context [ChatDatabase.save_chat_messages st1 ?sid ?l ?t] =>
      pose proof (save_chat_messages_sessions sid t l st1) as Hs;
      destruct (ChatDatabase.save_chat_messages st1 sid l t) as [[st2 n] log]
  end.
  cbn [fst] in *. rewrite Hs in Hs'.
  eapply save_chat_session_rows; eassumption.
Qed.

(** X24.  No method closes a session.  From a store in which every
    session has the status 'active' (the empty store is one), every
    sequence of calls of the writing methods leaves such a store: the
    sessions that the resolver finds and the sessions that
    [get_latest_session] and the dashboard look at are then the same. *)
Theorem sessions_stay_active :
  forall (st : Store) (calls : list Call),
    Forall (fun s => status s = "active") (chat_sessions st) ->
    Forall (fun s => status s = "active")
           (chat_sessions (perform_all st calls)).
Proof.
  intros st calls. revert st. unfold perform_all.
  induction calls as [|c rest IH]; intros st Hst; cbn [fold_left];
    [exact Hst|].
  apply IH. rewrite Forall_forall in *. intros s' Hs'.
  assert (Hold : forall s, In s (chat_sessions st) -> same_but_rollup s' s ->
                           status s' = "active").
  { intros s Hs Hsame. destruct Hsame as (_ & _ & _ & _ & _ & _ & _ & -> & _).
    now apply Hst. }
  destruct c as [data now|sid messages now|sid p confidence now
                |sid batch now|keep removes now|now
                |messages platform sid now|pick messages platform now].
  - cbn [perform] in Hs'.
    destruct (ChatDatabase.save_chat_session st data now) as [[st' sid]|e]
      eqn:Hsave; [|now apply Hst].
    destruct (save_chat_session_rows _ _ _ _ _ Hsave s' Hs'); auto.
  - cbn [perform] in Hs'. rewrite save_chat_messages_sessions in Hs'.
    now apply Hst.
  - cbn [perform] in Hs'. unfold ChatDatabase.update_session_phase in Hs'.
    cbn [fst chat_sessions] in Hs'. apply in_map_iff in Hs'.
    destruct Hs' as (x & <- & Hx).
    destruct (String.eqb (session_id x) sid); cbn; now apply Hst.
  - rewrite perform_update_existing_session in Hs'. now apply Hst.
  - destruct (merge_rows st keep removes now s' Hs') as (s & Hs & Hsame).
    eapply Hold; eassumption.
  - destruct (cleanup_rows st now s' Hs') as (s & Hs & Hsame).
    eapply Hold; eassumption.
  - cbn [perform] in Hs'.
    destruct (save_to_database_rows _ _ _ _ _ s' Hs'); auto.
  - cbn [perform] in Hs'. rewrite process_incremental_writes_nothing in Hs'.
    now apply Hst.
Qed.

Lemma sessions_stay_active_witness :
  Forall (fun s => status s = "active")
         (chat_sessions
            (perform_all empty_store
               [SaveToDatabase Sample.first_scrape "upwork" None Sample.noon;
                ProcessIncremental Sample.first_inserted Sample.second_scrape
                                   "upwork" Sample.ten_past_noon;
                UpdateSessionPhase "upwork_20250101_120000" "negotiation"
                                   0.5%float 1735733000;
                CleanupDuplicateChatSessions 1735734000])).
Proof.
  apply sessions_stay_active. constructor.
Defined.
